(** * ReqTxtGenerator: a shallow embedding of [FirstEdition.py] and [GeminiWay.py]

    The two scripts infer the third-party requirements of a Python project.
    [FirstEdition.py] walks the project tree, collects import names from the
    syntax trees, filters standard-library and local names, resolves the rest
    against the installed-package metadata and writes [requirements.txt].
    [GeminiWay.py] sends the concatenated sources to a text-generation service
    and resolves the names it answers.

    Conventions of the embedding:
    - a Python [str] is a [string]; comparison is lexicographic on character
      codes, [lower] and [strip] act on the ASCII range;
    - a Python [set] is a duplicate-free list whose order stands for the
      (unspecified) iteration order of the set;
    - a Python [dict] is an association list in insertion order;
    - [None] is [None]; an exception is a [Raise] carrying its message;
    - the file system under the project root is a finite tree whose sibling
      order is the order in which [os.walk] discovers the entries;
    - the installed-package metadata ([importlib.metadata.distribution]), the
      parser ([ast.parse]) and the text-generation service are parameters of
      the development;
    - what a process prints is the list of the texts of its [print] calls, and
      the names it passes to the metadata index are logged in call order;
    - literals are [ast.Constant] nodes (Python 3.8 and later); symbolic links
      and errors of the operating system while listing a directory or writing
      the manifest are outside the model. *)

From Stdlib Require Import String Ascii List Bool Arith Lia NArith.
From Stdlib Require Import Permutation Sorted DecimalString OrderedTypeEx.
Import ListNotations.
Open Scope string_scope.
Open Scope list_scope.

Set Implicit Arguments.
Set Warnings "-register-all".

(** ** Python values *)

Module Py.

(** The outcome of an operation that may raise. *)
Inductive result (A : Type) : Type :=
| Ok (a : A)
| Raise (msg : string).
Arguments Ok {A} a.
Arguments Raise {A} msg.

(** Truth value of a [str]: the empty string is false. *)
Definition truthy (s : string) : bool := negb (s =? "").

(** Truth value of an optional [str]: [None] and [''] are false. *)
Definition truthy_opt (o : option string) : bool :=
  match o with
  | Some s => truthy s
  | None => false
  end.

(** [str(n)] for a natural number. *)
Definition str_of_nat (n : nat) : string :=
  NilEmpty.string_of_uint (Nat.to_uint n).

(** [s * n]. *)
Fixpoint repeat_str (s : string) (n : nat) : string :=
  match n with
  | O => ""
  | S n' => s ++ repeat_str s n'
  end.

(** [sep.join(l)]. *)
Definition join (sep : string) (l : list string) : string := String.concat sep l.

(** [s.endswith(suffix)]. *)
Definition endswith (s suffix : string) : bool :=
  let n := String.length s in
  let m := String.length suffix in
  (m <=? n)%nat && (substring (n - m) m s =? suffix).

(** [s.split(sep)] for a one-character separator: the pieces of [s] between
    the occurrences of [sep]; the result is never empty. *)
Fixpoint str_split (sep : ascii) (s : string) : list string :=
  match s with
  | EmptyString => [""]
  | String c s' =>
      if Ascii.eqb c sep then "" :: str_split sep s'
      else match str_split sep s' with
           | [] => [String c ""]
           | piece :: rest => String c piece :: rest
           end
  end.

(** [s.split('.')[0]]. *)
Definition first_segment (s : string) : string := hd "" (str_split "." s).

(** ASCII case folding of one character. *)
Definition lower_ascii (c : ascii) : ascii :=
  let n := nat_of_ascii c in
  if ((65 <=? n) && (n <=? 90))%nat then ascii_of_nat (n + 32) else c.

(** [s.lower()]. *)
Fixpoint lower (s : string) : string :=
  match s with
  | EmptyString => EmptyString
  | String c s' => String (lower_ascii c) (lower s')
  end.

(** The characters [str.strip()] removes: tab, line feed, vertical tab, form
    feed, carriage return, the separators 28-31 and the space. *)
Definition is_space (c : ascii) : bool :=
  let n := nat_of_ascii c in
  (((9 <=? n) && (n <=? 13)) || ((28 <=? n) && (n <=? 32)))%nat.

(** [s.lstrip()]. *)
Fixpoint lstrip (s : string) : string :=
  match s with
  | EmptyString => EmptyString
  | String c s' => if is_space c then lstrip s' else s
  end.

(** [s.rstrip()]. *)
Fixpoint rstrip (s : string) : string :=
  match s with
  | EmptyString => EmptyString
  | String c s' =>
      match rstrip s' with
      | EmptyString => if is_space c then EmptyString else String c EmptyString
      | r => String c r
      end
  end.

(** [s.strip()]. *)
Definition strip (s : string) : string := rstrip (lstrip s).

(** *** Sets of strings *)

(** [x in s]. *)
Definition mem (x : string) (s : list string) : bool := existsb (String.eqb x) s.

(** [s.add(x)]. *)
Definition set_add (x : string) (s : list string) : list string :=
  if mem x s then s else s ++ [x].

(** [s.update(t)]. *)
Definition set_update (s t : list string) : list string :=
  fold_left (fun acc x => set_add x acc) t s.

(** *** Dictionaries *)

Section Dict.
Variables K V : Type.
Variable eqb : K -> K -> bool.

Definition dict : Type := list (K * V).

(** [d.get(k)]. *)
Fixpoint dict_get (k : K) (d : dict) : option V :=
  match d with
  | [] => None
  | (k', v) :: d' => if eqb k k' then Some v else dict_get k d'
  end.

(** [k in d]. *)
Definition dict_mem (k : K) (d : dict) : bool :=
  match dict_get k d with
  | Some _ => true
  | None => false
  end.

(** [d[k] = v]: an existing key keeps its place, a new key goes last. *)
Fixpoint dict_set (k : K) (v : V) (d : dict) : dict :=
  match d with
  | [] => [(k, v)]
  | (k', v') :: d' =>
      if eqb k k' then (k', v) :: d' else (k', v') :: dict_set k v d'
  end.

(** [list(d)]: the keys in insertion order. *)
Definition dict_keys (d : dict) : list K := map fst d.

(** [if k not in d: d[k] = v]. *)
Definition dict_add_new (k : K) (v : V) (d : dict) : dict :=
  if dict_mem k d then d else dict_set k v d.

(** One turn of a loop that records under its key what [res] finds for [x],
    unless the key is there already. *)
Definition record_new (X : Type) (res : X -> option (K * V)) (d : dict) (x : X) : dict :=
  match res x with
  | Some (k, v) => dict_add_new k v d
  | None => d
  end.
End Dict.

(** *** Sorting *)

Section Sorted.
Variable A : Type.
Variable key : A -> string.

(** Insertion in front of the first element whose key is not smaller. *)
Fixpoint insert (x : A) (l : list A) : list A :=
  match l with
  | [] => [x]
  | y :: l' => if (key x <=? key y)%string then x :: l else y :: insert x l'
  end.

(** [sorted(l, key=key)]: a stable sort by the string order of the keys. *)
Definition sorted (l : list A) : list A := fold_right insert [] l.

(** The order [sorted] sorts by. *)
Definition key_le (a b : A) : Prop := (key a <=? key b)%string = true.
End Sorted.

(** [sorted(l)] on strings. *)
Definition sorted_str (l : list string) : list string := sorted (fun s => s) l.

End Py.

Import Py.

(** ** Syntax trees ([ast]) *)

Module Ast.

(** The value of an [ast.Constant]: a [str], or any other literal, which
    carries the message of the exception its [.split('.')] raises. *)
Inductive constant : Type :=
| CStr (s : string)
| COther (err : string).

(** The node kinds the scanners test for; every other kind is a [Node] with
    its child nodes in field order. An [Import] holds the dotted names of its
    aliases, an [ImportFrom] its module (or [None]) and its level. *)
Inductive node : Type :=
| Import (names : list string)
| ImportFrom (module : option string) (level : nat)
| Assign (targets : list node) (value : node)
| Name (id : string)
| Constant (value : constant)
| List_ (elts : list node)
| Tuple (elts : list node)
| Node (children : list node).

(** [ast.iter_child_nodes]: the child nodes that can themselves hold one of
    the tested kinds (aliases and expression contexts are leaves of kinds no
    scanner tests for and are left out). *)
Definition iter_child_nodes (n : node) : list node :=
  match n with
  | Import _ | ImportFrom _ _ | Name _ | Constant _ => []
  | Assign targets value => targets ++ [value]
  | List_ elts | Tuple elts | Node elts => elts
  end.

(** Number of nodes of a tree. *)
Fixpoint size (n : node) : nat :=
  match n with
  | Import _ | ImportFrom _ _ | Name _ | Constant _ => 1
  | Assign targets value => S (list_sum (map size targets) + size value)
  | List_ elts | Tuple elts | Node elts => S (list_sum (map size elts))
  end.

(** The loop of [ast.walk]: pop the head of the queue, queue its children
    behind the rest, yield it. [fuel] bounds the number of iterations. *)
Fixpoint walk_queue (fuel : nat) (todo : list node) : list node :=
  match fuel with
  | O => []
  | S fuel' =>
      match todo with
      | [] => []
      | n :: rest => n :: walk_queue fuel' (rest ++ iter_child_nodes n)
      end
  end.

(** [ast.walk(tree)]: every node of the tree, breadth first. *)
Definition walk (tree : node) : list node := walk_queue (size tree) [tree].

(** [sub] is [n] or one of its descendants. *)
Inductive subnode (sub : node) : node -> Prop :=
| subnode_here : subnode sub sub
| subnode_child (n c : node) :
    In c (iter_child_nodes n) -> subnode sub c -> subnode sub n.

End Ast.

(** ** The project tree and [os.walk] *)

Module Fs.

(** A path, as the list of its components below the file-system root. *)
Definition path : Type := list string.

(** [os.path.basename]. *)
Definition basename (p : path) : string := last p "".

(** [os.path.join(dirpath, name)]. *)
Definition path_join (p : path) (name : string) : path := p ++ [name].

(** The text of a path. *)
Definition path_str (p : path) : string := "/" ++ join "/" p.

(** A directory: its files, each with the outcome of opening and reading it
    as UTF-8 text, and its sub-directories, in the order the operating system
    lists them. *)
Inductive dir : Type :=
| Dir (files : list (string * result string)) (subdirs : list (string * dir)).

Definition files (d : dir) : list (string * result string) :=
  match d with Dir fs _ => fs end.

Definition subdirs (d : dir) : list (string * dir) :=
  match d with Dir _ ds => ds end.

(** The [filenames] and [dirnames] that [os.walk] reports for a directory. *)
Definition filenames (d : dir) : list string := map fst (files d).
Definition dirnames (d : dir) : list string := map fst (subdirs d).

(** [os.listdir]. *)
Definition listdir (d : dir) : list string := dirnames d ++ filenames d.

(** One step of [os.walk]: the path of a directory, the listing of its parent
    directory, and the directory itself. *)
Record walk_entry : Type := {
  dirpath : path;
  parent_listing : list string;
  entry : dir
}.

(** [os.walk(top)], top down. [keep] is the pruning the caller applies with
    [dirnames[:] = [d for d in dirnames if keep d]]; a caller that leaves
    [dirnames] alone keeps everything. *)
Fixpoint os_walk (keep : string -> bool) (top : path) (parent : list string)
    (d : dir) : list walk_entry :=
  {| dirpath := top; parent_listing := parent; entry := d |}
  :: match d with
     | Dir _ subs =>
         flat_map
           (fun sub =>
              if keep (fst sub)
              then os_walk keep (path_join top (fst sub)) (listdir d) (snd sub)
              else [])
           subs
     end.

(** A project: the absolute path of its root, the listing of the directory
    above the root, and the tree below the root. *)
Record project : Type := {
  root_dir : path;
  above_root : list string;
  root : dir
}.

(** [os.walk] from the directory [d] at [top] reaches the entry [e]: [e] is
    [d] itself, or is reached from a sub-directory that the caller keeps. *)
Inductive visits (keep : string -> bool)
  : path -> list string -> dir -> walk_entry -> Prop :=
| visits_top (top : path) (parent : list string) (d : dir) :
    visits keep top parent d {| dirpath := top; parent_listing := parent; entry := d |}
| visits_sub (top : path) (parent : list string) (d : dir)
    (name : string) (c : dir) (e : walk_entry) :
    In (name, c) (subdirs d) -> keep name = true ->
    visits keep (path_join top name) (listdir d) c e ->
    visits keep top parent d e.

(** Two listings of one tree: the same files and, under the same names, the
    same sub-trees, whatever the order of the entries. *)
Inductive reorder : dir -> dir -> Prop :=
| reorder_intro (d d' : dir) :
    (forall f, In f (files d) <-> In f (files d')) ->
    (forall name c, In (name, c) (subdirs d) ->
                    exists c', In (name, c') (subdirs d') /\ reorder c c') ->
    (forall name c', In (name, c') (subdirs d') ->
                     exists c, In (name, c) (subdirs d) /\ reorder c c') ->
    reorder d d'.

End Fs.

(** ** Installed-package metadata ([importlib.metadata]) *)

Module Metadata.

(** What the scripts read of an installed distribution: [dist.version] and
    [dist.metadata['Name']], each [None] when the metadata lacks the field. *)
Record dist : Type := {
  version : option string;
  metadata_Name : option string
}.

(** [importlib.metadata.distribution]: [None] stands for
    [PackageNotFoundError]. *)
Definition index : Type := string -> option dist.

(** The text an f-string gives an optional [str]. *)
Definition fmt (o : option string) : string :=
  match o with
  | Some s => s
  | None => "None"
  end.

End Metadata.

(** The line feed. *)
Definition nl : string := String (ascii_of_nat 10) EmptyString.

(** ** [FirstEdition.py] *)

Module FirstEdition.
Import Ast Fs Metadata.

Definition IMPORT_TO_PYPI_MAP : dict string string :=
  [ ("corsheaders", "django-cors-headers");
    ("rest_framework", "djangorestframework");
    ("rest_framework_simplejwt", "djangorestframework-simplejwt");
    ("django_filters", "django-filter");
    ("crispy_forms", "django-crispy-forms");
    ("cloudinary_storage", "django-cloudinary-storage");
    ("bs4", "beautifulsoup4");
    ("dateutil", "python-dateutil");
    ("dotenv", "python-dotenv");
    ("jose", "python-jose");
    ("jwt", "PyJWT");
    ("PIL", "Pillow");
    ("werkzeug", "Werkzeug");
    ("jinja2", "Jinja2");
    ("cv2", "opencv-python");
    ("faiss", "faiss-cpu");
    ("sklearn", "scikit-learn");
    ("tavily", "tavily-python");
    ("yaml", "PyYAML");
    ("psycopg2", "psycopg2-binary");
    ("MySQLdb", "mysqlclient");
    ("Crypto", "pycryptodome");
    ("pkg_resources", "setuptools");
    ("youtube_search", "youtube-search") ].

(** A set: the list gives its members, not the order of its iteration. *)
Definition KNOWN_CLI_AND_CONFIG_TOOLS : list string :=
  [ "gunicorn"; "uvicorn"; "daphne"; "whitenoise"; "black"; "isort";
    "flake8"; "mypy"; "pytest"; "pip-tools" ].

(** [IMPORT_TO_PYPI_MAP.get(imp, imp)]. *)
Definition pypi_name_to_check (imp : string) : string :=
  match dict_get String.eqb imp IMPORT_TO_PYPI_MAP with
  | Some name => name
  | None => imp
  end.

(** The generator object together with what the process has printed and the
    names it has passed to [importlib.metadata.distribution], oldest first. *)
Record state : Type := {
  std_lib : list string;
  local_modules : list string;
  final_requirements : dict string (option string);
  unresolved_imports : list string;
  stdout : list string;
  queries : list string
}.

Definition print (line : string) (s : state) : state :=
  {| std_lib := std_lib s; local_modules := local_modules s;
     final_requirements := final_requirements s;
     unresolved_imports := unresolved_imports s;
     stdout := stdout s ++ [line]; queries := queries s |}.

Definition log_query (name : string) (s : state) : state :=
  {| std_lib := std_lib s; local_modules := local_modules s;
     final_requirements := final_requirements s;
     unresolved_imports := unresolved_imports s;
     stdout := stdout s; queries := queries s ++ [name] |}.

Definition set_requirement (name : string) (v : option string) (s : state) : state :=
  {| std_lib := std_lib s; local_modules := local_modules s;
     final_requirements := dict_set String.eqb name v (final_requirements s);
     unresolved_imports := unresolved_imports s;
     stdout := stdout s; queries := queries s |}.

Definition add_unresolved (imp : string) (s : state) : state :=
  {| std_lib := std_lib s; local_modules := local_modules s;
     final_requirements := final_requirements s;
     unresolved_imports := set_add imp (unresolved_imports s);
     stdout := stdout s; queries := queries s |}.

Section Generator.
(** [sys.version_info[:2]] and [sys.stdlib_module_names]. *)
Variable sys_version_info : nat * nat.
Variable sys_stdlib_module_names : list string.
(** [importlib.metadata.distribution]. *)
Variable distribution : index.
(** [ast.parse]. *)
Variable ast_parse : string -> result node.
(** The order in which this process iterates [KNOWN_CLI_AND_CONFIG_TOOLS]. *)
Variable tools : list string.

(** [sys.version_info >= (3, 10)]. *)
Definition version_at_least_3_10 : bool :=
  let (major, minor) := sys_version_info in
  ((3 <? major) || ((major =? 3) && (10 <=? minor)))%nat.

Definition _get_std_lib_modules (out : list string) : list string * list string :=
  if version_at_least_3_10 then (sys_stdlib_module_names, out)
  else
    ( [ "os"; "sys"; "math"; "datetime"; "json"; "re"; "logging"; "collections";
        "itertools"; "functools"; "pathlib"; "subprocess"; "ast"; "importlib" ],
      out ++ ["Warning: Using a limited standard library list for Python < 3.10."] ).

Definition _find_local_modules (p : project) : list string :=
  let local_modules :=
    fold_left
      (fun acc e =>
         if mem "__init__.py" (filenames (entry e))
         then set_add (basename (dirpath e)) acc
         else acc)
      (os_walk (fun _ => true) (root_dir p) (above_root p) (root p)) [] in
  set_add (basename (root_dir p)) local_modules.

(** [__init__], after whatever [out] the process has printed so far. *)
Definition init (p : project) (out : list string) : state :=
  let (std, out') := _get_std_lib_modules out in
  {| std_lib := std; local_modules := _find_local_modules p;
     final_requirements := []; unresolved_imports := [];
     stdout := out'; queries := [] |}.

(** The pair [(version, pypi_name)], [(None, None)] when not installed. *)
Definition _get_package_info (name : string) (s : state)
  : (option string * option string) * state :=
  match distribution name with
  | Some d => ((version d, metadata_Name d), log_query name s)
  | None => ((None, None), log_query name s)
  end.

Definition exclude_dirs : list string :=
  [ ".venv"; "venv"; "env"; "build"; "dist"; ".git"; "__pycache__"; "node_modules" ].

(** The body of the loop over [ast.walk(tree)] in [_scan_python_files]. *)
Definition scan_node (imports : list string) (n : node) : list string :=
  match n with
  | Import names =>
      fold_left (fun acc alias => set_add (first_segment alias) acc) names imports
  | ImportFrom module level =>
      if (0 <? level)%nat then imports
      else match module with
           | Some m => if truthy m then set_add (first_segment m) imports else imports
           | None => imports
           end
  | _ => imports
  end.

(** The [try] block of [_scan_python_files] for one file: a file that
    cannot be read or parsed leaves [imports] as it is. *)
Definition scan_file (imports : list string) (content : result string) : list string :=
  match content with
  | Raise _ => imports
  | Ok text =>
      match ast_parse text with
      | Raise _ => imports
      | Ok tree => fold_left scan_node (walk tree) imports
      end
  end.

Definition _scan_python_files (p : project) : list string :=
  fold_left
    (fun imports e =>
       fold_left
         (fun imports f =>
            if endswith (fst f) ".py" then scan_file imports (snd f) else imports)
         (files (entry e)) imports)
    (os_walk (fun d => negb (mem d exclude_dirs)) (root_dir p) (above_root p) (root p))
    [].

(** The loop over [node.value.elts] in [_scan_django_settings]. An element
    that is a [str] constant adds its first dotted segment; a constant of
    another type raises at [.split], which ends the scan of the file with
    the names found so far; any other element is passed over (it is no
    [ast.Constant], and no [ast.Str] either). *)
Fixpoint scan_elts (elts : list node) (found : list string)
  : list string * option string :=
  match elts with
  | [] => (found, None)
  | Constant (CStr s) :: rest => scan_elts rest (set_add (first_segment s) found)
  | Constant (COther err) :: _ => (found, Some err)
  | _ :: rest => scan_elts rest found
  end.

(** [isinstance(target, ast.Name) and target.id in ('INSTALLED_APPS', 'MIDDLEWARE')]. *)
Definition is_settings_target (target : node) : bool :=
  match target with
  | Name id => mem id ["INSTALLED_APPS"; "MIDDLEWARE"]
  | _ => false
  end.

(** The loop over [node.targets]. *)
Fixpoint scan_targets (targets : list node) (value : node) (found : list string)
  : list string * option string :=
  match targets with
  | [] => (found, None)
  | target :: rest =>
      if is_settings_target target then
        match value with
        | List_ elts | Tuple elts =>
            match scan_elts elts found with
            | (found', None) => scan_targets rest value found'
            | raised => raised
            end
        | _ => scan_targets rest value found
        end
      else scan_targets rest value found
  end.

(** The loop over [ast.walk(tree)] in [_scan_django_settings]. *)
Fixpoint scan_settings_nodes (nodes : list node) (found : list string)
  : list string * option string :=
  match nodes with
  | [] => (found, None)
  | Assign targets value :: rest =>
      match scan_targets targets value found with
      | (found', None) => scan_settings_nodes rest found'
      | raised => raised
      end
  | _ :: rest => scan_settings_nodes rest found
  end.

(** ['settings.py' in filenames and 'manage.py' in os.listdir(os.path.dirname(dirpath))]. *)
Definition is_settings_dir (e : walk_entry) : bool :=
  mem "settings.py" (filenames (entry e)) && mem "manage.py" (parent_listing e).

(** The outcome of [open(...).read()] on a file of a directory. *)
Definition read_file (name : string) (d : dir) : result string :=
  match dict_get String.eqb name (files d) with
  | Some content => content
  | None => Raise "No such file or directory"
  end.

(** The [try] block of [_scan_django_settings] and its handler. *)
Definition scan_settings_file (e : walk_entry) (s : state) : list string * state :=
  let settings_file := path_join (dirpath e) "settings.py" in
  let warn err :=
    print ("Warning: Could not parse Django settings file at "
           ++ path_str settings_file ++ ": " ++ err) s in
  match read_file "settings.py" (entry e) with
  | Raise err => ([], warn err)
  | Ok text =>
      match ast_parse text with
      | Raise err => ([], warn err)
      | Ok tree =>
          match scan_settings_nodes (walk tree) [] with
          | (found, None) => (found, s)
          | (found, Some err) => (found, warn err)
          end
      end
  end.

(** Only the first settings file that the walk meets is read. *)
Definition _scan_django_settings (p : project) (s : state) : list string * state :=
  match find is_settings_dir
          (os_walk (fun _ => true) (root_dir p) (above_root p) (root p)) with
  | Some e => scan_settings_file e s
  | None => ([], s)
  end.

(** What the index reports under [lookup], when it reports a name that counts
    as true: the distribution name and the version. *)
Definition reports (lookup : string) : option (string * option string) :=
  match distribution lookup with
  | Some d =>
      match metadata_Name d with
      | Some name => if truthy name then Some (name, version d) else None
      | None => None
      end
  | None => None
  end.

(** What step 3 finds for a candidate. *)
Definition found_for (imp : string) : option (string * option string) :=
  reports (pypi_name_to_check imp).

(** The condition of the comprehension that builds [external_imports]. *)
Definition keep_import (s : state) (imp : string) : bool :=
  truthy imp && negb (mem imp (std_lib s)) && negb (mem imp (local_modules s)).

(** The body of the loop of step 3. *)
Definition resolve_import (s : state) (imp : string) : state :=
  let (info, s1) := _get_package_info (pypi_name_to_check imp) s in
  let (version, pypi_name) := info in
  match pypi_name with
  | Some name =>
      if truthy name then
        if dict_mem String.eqb name (final_requirements s1) then s1
        else
          set_requirement name version
            (print ("  [+] Found: " ++ name ++ "==" ++ fmt version
                    ++ " (from import '" ++ imp ++ "')") s1)
      else add_unresolved imp s1
  | None => add_unresolved imp s1
  end.

(** The body of the loop of step 4. *)
Definition check_tool (s : state) (tool : string) : state :=
  if dict_mem String.eqb tool (final_requirements s) then s
  else
    let (info, s1) := _get_package_info tool s in
    let (version, pypi_name) := info in
    match pypi_name with
    | Some name =>
        if truthy name then
          set_requirement name version
            (print ("  [+] Found: " ++ name ++ "==" ++ fmt version
                    ++ " (as a known tool)") s1)
        else s1
    | None => s1
    end.

(** Steps 2 to 4 of [run], from the names that step 1 discovered. *)
Definition resolve (discovered_imports : list string) (s : state) : state :=
  let s := print (nl ++ "--- Step 2: Filtering out standard library and local modules ---") s in
  let external_imports := filter (keep_import s) discovered_imports in
  let s := print ("Filtered down to " ++ str_of_nat (length external_imports)
                  ++ " potential external packages.") s in
  let s := print (nl ++ "--- Step 3: Resolving package names and versions ---") s in
  let s := fold_left resolve_import (sorted_str external_imports) s in
  let s := print (nl ++ "--- Step 4: Checking for known command-line tools ---") s in
  fold_left check_tool tools s.

(** Step 1 of [run]: the names of the import statements and of the
    settings file. *)
Definition discover (p : project) (s : state) : list string * state :=
  let s := print "--- Step 1: Scanning project for imports ---" s in
  let discovered_imports := _scan_python_files p in
  let (django_imports, s) := _scan_django_settings p s in
  let discovered_imports := set_update discovered_imports django_imports in
  (discovered_imports,
   print ("Found " ++ str_of_nat (length discovered_imports)
          ++ " unique potential module names.") s).

Definition run (p : project) (s : state) : state :=
  let (discovered_imports, s) := discover p s in
  resolve discovered_imports s.

(** One line of the manifest. *)
Definition requirement_line (item : string * option string) : string :=
  let (package, version) := item in
  if truthy_opt version then package ++ "==" ++ fmt version ++ nl
  else package ++ nl.

Definition header : string :=
  "# Generated by project scanner. Review for accuracy." ++ nl
  ++ "# This file lists direct dependencies. Sub-dependencies are handled by pip."
  ++ nl ++ nl.

(** What [write_file] writes between opening and closing the file. *)
Definition manifest (requirements : dict string (option string)) : string :=
  header
  ++ String.concat ""
       (map requirement_line (sorted (fun item => lower (fst item)) requirements)).

(** [write_file]. [disk] maps the path of each file to its text; opening
    with mode ['w'] replaces whatever the path held. *)
Definition write_file (output_file : string) (s : state) (disk : dict string string)
  : state * dict string string :=
  let s := print (repeat_str "-" 60) s in
  let s := print ("Writing " ++ str_of_nat (length (final_requirements s))
                  ++ " packages to '" ++ output_file ++ "'...") s in
  let disk := dict_set String.eqb output_file (manifest (final_requirements s)) disk in
  let s := print "✅ Generation complete." s in
  match unresolved_imports s with
  | [] => (s, disk)
  | _ :: _ =>
      let s := print (nl ++ "⚠️  The following imports could not be resolved to an installed package:") s in
      let s := print ("   " ++ join ", " (sorted_str (unresolved_imports s))) s in
      let s := print "   - Ensure the package is installed in your virtual environment (`pip install ...`)." s in
      let s := print "   - If the import name differs from the PyPI name, add it to `IMPORT_TO_PYPI_MAP`." s in
      (s, disk)
  end.

(** What [main] leaves behind: the generator, the files and the exit
    status of the process. *)
Record outcome : Type := {
  final : state;
  disk_after : dict string string;
  exit_status : nat
}.

(** [main], run in the project root [p] with [sys.prefix = sys_prefix]. *)
Definition main (sys_prefix : string) (p : project) (disk : dict string string)
  : outcome :=
  let cwd := path_str (root_dir p) in
  let out := [ ("Starting requirements generation for directory: '" ++ cwd ++ "'")%string;
               repeat_str "-" 60 ] in
  let out :=
    if String.prefix cwd sys_prefix then out
    else out ++ [ "🚨 WARNING: You may not be in an active virtual environment for this project.";
                  ("   Sys prefix: " ++ sys_prefix)%string;
                  ("   Project dir: " ++ cwd)%string;
                  repeat_str "-" 60 ] in
  let generator := init p out in
  let generator := run p generator in
  let (generator, disk) := write_file "requirements.txt" generator disk in
  let generator := print (nl ++ repeat_str "=" 60) generator in
  let generator := print "💡 NEXT STEPS & BEST PRACTICES" generator in
  let generator := print "1. Review the generated `requirements.txt` for any obvious errors." generator in
  let generator := print "2. For fully reproducible environments, it is recommended to use `pip-tools`." generator in
  let generator := print "   You can treat the generated file as a `requirements.in` and run:" generator in
  let generator := print "   `pip-compile requirements.txt -o requirements.txt`" generator in
  let generator := print "   This will pin all sub-dependencies, which is the industry best practice." generator in
  let generator := print (repeat_str "=" 60) generator in
  {| final := generator; disk_after := disk; exit_status := 0 |}.

End Generator.

(** The names an import statement puts forward: the first dotted segment of
    each alias of a plain import, and of the module of a from-import of level
    zero. *)
Definition node_names (n : node) (x : string) : Prop :=
  match n with
  | Import names => exists alias, In alias names /\ x = first_segment alias
  | ImportFrom (Some m) O => m <> "" /\ x = first_segment m
  | _ => False
  end.

(** The names that the import statements of a tree put forward. *)
Definition names_import (tree : node) (x : string) : Prop :=
  exists n, subnode n tree /\ node_names n x.

(** A generator that has found and printed nothing. *)
Definition blank : state :=
  {| std_lib := []; local_modules := []; final_requirements := [];
     unresolved_imports := []; stdout := []; queries := [] |}.

(** The names that [_scan_django_settings] returns for a project. *)
Definition settings_names (ast_parse : string -> result node) (p : project)
  : list string :=
  fst (_scan_django_settings ast_parse p blank).

(** The pruning of [_scan_python_files]. *)
Definition scan_keep (d : string) : bool := negb (mem d exclude_dirs).

(** A file of the project puts the name [x] forward: it lies in a directory
    that the scan reaches, its name ends in [.py], it can be read and parsed,
    and one of its import statements names [x]. *)
Definition file_imports (ast_parse : string -> result node) (p : project) (x : string)
  : Prop :=
  exists e f text tree,
    visits scan_keep (root_dir p) (above_root p) (root p) e
    /\ In f (files (entry e))
    /\ endswith (fst f) ".py" = true
    /\ snd f = Ok text
    /\ ast_parse text = Ok tree
    /\ names_import tree x.

End FirstEdition.

(** ** [GeminiWay.py] *)

Module GeminiWay.
Import Fs Metadata.

Definition IMPORT_TO_PYPI_MAP : dict string string :=
  [ ("bs4", "beautifulsoup4");
    ("cv2", "opencv-python");
    ("dateutil", "python-dateutil");
    ("dotenv", "python-dotenv");
    ("PIL", "Pillow");
    ("sklearn", "scikit-learn");
    ("yaml", "PyYAML");
    ("rest_framework", "djangorestframework");
    ("corsheaders", "django-cors-headers");
    ("jose", "python-jose");
    ("jwt", "PyJWT");
    ("youtube_search", "youtube-search") ].

Definition GEMINI_MODEL_NAME : string := "gemini-1.5-flash".

(** [IMPORT_TO_PYPI_MAP.get(pkg_name, pkg_name)]. *)
Definition corrected_name (pkg_name : string) : string :=
  match dict_get String.eqb pkg_name IMPORT_TO_PYPI_MAP with
  | Some name => name
  | None => pkg_name
  end.

(** Equality of dictionary keys, which are [str] or [None]. *)
Definition key_eqb (a b : option string) : bool :=
  match a, b with
  | Some x, Some y => String.eqb x y
  | None, None => true
  | _, _ => false
  end.

(** The generator object together with what the process has printed and the
    names it has passed to [importlib.metadata.distribution], oldest first. *)
Record state : Type := {
  project_code : string;
  final_requirements : dict (option string) (option string);
  stdout : list string;
  queries : list string
}.

Definition print (line : string) (s : state) : state :=
  {| project_code := project_code s; final_requirements := final_requirements s;
     stdout := stdout s ++ [line]; queries := queries s |}.

Definition log_query (name : string) (s : state) : state :=
  {| project_code := project_code s; final_requirements := final_requirements s;
     stdout := stdout s; queries := queries s ++ [name] |}.

Definition set_requirement (name v : option string) (s : state) : state :=
  {| project_code := project_code s;
     final_requirements := dict_set key_eqb name v (final_requirements s);
     stdout := stdout s; queries := queries s |}.

Definition set_project_code (code : string) (s : state) : state :=
  {| project_code := code; final_requirements := final_requirements s;
     stdout := stdout s; queries := queries s |}.

(** How a call ends: it returns, it raises, or it calls [sys.exit]. *)
Inductive exn : Type :=
| ValueError (msg : string)
| RuntimeError (msg : string)
| AttributeError (msg : string)
| SystemExit (code : nat).

Section Generator.
(** [importlib.metadata.distribution]. *)
Variable distribution : index.
(** [model.generate_content(prompt).text], or the exception of the call. *)
Variable generate_content : string -> result string.

(** [__init__], after whatever [out] the process has printed so far. *)
Definition init (api_key : option string) (out : list string) : state + exn :=
  if truthy_opt api_key then
    inl {| project_code := ""; final_requirements := []; stdout := out; queries := [] |}
  else inr (ValueError "GOOGLE_API_KEY environment variable not set.").

Definition exclude_dirs : list string :=
  [ ".venv"; "venv"; "env"; "build"; "dist"; ".git"; "__pycache__"; "node_modules" ].

Definition exclude_files : list string := [ "gemini_reqs.py"; "requirements.txt" ].

(** [os.path.relpath(file_path, self.root_dir)] for a file below the root. *)
Definition relpath (root_dir file_path : path) : string :=
  join "/" (skipn (length root_dir) file_path).

(** The body of the loop over [filenames] in [_ingest_project_code]; the
    accumulator holds [code_files] and the generator. *)
Definition ingest_file (root_dir dirpath : path)
    (acc : list string * state) (f : string * result string)
  : list string * state :=
  let (code_files, s) := acc in
  let (filename, content) := f in
  if endswith filename ".py" && negb (mem filename exclude_files) then
    let file_path := path_join dirpath filename in
    match content with
    | Ok text =>
        (code_files
           ++ [("--- FILE: " ++ relpath root_dir file_path ++ " ---" ++ nl ++ nl ++ text)%string],
         s)
    | Raise e =>
        (code_files,
         print ("   - Warning: Could not read " ++ path_str file_path ++ ": " ++ e) s)
    end
  else acc.

(** The loop over [os.walk] in [_ingest_project_code]. *)
Definition collect_code_files (p : project) (s : state) : list string * state :=
  fold_left
    (fun acc e => fold_left (ingest_file (root_dir p) (dirpath e)) (files (entry e)) acc)
    (os_walk (fun d => negb (mem d exclude_dirs)) (root_dir p) (above_root p) (root p))
    ([], s).

Definition _ingest_project_code (p : project) (s : state) : state * option exn :=
  let s := print "Step 1: Ingesting project source code..." s in
  let (code_files, s) := collect_code_files p s in
  match code_files with
  | [] => (s, Some (RuntimeError "No Python source files found to analyze."))
  | _ :: _ =>
      let s := set_project_code (join (nl ++ nl) code_files) s in
      (print ("   ...ingested " ++ str_of_nat (length code_files) ++ " Python files.") s,
       None)
  end.

Definition prompt (code : string) : string :=
  "
You are an expert Python dependency analysis tool. Your task is to analyze the following Python code, which has been concatenated from multiple files in a project.

Your goal is to identify all third-party, pip-installable libraries that are being used.

Follow these rules STRICTLY:
1.  **ONLY list third-party packages.**
2.  **DO NOT include Python's standard library modules.** Examples to exclude: os, sys, json, datetime, re, logging, pathlib, ast, subprocess, math, collections, itertools.
3.  **DO NOT include local modules** that are part of the project itself. The file paths are provided for context.
4.  **Provide the canonical PyPI package name where possible** (e.g., 'djangorestframework' instead of 'rest_framework', 'beautifulsoup4' instead of 'bs4').
5.  **Format your output as a single, clean, comma-separated list.** Do not add any other text, explanation, or formatting.

Example of a perfect response:
django,djangorestframework,requests,beautifulsoup4,google-generativeai,python-dotenv,gunicorn

--- PROJECT CODE ---

" ++ code ++ "
".

(** The answer of the service, or the way the call ended. *)
Definition _get_packages_from_gemini (s : state) : state * (string + exn) :=
  let s := print (nl ++ "Step 2: Asking Gemini to analyze the code... (this may take a moment)") s in
  match generate_content (prompt (project_code s)) with
  | Ok text => (print "   ...Gemini analysis complete." s, inl text)
  | Raise e =>
      (print ("   - Error: An error occurred with the Gemini API: " ++ e) s,
       inr (SystemExit 1))
  end.

(** What the index reports under [lookup]: the distribution name and the
    version, either of which may be [None]. *)
Definition reports (lookup : string) : option (option string * option string) :=
  match distribution lookup with
  | Some d => Some (metadata_Name d, version d)
  | None => None
  end.

(** What the loop of [_parse_and_resolve_versions] finds for a name. *)
Definition found_for (pkg_name : string) : option (option string * option string) :=
  reports (corrected_name pkg_name).

(** [[pkg.strip() for pkg in gemini_output.strip().split(',') if pkg.strip()]]. *)
Definition potential_packages (gemini_output : string) : list string :=
  map strip (filter (fun pkg => truthy (strip pkg)) (str_split "," (strip gemini_output))).

(** The body of the loop of [_parse_and_resolve_versions]. *)
Definition resolve_package (s : state) (pkg_name : string) : state :=
  let s := log_query (corrected_name pkg_name) s in
  match distribution (corrected_name pkg_name) with
  | Some d =>
      let pypi_name := metadata_Name d in
      if dict_mem key_eqb pypi_name (final_requirements s) then s
      else
        set_requirement pypi_name (version d)
          (print ("  [+] Found: " ++ fmt pypi_name ++ "==" ++ fmt (version d)) s)
  | None =>
      print ("  [-] Warning: Gemini suggested '" ++ pkg_name
             ++ "', but it's not installed or could not be found.") s
  end.

Definition _parse_and_resolve_versions (gemini_output : string) (s : state) : state :=
  let s := print (nl ++ "Step 3: Resolving package versions from your environment...") s in
  if truthy gemini_output then
    fold_left resolve_package (sorted_str (potential_packages gemini_output)) s
  else print "   - Warning: Gemini returned an empty response. No packages found." s.

Definition header : string :=
  "# Generated by Gemini AI. Review for accuracy." ++ nl
  ++ "# This file lists the direct dependencies identified from the source code."
  ++ nl ++ nl.

(** One line of the manifest. *)
Definition requirement_line (item : string * option string) : string :=
  let (package, version) := item in
  package ++ "==" ++ fmt version ++ nl.

(** The items with their keys as [str], or [None] when a key is [None], on
    which [item[0].lower()] raises. *)
Fixpoint str_items (items : dict (option string) (option string))
  : option (dict string (option string)) :=
  match items with
  | [] => Some []
  | (Some package, version) :: rest =>
      match str_items rest with
      | Some rest' => Some ((package, version) :: rest')
      | None => None
      end
  | (None, _) :: _ => None
  end.

(** The last line that [write_file] prints. *)
Definition stdout_success (output_file : string) : string :=
  "âœ… Successfully generated '" ++ output_file ++ "'.".

(** [write_file]. The file is opened and the header written before the
    items are sorted, so an exception of the sort leaves the header alone
    on disk. *)
Definition write_file (output_file : string) (s : state) (disk : dict string string)
  : (state * dict string string) * option exn :=
  let s := print (repeat_str "-" 60) s in
  let s := print ("Writing " ++ str_of_nat (length (final_requirements s))
                  ++ " packages to '" ++ output_file ++ "'...") s in
  match str_items (final_requirements s) with
  | Some items =>
      let text :=
        (header
         ++ String.concat ""
              (map requirement_line (sorted (fun item => lower (fst item)) items)))%string in
      ((print (stdout_success output_file) s,
        dict_set String.eqb output_file text disk),
       None)
  | None =>
      ((s, dict_set String.eqb output_file header disk),
       Some (AttributeError "'NoneType' object has no attribute 'lower'"))
  end.

Definition run (p : project) (s : state) (disk : dict string string)
  : (state * dict string string) * option exn :=
  match _ingest_project_code p s with
  | (s, Some e) => ((s, disk), Some e)
  | (s, None) =>
      match _get_packages_from_gemini s with
      | (s, inr e) => ((s, disk), Some e)
      | (s, inl gemini_response) =>
          write_file "requirements.txt" (_parse_and_resolve_versions gemini_response s) disk
      end
  end.

(** What [main] leaves behind: what it printed, the files and the exit
    status of the process. *)
Record outcome : Type := {
  printed : list string;
  disk_after : dict string string;
  exit_status : nat
}.

(** The [except] clauses of [main]: what is printed after [out] and the
    exit status. [SystemExit] is not an [Exception] and passes through. *)
Definition handle (e : exn) (out : list string) : list string * nat :=
  match e with
  | ValueError msg =>
      (out ++ [ ("Error: " ++ msg)%string;
                (nl ++ "Please set your GOOGLE_API_KEY as an environment variable.")%string ],
       1)
  | RuntimeError msg | AttributeError msg =>
      (out ++ [ ("An unexpected error occurred: " ++ msg)%string ], 1)
  | SystemExit code => (out, code)
  end.

(** [main]. [in_virtualenv] is the test on [sys.real_prefix] and
    [sys.base_prefix]; [api_key] is [os.getenv('GOOGLE_API_KEY')]. *)
Definition main (in_virtualenv : bool) (api_key : option string) (p : project)
    (disk : dict string string) : outcome :=
  let out := [ repeat_str "=" 60; "ðŸ¤– Gemini AI Requirements Generator"; repeat_str "=" 60 ] in
  let out :=
    if in_virtualenv then out
    else out ++ [ "ðŸš¨ WARNING: You do not appear to be in a Python virtual environment.";
                  "   This script relies on your active environment to find package versions.";
                  repeat_str "-" 60 ] in
  match init api_key out with
  | inr e =>
      let (out', code) := handle e out in
      {| printed := out'; disk_after := disk; exit_status := code |}
  | inl generator =>
      match run p generator disk with
      | ((s, disk'), None) =>
          {| printed := stdout s; disk_after := disk'; exit_status := 0 |}
      | ((s, disk'), Some e) =>
          let (out', code) := handle e (stdout s) in
          {| printed := out'; disk_after := disk'; exit_status := code |}
      end
  end.

End Generator.

(** Two generators that differ in what was printed only. *)
Definition same_but_stdout (s s' : state) : Prop :=
  project_code s' = project_code s
  /\ final_requirements s' = final_requirements s
  /\ queries s' = queries s.

(** The pruning of [_ingest_project_code]. *)
Definition ingest_keep (d : string) : bool := negb (mem d exclude_dirs).

(** What a file adds to [code_files]: its text under a header with its
    relative path, when its name ends in [.py], is not excluded and the file
    can be read; nothing otherwise. *)
Definition code_file (root_dir dirpath : path) (f : string * result string)
  : list string :=
  if endswith (fst f) ".py" && negb (mem (fst f) exclude_files) then
    match snd f with
    | Ok text =>
        [("--- FILE: " ++ relpath root_dir (path_join dirpath (fst f)) ++ " ---"
          ++ nl ++ nl ++ text)%string]
    | Raise _ => []
    end
  else [].

(** The [code_files] of a project. *)
Definition code_files (p : project) : list string :=
  flat_map
    (fun e => flat_map (code_file (root_dir p) (dirpath e)) (files (entry e)))
    (os_walk ingest_keep (root_dir p) (above_root p) (root p)).

(** The walk finds a source file: a readable file whose name ends in [.py]
    and is not excluded, in a directory that the walk reaches. *)
Definition finds_source (p : project) : Prop :=
  exists e f text,
    visits ingest_keep (root_dir p) (above_root p) (root p) e
    /\ In f (files (entry e))
    /\ endswith (fst f) ".py" = true
    /\ mem (fst f) exclude_files = false
    /\ snd f = Ok text.

End GeminiWay.

(** ** Sample projects and environments *)

Module Samples.
Import Ast Fs Metadata.

Definition src_main : string :=
  "import os" ++ nl ++ "import requests" ++ nl ++ "import myapp.utils" ++ nl.

Definition src_pytest : string := "import pytest" ++ nl.

Definition src_settings_rest : string := "INSTALLED_APPS = ['rest_framework']" ++ nl.

Definition src_settings_cors : string := "INSTALLED_APPS = ['corsheaders']" ++ nl.

(** [ast.parse] on the sample sources; any other text is a syntax error. *)
Definition parse (text : string) : result node :=
  if text =? "" then Ok (Node [])
  else if text =? src_main then
    Ok (Node [Import ["os"]; Import ["requests"]; Import ["myapp.utils"]])
  else if text =? src_pytest then Ok (Node [Import ["pytest"]])
  else if text =? src_settings_rest then
    Ok (Node [Assign [Name "INSTALLED_APPS"] (List_ [Constant (CStr "rest_framework")])])
  else if text =? src_settings_cors then
    Ok (Node [Assign [Name "INSTALLED_APPS"] (List_ [Constant (CStr "corsheaders")])])
  else Raise "invalid syntax".

Definition installed (name ver : string) : option dist :=
  Some {| version := Some ver; metadata_Name := Some name |}.

(** An environment with a few distributions; [Pillow] is found under either
    spelling of its name. *)
Definition environment : index :=
  fun lookup =>
    if lookup =? "requests" then installed "requests" "2.31.0"
    else if lookup =? "beautifulsoup4" then installed "beautifulsoup4" "4.12.0"
    else if lookup =? "djangorestframework" then installed "djangorestframework" "3.15.0"
    else if lookup =? "django-cors-headers" then installed "django-cors-headers" "4.3.1"
    else if (lookup =? "Pillow") || (lookup =? "pillow") then installed "Pillow" "10.2.0"
    else None.

(** The same environment with [pytest] installed as well. *)
Definition environment_with_pytest : index :=
  fun lookup =>
    if lookup =? "pytest" then installed "pytest" "8.0.0" else environment lookup.

(** The same environment with a distribution [foo] whose metadata has no
    [Version] field. *)
Definition environment_with_foo : index :=
  fun lookup =>
    if lookup =? "foo" then Some {| version := None; metadata_Name := Some "foo" |}
    else environment lookup.

(** An environment in which two of the known tools are found and report one
    and the same distribution name with different versions. *)
Definition ambiguous_environment : index :=
  fun lookup =>
    if lookup =? "black" then installed "formatter" "1.0"
    else if lookup =? "isort" then installed "formatter" "2.0"
    else None.

(** [sys.version_info[:2]] and a few of [sys.stdlib_module_names]. *)
Definition python : nat * nat := (3, 11).
Definition stdlib_names : list string := ["os"; "sys"; "json"; "re"; "ast"].

(** Nothing is installed. *)
Definition bare : index := fun _ => None.

(** A project without any file. *)
Definition empty_project : project :=
  {| root_dir := ["home"; "app"]; above_root := ["app"]; root := Dir [] [] |}.

(** [main.py] imports [pytest]; the project has a package directory of the
    same name. *)
Definition shadowing_project : project :=
  {| root_dir := ["home"; "app"];
     above_root := ["app"];
     root := Dir [("main.py", Ok src_pytest)]
                 [("pytest", Dir [("__init__.py", Ok "")] [])] |}.

(** The project of the specification's scenario, with a virtual environment
    that holds the package [requests]. *)
Definition scenario_project : project :=
  {| root_dir := ["home"; "app"];
     above_root := ["app"];
     root := Dir [("main.py", Ok src_main)]
                 [("myapp", Dir [("__init__.py", Ok ""); ("utils.py", Ok "")] []);
                  (".venv", Dir [] [("requests", Dir [("__init__.py", Ok "")] [])])] |}.

(** The same project with its entries listed in another order. *)
Definition scenario_project_relisted : project :=
  {| root_dir := ["home"; "app"];
     above_root := ["app"];
     root := Dir [("main.py", Ok src_main)]
                 [(".venv", Dir [] [("requests", Dir [("__init__.py", Ok "")] [])]);
                  ("myapp", Dir [("utils.py", Ok ""); ("__init__.py", Ok "")] [])] |}.

Definition site_a : string * dir := ("site_a", Dir [("settings.py", Ok src_settings_rest)] []).
Definition site_b : string * dir := ("site_b", Dir [("settings.py", Ok src_settings_cors)] []).

(** A Django project with two settings modules, listed in the one order and
    in the other. *)
Definition two_sites (first second : string * dir) : project :=
  {| root_dir := ["home"; "app"];
     above_root := ["app"];
     root := Dir [("manage.py", Ok "")] [first; second] |}.

(** A service that answers every prompt with the same text. *)
Definition answers (text : string) : string -> result string := fun _ => Ok text.

End Samples.

(** ** Predicates of the further properties *)

(** [c in s] for a character [c]. *)
Fixpoint str_contains (c : ascii) (s : string) : bool :=
  match s with
  | EmptyString => false
  | String c' s' => Ascii.eqb c c' || str_contains c s'
  end.

(** [x] is the top-level segment of the dotted name [dotted]: the text
    before the first dot of [dotted], or all of it when it holds no dot. *)
Definition top_level_segment (dotted x : string) : Prop :=
  str_contains "." x = false
  /\ (dotted = x \/ exists rest, dotted = (x ++ "." ++ rest)%string).

(** The statement [n] is a plain import one of whose aliases has the
    top-level segment [x], or a from-import of level zero whose module is not
    empty and has the top-level segment [x]. *)
Definition top_level_import (n : Ast.node) (x : string) : Prop :=
  match n with
  | Ast.Import names => exists alias, In alias names /\ top_level_segment alias x
  | Ast.ImportFrom (Some m) 0 => m <> "" /\ top_level_segment m x
  | _ => False
  end.

(** A package name as the service is asked to give it: not empty, without
    blanks around it and without a comma. *)
Definition clean_name (x : string) : Prop :=
  x <> "" /\ strip x = x /\ str_contains "," x = false.

(** A generator of the inferential variant that has found and printed
    nothing. *)
Definition gemini_blank : GeminiWay.state :=
  {| GeminiWay.project_code := ""; GeminiWay.final_requirements := [];
     GeminiWay.stdout := []; GeminiWay.queries := [] |}.

(** The mapping that [_parse_and_resolve_versions] builds from an answer. *)
Definition gemini_requirements (distribution : Metadata.index) (gemini_output : string)
  : dict (option string) (option string) :=
  GeminiWay.final_requirements
    (GeminiWay._parse_and_resolve_versions distribution gemini_output gemini_blank).

Module MoreSamples.
Import Metadata Samples.

(** The sample environment with a distribution [ghost] whose metadata has no
    [Name] field. *)
Definition environment_with_ghost : index :=
  fun lookup =>
    if lookup =? "ghost" then Some {| version := Some "1.0"; metadata_Name := None |}
    else environment lookup.

(** A service whose call fails. *)
Definition unreachable : string -> result string := fun _ => Raise "503 unavailable".

Definition src_unknown : string :=
  "import requests" ++ nl ++ "import notarealpackage" ++ nl.

(** [ast.parse] on the sample sources, [src_unknown] included. *)
Definition parse_more (text : string) : result Ast.node :=
  if text =? src_unknown then
    Ok (Ast.Node [Ast.Import ["requests"]; Ast.Import ["notarealpackage"]])
  else parse text.

(** A project whose only file imports an installed package and one that is
    not installed. *)
Definition unknown_project : Fs.project :=
  {| Fs.root_dir := ["home"; "app"];
     Fs.above_root := ["app"];
     Fs.root := Fs.Dir [("main.py", Ok src_unknown)] [] |}.

Definition src_images : string := "import PIL" ++ nl ++ "import pillow" ++ nl.

(** [ast.parse] on the sample sources, [src_images] included. *)
Definition parse_images (text : string) : result Ast.node :=
  if text =? src_images then
    Ok (Ast.Node [Ast.Import ["PIL"]; Ast.Import ["pillow"]])
  else parse text.

(** A project whose only file imports [PIL] and [pillow]. *)
Definition images_project : Fs.project :=
  {| Fs.root_dir := ["home"; "app"];
     Fs.above_root := ["app"];
     Fs.root := Fs.Dir [("main.py", Ok src_images)] [] |}.

(** The sample environment with a distribution that is found under [black]
    and whose metadata gives the name [Pillow] and the version [9.0]. *)
Definition environment_with_mislabelled_tool : index :=
  fun lookup =>
    if lookup =? "black" then installed "Pillow" "9.0" else environment lookup.

(** A generator that holds a requirement for [pytest] already. *)
Definition with_pytest_listed : FirstEdition.state :=
  FirstEdition.set_requirement "pytest" (Some "7.4.0") FirstEdition.blank.

End MoreSamples.

(** The string constants that a settings assignment lists: [value] is a list
    or tuple display and [c] is one of its [str] constants. *)
Definition settings_value (value : Ast.node) (c : string) : Prop :=
  exists elts,
    (value = Ast.List_ elts \/ value = Ast.Tuple elts)
    /\ In (Ast.Constant (Ast.CStr c)) elts.

(** The node assigns to [INSTALLED_APPS] or [MIDDLEWARE] a display that
    lists [c]. *)
Definition settings_node (n : Ast.node) (c : string) : Prop :=
  match n with
  | Ast.Assign targets value =>
      (exists target, In target targets /\ FirstEdition.is_settings_target target = true)
      /\ settings_value value c
  | _ => False
  end.

(** A settings assignment somewhere in the tree lists [c]. *)
Definition settings_entry (tree : Ast.node) (c : string) : Prop :=
  exists n, Ast.subnode n tree /\ settings_node n c.

(** What the known-tools pass appends to the mapping [reqs] when every tool
    is reported under its own name: an entry for each tool that is not a key
    of [reqs] and for which the index reports a name, in the order of the
    iteration. *)
Definition tool_entries (distribution : Metadata.index)
    (reqs : dict string (option string)) (tools : list string)
  : dict string (option string) :=
  flat_map
    (fun tool =>
       if dict_mem String.eqb tool reqs then []
       else match FirstEdition.reports distribution tool with
            | Some entry => [entry]
            | None => []
            end)
    tools.

(** * Properties *)

(** ** Facts about the Python values *)

Section StringOrder.

Lemma leb_le (a b : string) :
  (a <=? b)%string = true <-> a = b \/ String_as_OT.lt a b.
Proof.
  unfold String.leb.
  destruct (String.compare a b) eqn:E.
  - apply String_as_OT.cmp_eq in E. tauto.
  - apply String_as_OT.cmp_lt in E. tauto.
  - split; [discriminate|].
    intros [->|H].
    + assert (String_as_OT.cmp b b = Eq) as R by now apply String_as_OT.cmp_eq.
      unfold String_as_OT.cmp in R. congruence.
    + apply String_as_OT.cmp_lt in H. unfold String_as_OT.cmp in H. congruence.
Qed.

Lemma leb_refl (a : string) : (a <=? a)%string = true.
Proof. apply leb_le. now left. Qed.

Lemma leb_trans (a b c : string) :
  (a <=? b)%string = true -> (b <=? c)%string = true -> (a <=? c)%string = true.
Proof.
  rewrite !leb_le.
  intros [->|H1] [->|H2]; auto.
  right. eapply String_as_OT.lt_trans; eauto.
Qed.

Lemma leb_false_le (a b : string) :
  (a <=? b)%string = false -> (b <=? a)%string = true.
Proof.
  intros H. destruct (String.leb_total a b) as [E|E]; congruence.
Qed.

End StringOrder.

Section SetFacts.

Lemma mem_In (x : string) (s : list string) : mem x s = true <-> In x s.
Proof.
  unfold mem. rewrite existsb_exists. split.
  - intros [y [Hy E]]. apply String.eqb_eq in E. now subst.
  - intros H. exists x. split; [assumption | apply String.eqb_refl].
Qed.

Lemma mem_false (x : string) (s : list string) : mem x s = false <-> ~ In x s.
Proof.
  rewrite <- mem_In. destruct (mem x s); split; congruence.
Qed.

Lemma set_add_In (x y : string) (s : list string) :
  In y (set_add x s) <-> y = x \/ In y s.
Proof.
  unfold set_add. destruct (mem x s) eqn:E.
  - apply mem_In in E. split; [tauto|]. intros [->|H]; assumption.
  - rewrite in_app_iff. simpl. intuition.
Qed.

Lemma set_add_NoDup (x : string) (s : list string) :
  NoDup s -> NoDup (set_add x s).
Proof.
  intros H. unfold set_add. destruct (mem x s) eqn:E; [assumption|].
  apply mem_false in E.
  apply NoDup_app; [assumption | repeat constructor; simpl; tauto |].
  intros a Ha [<-|[]]. contradiction.
Qed.

Lemma set_update_In (y : string) (t s : list string) :
  In y (set_update s t) <-> In y s \/ In y t.
Proof.
  unfold set_update. revert s.
  induction t as [|a t IH]; intros s; simpl; [tauto|].
  rewrite IH, set_add_In. intuition.
Qed.

Lemma set_update_NoDup (t s : list string) :
  NoDup s -> NoDup (set_update s t).
Proof.
  unfold set_update. revert s.
  induction t as [|a t IH]; intros s H; simpl; [assumption|].
  apply IH. now apply set_add_NoDup.
Qed.

(** A loop that only ever adds to a set: the members of the result are the
    members of the start and whatever each step adds. *)
Lemma fold_add_In (A : Type) (step : list string -> A -> list string)
    (adds : A -> string -> Prop) :
  (forall acc a x, In x (step acc a) <-> In x acc \/ adds a x) ->
  forall l acc x,
    In x (fold_left step l acc) <-> In x acc \/ exists a, In a l /\ adds a x.
Proof.
  intros Hstep. induction l as [|a l IH]; intros acc x; simpl.
  - split; [tauto|]. intros [H|[a [[] _]]]. assumption.
  - rewrite IH, Hstep. split.
    + intros [[H|H]|[b [Hb H]]]; eauto.
    + intros [H|[b [[<-|Hb] H]]]; eauto.
Qed.

Lemma fold_add_NoDup (A : Type) (step : list string -> A -> list string) :
  (forall acc a, NoDup acc -> NoDup (step acc a)) ->
  forall l acc, NoDup acc -> NoDup (fold_left step l acc).
Proof.
  intros Hstep. induction l as [|a l IH]; intros acc H; simpl; auto.
Qed.

End SetFacts.

Section DictFacts.
Variables K V : Type.
Variable eqb : K -> K -> bool.
Hypothesis eqb_eq : forall a b, eqb a b = true <-> a = b.

Lemma dict_get_In (k : K) (v : V) (d : dict K V) :
  dict_get eqb k d = Some v -> In (k, v) d.
Proof.
  induction d as [|[k' v'] d IH]; simpl; [discriminate|].
  destruct (eqb k k') eqn:E.
  - apply eqb_eq in E. intros [= ->]. left. now subst.
  - intros H. right. now apply IH.
Qed.

Lemma dict_get_None (k : K) (d : dict K V) :
  dict_get eqb k d = None <-> ~ In k (dict_keys d).
Proof.
  induction d as [|[k' v'] d IH]; simpl; [tauto|].
  destruct (eqb k k') eqn:E.
  - apply eqb_eq in E. split; [discriminate|]. intros H. exfalso. apply H. now left.
  - rewrite IH. split.
    + intros H [->|H']; [|tauto].
      assert (eqb k k = true) by now apply eqb_eq. congruence.
    + tauto.
Qed.

Lemma dict_mem_In (k : K) (d : dict K V) :
  dict_mem eqb k d = true <-> In k (dict_keys d).
Proof.
  unfold dict_mem. destruct (dict_get eqb k d) eqn:E.
  - split; [intros _|reflexivity].
    apply dict_get_In in E. apply (in_map fst) in E. exact E.
  - apply dict_get_None in E. split; [discriminate | tauto].
Qed.

Lemma dict_mem_false (k : K) (d : dict K V) :
  dict_mem eqb k d = false <-> ~ In k (dict_keys d).
Proof.
  rewrite <- dict_mem_In. destruct (dict_mem eqb k d); split; congruence.
Qed.

Lemma dict_get_first (k : K) (v : V) (d : dict K V) :
  NoDup (dict_keys d) -> In (k, v) d -> dict_get eqb k d = Some v.
Proof.
  induction d as [|[k' v'] d IH]; simpl; [tauto|].
  intros Hnd [[= -> ->]|H].
  - assert (eqb k k = true) as -> by now apply eqb_eq. reflexivity.
  - inversion Hnd as [|? ? Hk Hd]; subst.
    destruct (eqb k k') eqn:E; [|now apply IH].
    apply eqb_eq in E. subst. exfalso. apply Hk.
    apply (in_map fst) in H. exact H.
Qed.

Lemma dict_set_keys (k : K) (v : V) (d : dict K V) :
  dict_keys (dict_set eqb k v d)
  = if dict_mem eqb k d then dict_keys d else dict_keys d ++ [k].
Proof.
  unfold dict_mem.
  induction d as [|[k' v'] d IH]; simpl; [reflexivity|].
  destruct (eqb k k') eqn:E; simpl; [reflexivity|].
  rewrite IH. now destruct (dict_get eqb k d).
Qed.

Lemma dict_set_NoDup (k : K) (v : V) (d : dict K V) :
  NoDup (dict_keys d) -> NoDup (dict_keys (dict_set eqb k v d)).
Proof.
  intros H. rewrite dict_set_keys.
  destruct (dict_mem eqb k d) eqn:E; [assumption|].
  apply dict_mem_false in E.
  apply NoDup_app; [assumption | repeat constructor; simpl; tauto |].
  intros a Ha [<-|[]]. contradiction.
Qed.

Lemma dict_get_set_same (k : K) (v : V) (d : dict K V) :
  dict_get eqb k (dict_set eqb k v d) = Some v.
Proof.
  assert (eqb k k = true) as R by now apply eqb_eq.
  induction d as [|[k' v'] d IH]; simpl; [now rewrite R|].
  destruct (eqb k k') eqn:E; simpl; rewrite E; [reflexivity | exact IH].
Qed.

Lemma dict_get_set_other (k k' : K) (v : V) (d : dict K V) :
  k' <> k -> dict_get eqb k' (dict_set eqb k v d) = dict_get eqb k' d.
Proof.
  intros Hne.
  assert (eqb k' k = false) as R.
  { destruct (eqb k' k) eqn:E; [|reflexivity]. apply eqb_eq in E. contradiction. }
  induction d as [|[k0 v0] d IH]; simpl; [now rewrite R|].
  destruct (eqb k k0) eqn:E; simpl.
  - apply eqb_eq in E. subst. now rewrite R.
  - now rewrite IH.
Qed.

Lemma dict_set_In (k k' : K) (v v' : V) (d : dict K V) :
  In (k', v') (dict_set eqb k v d) -> (k' = k /\ v' = v) \/ In (k', v') d.
Proof.
  induction d as [|[k0 v0] d IH]; simpl.
  - intros [[= <- <-]|[]]. now left.
  - destruct (eqb k k0) eqn:E; simpl.
    + apply eqb_eq in E. subst. intros [[= <- <-]|H]; [now left | tauto].
    + intros [H|H]; [tauto|]. apply IH in H. tauto.
Qed.

End DictFacts.

Lemma key_eqb_eq (a b : option string) : GeminiWay.key_eqb a b = true <-> a = b.
Proof.
  destruct a as [x|], b as [y|]; simpl; try (split; congruence).
  rewrite String.eqb_eq. split; congruence.
Qed.

Section SortFacts.
Variable A : Type.
Variable key : A -> string.

Lemma insert_Permutation (x : A) (l : list A) : Permutation (insert key x l) (x :: l).
Proof.
  induction l as [|y l IH]; simpl; [reflexivity|].
  destruct (key x <=? key y)%string; [reflexivity|].
  rewrite IH. apply perm_swap.
Qed.

Lemma sorted_Permutation (l : list A) : Permutation (sorted key l) l.
Proof.
  induction l as [|x l IH]; simpl; [reflexivity|].
  rewrite insert_Permutation. now constructor.
Qed.

Lemma sorted_In (x : A) (l : list A) : In x (sorted key l) <-> In x l.
Proof.
  split; apply Permutation_in; [|symmetry]; apply sorted_Permutation.
Qed.

Lemma sorted_length (l : list A) : length (sorted key l) = length l.
Proof. apply Permutation_length, sorted_Permutation. Qed.

Lemma insert_StronglySorted (x : A) (l : list A) :
  StronglySorted (key_le key) l -> StronglySorted (key_le key) (insert key x l).
Proof.
  induction 1 as [|y l Hl IH Hy]; simpl; [repeat constructor|].
  destruct (key x <=? key y)%string eqn:E.
  - constructor; [now constructor|].
    constructor; [exact E|].
    eapply Forall_impl; [|exact Hy].
    intros a Ha. unfold key_le in *. eapply leb_trans; eauto.
  - constructor; [exact IH|].
    eapply Permutation_Forall; [symmetry; apply insert_Permutation|].
    constructor; [|exact Hy].
    now apply leb_false_le.
Qed.

Lemma sorted_StronglySorted (l : list A) : StronglySorted (key_le key) (sorted key l).
Proof.
  induction l as [|x l IH]; simpl; [constructor|].
  now apply insert_StronglySorted.
Qed.

End SortFacts.

(** Two sorted lists of strings with the same members, each without
    repetition, are the same list. *)
Lemma StronglySorted_str_unique (l1 l2 : list string) :
  StronglySorted (key_le (fun s => s)) l1 ->
  StronglySorted (key_le (fun s => s)) l2 ->
  NoDup l1 -> NoDup l2 ->
  (forall x, In x l1 <-> In x l2) ->
  l1 = l2.
Proof.
  revert l2. induction l1 as [|a l1 IH]; intros l2 S1 S2 N1 N2 Hm.
  - destruct l2 as [|b l2]; [reflexivity|].
    exfalso. apply (Hm b). now left.
  - destruct l2 as [|b l2].
    + exfalso. apply (Hm a). now left.
    + inversion S1 as [|? ? S1' F1]; subst.
      inversion S2 as [|? ? S2' F2]; subst.
      inversion N1 as [|? ? Na N1']; subst.
      inversion N2 as [|? ? Nb N2']; subst.
      rewrite Forall_forall in F1, F2.
      assert (a = b) as ->.
      { destruct (proj1 (Hm a) (or_introl eq_refl)) as [E|Ha]; [now subst|].
        destruct (proj2 (Hm b) (or_introl eq_refl)) as [E|Hb]; [now subst|].
        apply String.leb_antisym; [apply (F1 b Hb) | apply (F2 a Ha)]. }
      f_equal. apply IH; try assumption.
      intros x. split; intros Hx.
      * destruct (proj1 (Hm x) (or_intror Hx)) as [E|H]; [|exact H].
        subst. contradiction.
      * destruct (proj2 (Hm x) (or_intror Hx)) as [E|H]; [|exact H].
        subst. contradiction.
Qed.

Lemma sorted_str_NoDup (l : list string) : NoDup l -> NoDup (sorted_str l).
Proof.
  intros H. eapply Permutation_NoDup; [|exact H].
  symmetry. apply sorted_Permutation.
Qed.

(** [sorted] makes the iteration order of a set irrelevant. *)
Lemma sorted_str_same_members (l1 l2 : list string) :
  NoDup l1 -> NoDup l2 -> (forall x, In x l1 <-> In x l2) ->
  sorted_str l1 = sorted_str l2.
Proof.
  intros N1 N2 Hm.
  apply StronglySorted_str_unique.
  - apply sorted_StronglySorted.
  - apply sorted_StronglySorted.
  - now apply sorted_str_NoDup.
  - now apply sorted_str_NoDup.
  - intros x. unfold sorted_str. rewrite !sorted_In. apply Hm.
Qed.

(** ** Strings: splitting, stripping and joining *)

Section StringFacts.

Lemma str_split_not_nil (sep : ascii) (s : string) : str_split sep s <> [].
Proof.
  destruct s as [|c s]; simpl; [discriminate|].
  destruct (Ascii.eqb c sep); [discriminate|].
  destruct (str_split sep s); discriminate.
Qed.

(** No piece of a split holds the separator. *)
Lemma str_split_no_sep (sep : ascii) (s : string) :
  Forall (fun piece => str_contains sep piece = false) (str_split sep s).
Proof.
  induction s as [|c s IH]; simpl.
  - repeat constructor.
  - destruct (Ascii.eqb c sep) eqn:E.
    + constructor; [reflexivity | exact IH].
    + destruct (str_split sep s) as [|piece rest].
      * constructor; [|constructor]. simpl.
        rewrite Ascii.eqb_sym, E. reflexivity.
      * inversion IH as [|? ? Hp Hr]; subst.
        constructor; [|exact Hr]. simpl.
        now rewrite Ascii.eqb_sym, E.
Qed.

(** Joining the pieces of a split with the separator gives the string back. *)
Lemma str_split_join (sep : ascii) (s : string) :
  join (String sep EmptyString) (str_split sep s) = s.
Proof.
  unfold join. induction s as [|c s IH]; simpl; [reflexivity|].
  destruct (Ascii.eqb c sep) eqn:E.
  - apply Ascii.eqb_eq in E. subst c.
    pose proof (str_split_not_nil sep s) as Hn.
    destruct (str_split sep s) as [|piece rest]; [congruence|].
    simpl in *. now rewrite IH.
  - destruct (str_split sep s) as [|piece rest].
    + simpl in IH. now subst s.
    + destruct rest as [|piece' rest]; simpl in *; now rewrite <- IH.
Qed.

(** A string without the separator is its own single piece. *)
Lemma str_split_whole (sep : ascii) (s : string) :
  str_contains sep s = false -> str_split sep s = [s].
Proof.
  induction s as [|c s IH]; simpl; [reflexivity|].
  intros H. apply orb_false_iff in H. destruct H as [E H].
  rewrite Ascii.eqb_sym, E, (IH H). reflexivity.
Qed.

Lemma str_split_app (sep : ascii) (a b : string) :
  str_contains sep a = false ->
  str_split sep (a ++ String sep b) = a :: str_split sep b.
Proof.
  induction a as [|c a IH]; simpl.
  - intros _. now rewrite Ascii.eqb_refl.
  - intros H. apply orb_false_iff in H. destruct H as [E H].
    rewrite Ascii.eqb_sym, E, (IH H). reflexivity.
Qed.

Lemma first_segment_no_dot (s : string) : str_contains "." (first_segment s) = false.
Proof.
  unfold first_segment.
  pose proof (str_split_no_sep "." s) as H.
  destruct (str_split "." s) as [|piece rest]; [reflexivity|].
  now inversion H.
Qed.

Lemma first_segment_whole (s : string) :
  str_contains "." s = false -> first_segment s = s.
Proof.
  intros H. unfold first_segment. now rewrite str_split_whole.
Qed.

Lemma lstrip_head (s : string) :
  lstrip s = "" \/ exists c t, lstrip s = String c t /\ is_space c = false.
Proof.
  induction s as [|c s IH]; simpl; [now left|].
  destruct (is_space c) eqn:E; [exact IH|].
  right. exists c, s. now split.
Qed.

Lemma lstrip_fixed (c : ascii) (t : string) :
  is_space c = false -> lstrip (String c t) = String c t.
Proof. intros H. simpl. now rewrite H. Qed.

Lemma rstrip_rstrip (s : string) : rstrip (rstrip s) = rstrip s.
Proof.
  induction s as [|c s IH]; simpl; [reflexivity|].
  destruct (rstrip s) as [|a r] eqn:R.
  - destruct (is_space c) eqn:E; simpl; [reflexivity | now rewrite E].
  - simpl in *. now rewrite IH.
Qed.

Lemma rstrip_keeps_head (c : ascii) (t : string) :
  is_space c = false -> exists t', rstrip (String c t) = String c t'.
Proof.
  intros H. simpl. destruct (rstrip t) as [|a r].
  - rewrite H. now exists "".
  - now exists (String a r).
Qed.

Lemma lstrip_strip (s : string) : lstrip (strip s) = strip s.
Proof.
  unfold strip. destruct (lstrip_head s) as [->|[c [t [-> H]]]]; [reflexivity|].
  destruct (@rstrip_keeps_head c t H) as [t' ->]. now apply lstrip_fixed.
Qed.

Lemma rstrip_strip (s : string) : rstrip (strip s) = strip s.
Proof. unfold strip. apply rstrip_rstrip. Qed.

(** Stripping twice is stripping once. *)
Lemma strip_strip (s : string) : strip (strip s) = strip s.
Proof.
  unfold strip at 1. rewrite lstrip_strip. apply rstrip_strip.
Qed.

Lemma lstrip_contains (c : ascii) (s : string) :
  str_contains c (lstrip s) = true -> str_contains c s = true.
Proof.
  induction s as [|a s IH]; simpl; [discriminate|].
  destruct (is_space a); [|now simpl].
  intros H. rewrite (IH H). apply orb_true_r.
Qed.

Lemma rstrip_contains (c : ascii) (s : string) :
  str_contains c (rstrip s) = true -> str_contains c s = true.
Proof.
  induction s as [|a s IH]; simpl; [discriminate|].
  destruct (rstrip s) as [|b r].
  - destruct (is_space a); simpl; [discriminate|].
    rewrite orb_false_r. intros ->. reflexivity.
  - simpl in *. intros H. apply orb_true_iff in H. destruct H as [H|H].
    + now rewrite H.
    + rewrite (IH H). apply orb_true_r.
Qed.

Lemma strip_contains (c : ascii) (s : string) :
  str_contains c (strip s) = true -> str_contains c s = true.
Proof.
  unfold strip. intros H. now apply lstrip_contains, rstrip_contains.
Qed.

Lemma rstrip_app (a b : string) :
  b <> "" -> rstrip b = b -> rstrip (a ++ b) = (a ++ b)%string.
Proof.
  intros Hne Hb. induction a as [|c a IH]; simpl; [exact Hb|].
  rewrite IH. destruct (a ++ b)%string eqn:E; [|reflexivity].
  destruct a; simpl in E; [contradiction | discriminate].
Qed.

End StringFacts.

Section TopLevel.

Lemma first_segment_prefix (s : string) :
  s = first_segment s \/ exists rest, s = (first_segment s ++ "." ++ rest)%string.
Proof.
  unfold first_segment.
  pose proof (str_split_join "." s) as J.
  destruct (str_split "." s) as [|seg [|piece pieces]] eqn:E.
  - now apply str_split_not_nil in E.
  - left. simpl in J. now rewrite J.
  - right. exists (join "." (piece :: pieces)). symmetry. exact J.
Qed.

(** [split('.')[0]] is the top-level segment, and a dotted name has one
    only. *)
Lemma first_segment_top_level (dotted x : string) :
  first_segment dotted = x <-> top_level_segment dotted x.
Proof.
  unfold top_level_segment. split.
  - intros <-. split; [apply first_segment_no_dot | apply first_segment_prefix].
  - intros [Hx [->|[rest ->]]].
    + now apply first_segment_whole.
    + unfold first_segment.
      change (x ++ "." ++ rest)%string with (x ++ String "." rest)%string.
      now rewrite str_split_app.
Qed.

End TopLevel.

(** ** Facts about [ast.walk] and [os.walk] *)

Section WalkFacts.
Import Ast Fs.

Lemma size_children (n : node) :
  size n = S (list_sum (map size (iter_child_nodes n))).
Proof.
  destruct n; simpl; try reflexivity.
  rewrite map_app, list_sum_app. simpl. now rewrite Nat.add_0_r.
Qed.

Lemma walk_queue_spec (fuel : nat) :
  forall todo, list_sum (map size todo) <= fuel ->
  forall n, In n (walk_queue fuel todo) <-> exists t, In t todo /\ subnode n t.
Proof.
  induction fuel as [|fuel IH]; intros todo Hfuel n.
  - destruct todo as [|t rest].
    + simpl. split; [tauto | intros [t [[] _]]].
    + simpl in Hfuel. rewrite (size_children t) in Hfuel. lia.
  - destruct todo as [|t rest]; simpl.
    + split; [tauto | intros [t [[] _]]].
    + simpl in Hfuel. rewrite (size_children t) in Hfuel.
      rewrite IH by (rewrite map_app, list_sum_app; lia).
      split.
      * intros [->|[c [Hc Hsub]]].
        -- exists n. split; [now left | constructor].
        -- apply in_app_iff in Hc. destruct Hc as [Hc|Hc].
           ++ exists c. split; [now right | assumption].
           ++ exists t. split; [now left | econstructor; eauto].
      * intros [t0 [[->|Ht0] Hsub]].
        -- inversion Hsub as [|? c Hc Hsub']; subst.
           ++ now left.
           ++ right. exists c. split; [apply in_app_iff; now right | assumption].
        -- right. exists t0. split; [apply in_app_iff; now left | assumption].
Qed.

(** [ast.walk] yields the nodes of the tree, all of them and nothing else. *)
Lemma walk_subnode (tree n : node) : In n (walk tree) <-> subnode n tree.
Proof.
  unfold walk. rewrite walk_queue_spec by (simpl; lia).
  split.
  - intros [t [[<-|[]] H]]. exact H.
  - intros H. exists tree. split; [now left | exact H].
Qed.

(** Induction on a directory tree, with the property known of every
    sub-directory. *)
Lemma dir_induction (P : dir -> Prop) :
  (forall fs ds, Forall (fun sub => P (snd sub)) ds -> P (Dir fs ds)) ->
  forall d, P d.
Proof.
  intros step.
  fix IH 1. intros [fs ds]. apply step.
  induction ds as [|[name c] ds IHds]; constructor.
  - apply IH.
  - exact IHds.
Qed.

(** [os.walk] yields the entries it reaches, all of them and nothing else. *)
Lemma os_walk_visits (keep : string -> bool) (d : dir) :
  forall top parent e,
    In e (os_walk keep top parent d) <-> visits keep top parent d e.
Proof.
  intros top parent e. split.
  - revert top parent e.
    induction d as [fs ds IH] using dir_induction. intros top parent e.
    simpl. intros [<-|H]; [constructor|].
    apply in_flat_map in H. destruct H as [[name c] [Hin H]]. simpl in H.
    destruct (keep name) eqn:K; [|contradiction].
    rewrite Forall_forall in IH.
    apply (IH _ Hin) in H.
    eapply visits_sub; eauto.
  - intros H. induction H as [top parent d|top parent d name c e Hin K H IHv].
    + destruct d. simpl. now left.
    + destruct d as [fs ds]. simpl. right.
      apply in_flat_map. exists (name, c). split; [exact Hin|].
      simpl. rewrite K. exact IHv.
Qed.

End WalkFacts.

(** ** The syntactic variant: scanning and filtering *)

Section ScanFacts.
Import Ast Fs Metadata FirstEdition.

Lemma truthy_true (s : string) : truthy s = true <-> s <> "".
Proof.
  unfold truthy. rewrite negb_true_iff. apply String.eqb_neq.
Qed.

Lemma scan_node_In (imports : list string) (n : node) (x : string) :
  In x (scan_node imports n) <-> In x imports \/ node_names n x.
Proof.
  destruct n as [names|module level| | | | | |]; simpl; try tauto.
  - rewrite (fold_add_In (fun acc alias => set_add (first_segment alias) acc)
               (fun alias y => y = first_segment alias)).
    + split; intros [H|[a [Ha E]]]; eauto.
    + intros acc a y. rewrite set_add_In. tauto.
  - destruct level as [|level]; simpl.
    + destruct module as [m|]; [|tauto].
      destruct (truthy m) eqn:T.
      * apply truthy_true in T. rewrite set_add_In. tauto.
      * split; [tauto|]. intros [H|[Hm _]]; [exact H|].
        apply truthy_true in Hm. congruence.
    + destruct module; tauto.
Qed.

Lemma scan_node_NoDup (imports : list string) (n : node) :
  NoDup imports -> NoDup (scan_node imports n).
Proof.
  intros H. destruct n as [names|module level| | | | | |]; simpl; try assumption.
  - apply fold_add_NoDup; [|assumption].
    intros acc a. apply set_add_NoDup.
  - destruct (0 <? level)%nat; [assumption|].
    destruct module as [m|]; [|assumption].
    destruct (truthy m); [now apply set_add_NoDup | assumption].
Qed.

Variable ast_parse : string -> result node.

Lemma scan_file_In (imports : list string) (content : result string) (x : string) :
  In x (scan_file ast_parse imports content)
  <-> In x imports
      \/ exists text tree,
           content = Ok text /\ ast_parse text = Ok tree /\ names_import tree x.
Proof.
  unfold scan_file. destruct content as [text|msg].
  - destruct (ast_parse text) as [tree|msg] eqn:P.
    + rewrite (fold_add_In scan_node node_names) by apply scan_node_In.
      unfold names_import. split.
      * intros [H|[n [Hn Hx]]]; [now left|].
        right. exists text, tree. apply walk_subnode in Hn. eauto.
      * intros [H|[text' [tree' [[= <-] [Hp [n [Hn Hx]]]]]]]; [now left|].
        right. exists n. rewrite P in Hp. injection Hp as <-.
        apply walk_subnode in Hn. eauto.
    + split; [tauto|].
      intros [H|[text' [tree' [[= <-] [Hp _]]]]]; [exact H | congruence].
  - split; [tauto|].
    intros [H|[text' [tree' [[=] _]]]]. exact H.
Qed.

Lemma scan_file_NoDup (imports : list string) (content : result string) :
  NoDup imports -> NoDup (scan_file ast_parse imports content).
Proof.
  intros H. unfold scan_file. destruct content as [text|]; [|assumption].
  destruct (ast_parse text); [|assumption].
  apply fold_add_NoDup; [|assumption]. intros acc n. apply scan_node_NoDup.
Qed.

Lemma scan_python_files_In (p : project) (x : string) :
  In x (_scan_python_files ast_parse p) <-> file_imports ast_parse p x.
Proof.
  unfold _scan_python_files, file_imports.
  rewrite (fold_add_In
             (fun imports e =>
                fold_left
                  (fun imports f =>
                     if endswith (fst f) ".py" then scan_file ast_parse imports (snd f)
                     else imports)
                  (files (entry e)) imports)
             (fun e y =>
                exists f text tree,
                  In f (files (entry e)) /\ endswith (fst f) ".py" = true
                  /\ snd f = Ok text /\ ast_parse text = Ok tree /\ names_import tree y)).
  - split.
    + intros [[]|[e [He [f [text [tree H]]]]]].
      exists e, f, text, tree. apply os_walk_visits in He. tauto.
    + intros [e [f [text [tree [He H]]]]]. right.
      exists e. split; [now apply os_walk_visits|]. exists f, text, tree. exact H.
  - intros acc e y.
    rewrite (fold_add_In
               (fun imports f =>
                  if endswith (fst f) ".py" then scan_file ast_parse imports (snd f)
                  else imports)
               (fun f y =>
                  exists text tree,
                    endswith (fst f) ".py" = true
                    /\ snd f = Ok text /\ ast_parse text = Ok tree /\ names_import tree y)).
    + split.
      * intros [H|[f [Hf [text [tree H]]]]]; [now left|].
        right. exists f, text, tree. tauto.
      * intros [H|[f [text [tree [Hf H]]]]]; [now left|].
        right. exists f. split; [exact Hf|]. exists text, tree. exact H.
    + intros acc' f z. destruct (endswith (fst f) ".py") eqn:E.
      * rewrite scan_file_In. split.
        -- intros [H|[text [tree H]]]; [now left|]. right. exists text, tree. tauto.
        -- intros [H|[text [tree [_ H]]]]; [now left|]. right. exists text, tree. exact H.
      * split; [tauto|]. intros [H|[text [tree [H _]]]]; [exact H | discriminate].
Qed.

Lemma scan_python_files_NoDup (p : project) : NoDup (_scan_python_files ast_parse p).
Proof.
  unfold _scan_python_files.
  apply fold_add_NoDup; [|constructor].
  intros acc e H. apply fold_add_NoDup; [|exact H].
  intros acc' f H'. destruct (endswith (fst f) ".py"); [|exact H'].
  now apply scan_file_NoDup.
Qed.

End ScanFacts.

Section FilterFacts.
Import Ast Fs Metadata FirstEdition.

Lemma keep_import_true (s : state) (imp : string) :
  keep_import s imp = true
  <-> imp <> "" /\ ~ In imp (std_lib s) /\ ~ In imp (local_modules s).
Proof.
  unfold keep_import.
  rewrite !andb_true_iff, !negb_true_iff, truthy_true, !mem_false. tauto.
Qed.

Lemma filter_Permutation (A : Type) (f : A -> bool) (l l' : list A) :
  Permutation l l' -> Permutation (filter f l) (filter f l').
Proof.
  induction 1 as [|x l l' H IH|x y l|l l' l'' H1 IH1 H2 IH2]; simpl.
  - constructor.
  - destruct (f x); [now constructor | assumption].
  - destruct (f x), (f y); try reflexivity. apply perm_swap.
  - now transitivity (filter f l').
Qed.

(** C6. The filter of step 2 keeps a candidate exactly when it is not empty
    and is in neither the standard-library set nor the local-module set; the
    names it keeps of a set are the members that pass this test, and examining
    the candidates in another order keeps the same names. The test is a
    function of the candidate and the two sets alone and changes nothing. *)
Theorem filter_contract (s : state) (discovered : list string) (imp : string) :
  (keep_import s imp = true
   <-> imp <> "" /\ ~ In imp (std_lib s) /\ ~ In imp (local_modules s))
  /\ (In imp (filter (keep_import s) discovered)
      <-> In imp discovered /\ imp <> ""
          /\ ~ In imp (std_lib s) /\ ~ In imp (local_modules s))
  /\ (forall reordered,
        Permutation discovered reordered ->
        Permutation (filter (keep_import s) discovered)
                    (filter (keep_import s) reordered)).
Proof.
  split; [apply keep_import_true|]. split.
  - rewrite filter_In, keep_import_true. tauto.
  - intros reordered. apply filter_Permutation.
Qed.

Lemma node_names_top_level (n : node) (x : string) :
  node_names n x <-> top_level_import n x.
Proof.
  destruct n as [names | module level | | | | | |]; simpl; try tauto.
  - split; intros [alias [Hin H]]; exists alias; (split; [exact Hin|]).
    + now apply first_segment_top_level.
    + symmetry. now apply first_segment_top_level.
  - destruct module as [m|]; [|tauto]. destruct level; [|tauto].
    split; intros [Hm H]; (split; [exact Hm|]).
    + now apply first_segment_top_level.
    + symmetry. now apply first_segment_top_level.
Qed.

(** C8. The names that [_scan_python_files] collects are exactly the
    top-level segments (the text before the first dot, or the whole name when
    it holds no dot) of the aliases of the plain imports and of the non-empty
    modules of the from-imports of level zero, over the files ending in [.py]
    that the walk reaches and that can be read and parsed; a from-import of a
    level above zero adds nothing. A dotted name has one top-level segment
    and one only, and no collected name holds a dot. *)
Theorem syntactic_extractor_collects
    (ast_parse : string -> result node) (p : project) (x : string) :
  (In x (_scan_python_files ast_parse p)
   <-> exists e f text tree n,
         visits scan_keep (root_dir p) (above_root p) (root p) e
         /\ In f (files (entry e))
         /\ endswith (fst f) ".py" = true
         /\ snd f = Ok text
         /\ ast_parse text = Ok tree
         /\ subnode n tree
         /\ top_level_import n x)
  /\ (forall imports names y,
        In y (scan_node imports (Import names))
        <-> In y imports \/ exists alias, In alias names /\ top_level_segment alias y)
  /\ (forall imports m y,
        In y (scan_node imports (ImportFrom (Some m) 0))
        <-> In y imports \/ (m <> "" /\ top_level_segment m y))
  /\ (forall imports module level,
        scan_node imports (ImportFrom module (S level)) = imports)
  /\ (forall dotted, exists y, top_level_segment dotted y)
  /\ (forall dotted y y',
        top_level_segment dotted y -> top_level_segment dotted y' -> y = y')
  /\ (In x (_scan_python_files ast_parse p) -> str_contains "." x = false).
Proof.
  assert (In x (_scan_python_files ast_parse p)
          <-> exists e f text tree n,
                visits scan_keep (root_dir p) (above_root p) (root p) e
                /\ In f (files (entry e))
                /\ endswith (fst f) ".py" = true
                /\ snd f = Ok text
                /\ ast_parse text = Ok tree
                /\ subnode n tree
                /\ top_level_import n x) as Hfiles.
  { rewrite scan_python_files_In. unfold file_imports, names_import. split.
    - intros [e [f [text [tree [He [Hf [Hpy [Hread [Hparse [n [Hn Hx]]]]]]]]]]].
      exists e, f, text, tree, n. apply node_names_top_level in Hx. tauto.
    - intros [e [f [text [tree [n [He [Hf [Hpy [Hread [Hparse [Hn Hx]]]]]]]]]]].
      exists e, f, text, tree. apply node_names_top_level in Hx.
      repeat (split; [assumption|]). now exists n. }
  split; [exact Hfiles|]. split; [|split; [|split; [|split; [|split]]]].
  - intros imports names y. rewrite scan_node_In.
    now rewrite (node_names_top_level (Import names) y).
  - intros imports m y. rewrite scan_node_In.
    now rewrite (node_names_top_level (ImportFrom (Some m) 0) y).
  - reflexivity.
  - intros dotted. exists (first_segment dotted). now apply first_segment_top_level.
  - intros dotted y y' Hy Hy'.
    apply first_segment_top_level in Hy, Hy'. congruence.
  - intros Hin. apply Hfiles in Hin.
    destruct Hin as [_ [_ [_ [_ [n [_ [_ [_ [_ [_ [_ Hx]]]]]]]]]]].
    destruct n as [names | module level | | | | | |]; simpl in Hx; try contradiction.
    + destruct Hx as [_ [_ [H _]]]. exact H.
    + destruct module as [m|]; [|contradiction]. destruct level; [|contradiction].
      destruct Hx as [_ [H _]]. exact H.
Qed.

Lemma find_local_modules_In (p : project) (name : string) :
  In name (_find_local_modules p)
  <-> name = basename (root_dir p)
      \/ exists e,
           visits (fun _ => true) (root_dir p) (above_root p) (root p) e
           /\ In "__init__.py" (filenames (entry e))
           /\ name = basename (dirpath e).
Proof.
  unfold _find_local_modules. rewrite set_add_In.
  rewrite (fold_add_In
             (fun acc e =>
                if mem "__init__.py" (filenames (entry e))
                then set_add (basename (dirpath e)) acc else acc)
             (fun e y => In "__init__.py" (filenames (entry e)) /\ y = basename (dirpath e))).
  - split.
    + intros [H|[[]|[e [He H]]]]; [now left|].
      right. exists e. apply os_walk_visits in He. tauto.
    + intros [H|[e [He H]]]; [now left|].
      right. right. exists e. split; [now apply os_walk_visits | exact H].
  - intros acc e y. destruct (mem "__init__.py" (filenames (entry e))) eqn:M.
    + apply mem_In in M. rewrite set_add_In. tauto.
    + apply mem_false in M. tauto.
Qed.

Lemma init_local_modules (v : nat * nat) (names : list string) (p : project)
    (out : list string) :
  local_modules (init v names p out) = _find_local_modules p.
Proof.
  unfold init. destruct (_get_std_lib_modules v names out). reflexivity.
Qed.

Lemma basename_join (top : path) (name : string) : basename (path_join top name) = name.
Proof. unfold basename, path_join. apply last_last. Qed.

(** C10. The local-module set holds the base name of the root and of every
    directory that [os.walk] reaches from the root with nothing pruned and
    that holds an [__init__.py]; so a package directory anywhere below a
    directory that the source scan prunes ([.venv] and the like) is a local
    module too, and a candidate of a local module's name does not pass the
    filter. *)
Theorem local_modules_walk_is_unpruned
    (v : nat * nat) (names : list string) (p : project) (out : list string) :
  (forall name,
     In name (_find_local_modules p)
     <-> name = basename (root_dir p)
         \/ exists e,
              visits (fun _ => true) (root_dir p) (above_root p) (root p) e
              /\ In "__init__.py" (filenames (entry e))
              /\ name = basename (dirpath e))
  /\ (forall excluded sub e,
        In excluded exclude_dirs ->
        In (excluded, sub) (subdirs (root p)) ->
        visits (fun _ => true) (path_join (root_dir p) excluded) (listdir (root p)) sub e ->
        In "__init__.py" (filenames (entry e)) ->
        scan_keep excluded = false
        /\ In (basename (dirpath e)) (_find_local_modules p))
  /\ (forall imp,
        In imp (_find_local_modules p) ->
        keep_import (init v names p out) imp = false).
Proof.
  split; [apply find_local_modules_In|]. split.
  - intros excluded sub e Hx Hsub Hv Hi. split.
    + unfold scan_keep. apply negb_false_iff. now apply mem_In.
    + apply find_local_modules_In. right.
      exists e. split; [|split; [exact Hi | reflexivity]].
      eapply visits_sub; [exact Hsub | reflexivity | exact Hv].
  - intros imp H.
    destruct (keep_import (init v names p out) imp) eqn:K; [|reflexivity].
    apply keep_import_true in K. rewrite init_local_modules in K. tauto.
Qed.

End FilterFacts.

(** ** Loops that record the first value found for a key *)

Section RecordFacts.
Variables K V X : Type.
Variable eqb : K -> K -> bool.
Hypothesis eqb_eq : forall a b, eqb a b = true <-> a = b.
Variable res : X -> option (K * V).

Lemma dict_add_new_NoDup (k : K) (v : V) (d : dict K V) :
  NoDup (dict_keys d) -> NoDup (dict_keys (dict_add_new eqb k v d)).
Proof.
  intros H. unfold dict_add_new.
  destruct (dict_mem eqb k d); [assumption | now apply dict_set_NoDup].
Qed.

Lemma dict_add_new_keeps (k k' : K) (v v' : V) (d : dict K V) :
  dict_get eqb k' d = Some v' -> dict_get eqb k' (dict_add_new eqb k v d) = Some v'.
Proof.
  intros H. unfold dict_add_new, dict_mem.
  destruct (dict_get eqb k d) eqn:E; [assumption|].
  rewrite dict_get_set_other; [assumption | assumption | congruence].
Qed.

Lemma dict_add_new_fresh (k : K) (v : V) (d : dict K V) :
  dict_get eqb k d = None -> dict_get eqb k (dict_add_new eqb k v d) = Some v.
Proof.
  intros H. unfold dict_add_new, dict_mem. rewrite H.
  now apply dict_get_set_same.
Qed.

Lemma dict_add_new_other (k k' : K) (v : V) (d : dict K V) :
  k' <> k -> dict_get eqb k' (dict_add_new eqb k v d) = dict_get eqb k' d.
Proof.
  intros H. unfold dict_add_new.
  destruct (dict_mem eqb k d); [reflexivity | now apply dict_get_set_other].
Qed.

Lemma dict_add_new_In (k k' : K) (v v' : V) (d : dict K V) :
  In (k', v') (dict_add_new eqb k v d) -> (k' = k /\ v' = v) \/ In (k', v') d.
Proof.
  unfold dict_add_new. destruct (dict_mem eqb k d); [tauto|].
  now apply dict_set_In.
Qed.

Lemma record_NoDup (l : list X) :
  forall d, NoDup (dict_keys d) -> NoDup (dict_keys (fold_left (record_new eqb res) l d)).
Proof.
  induction l as [|x l IH]; intros d H; simpl; [assumption|].
  apply IH. unfold record_new.
  destruct (res x) as [[k v]|]; [now apply dict_add_new_NoDup | assumption].
Qed.

(** A key that has a value keeps it. *)
Lemma record_keeps (l : list X) (k : K) (v : V) :
  forall d, dict_get eqb k d = Some v ->
            dict_get eqb k (fold_left (record_new eqb res) l d) = Some v.
Proof.
  induction l as [|x l IH]; intros d H; simpl; [assumption|].
  apply IH. unfold record_new.
  destruct (res x) as [[k' v']|]; [now apply dict_add_new_keeps | assumption].
Qed.

(** A key that nothing is found for stays as it is. *)
Lemma record_untouched (l : list X) (k : K) :
  (forall x v, In x l -> res x <> Some (k, v)) ->
  forall d, dict_get eqb k (fold_left (record_new eqb res) l d) = dict_get eqb k d.
Proof.
  induction l as [|x l IH]; intros Hl d; simpl; [reflexivity|].
  rewrite IH by (intros y v Hy; apply Hl; now right).
  unfold record_new. destruct (res x) as [[k' v']|] eqn:E; [|reflexivity].
  apply dict_add_new_other. intros ->. apply (Hl x v'); [now left | assumption].
Qed.

(** The first element for which something is found under a key decides the
    value of the key. *)
Lemma record_first (l1 l2 : list X) (x : X) (k : K) (v : V) (d : dict K V) :
  dict_get eqb k d = None ->
  (forall y v', In y l1 -> res y <> Some (k, v')) ->
  res x = Some (k, v) ->
  dict_get eqb k (fold_left (record_new eqb res) (l1 ++ x :: l2) d) = Some v.
Proof.
  intros Hd Hl1 Hx.
  rewrite fold_left_app. simpl.
  apply record_keeps.
  unfold record_new at 1. rewrite Hx.
  apply dict_add_new_fresh.
  now rewrite record_untouched.
Qed.

(** Every entry was there at the start or was found for some element. *)
Lemma record_In (l : list X) (k : K) (v : V) :
  forall d, In (k, v) (fold_left (record_new eqb res) l d) ->
            In (k, v) d \/ exists x, In x l /\ res x = Some (k, v).
Proof.
  induction l as [|x l IH]; intros d H; simpl in H; [now left|].
  apply IH in H. destruct H as [H|[y [Hy H]]].
  - unfold record_new in H. destruct (res x) as [[k' v']|] eqn:E; [|now left].
    apply dict_add_new_In in H. destruct H as [[-> ->]|H]; [|now left].
    right. exists x. split; [now left | assumption].
  - right. exists y. split; [now right | assumption].
Qed.

End RecordFacts.

(** ** The syntactic variant: resolution *)

Section ResolveFacts.
Import Ast Fs Metadata FirstEdition.
Variable distribution : index.

Lemma resolve_import_spec (s : state) (imp : string) :
  std_lib (resolve_import distribution s imp) = std_lib s
  /\ local_modules (resolve_import distribution s imp) = local_modules s
  /\ queries (resolve_import distribution s imp) = queries s ++ [pypi_name_to_check imp]
  /\ final_requirements (resolve_import distribution s imp)
     = record_new String.eqb (found_for distribution) (final_requirements s) imp.
Proof.
  unfold resolve_import, _get_package_info, record_new, found_for, reports, dict_add_new.
  destruct (distribution (pypi_name_to_check imp)) as [d|]; simpl; [|tauto].
  destruct (metadata_Name d) as [name|]; simpl; [|tauto].
  destruct (truthy name); simpl; [|tauto].
  destruct (dict_mem String.eqb name (final_requirements s)); simpl; tauto.
Qed.

Lemma fold_resolve_import_spec (l : list string) :
  forall s,
    std_lib (fold_left (resolve_import distribution) l s) = std_lib s
    /\ local_modules (fold_left (resolve_import distribution) l s) = local_modules s
    /\ queries (fold_left (resolve_import distribution) l s)
       = queries s ++ map pypi_name_to_check l
    /\ final_requirements (fold_left (resolve_import distribution) l s)
       = fold_left (record_new String.eqb (found_for distribution)) l (final_requirements s).
Proof.
  induction l as [|imp l IH]; intros s; simpl.
  - rewrite app_nil_r. tauto.
  - destruct (IH (resolve_import distribution s imp)) as [H1 [H2 [H3 H4]]].
    destruct (resolve_import_spec s imp) as [E1 [E2 [E3 E4]]].
    rewrite H1, H2, H3, H4, E1, E2, E3, E4, <- app_assoc. tauto.
Qed.

Lemma check_tool_spec (s : state) (tool : string) :
  std_lib (check_tool distribution s tool) = std_lib s
  /\ local_modules (check_tool distribution s tool) = local_modules s
  /\ (queries (check_tool distribution s tool) = queries s
      \/ queries (check_tool distribution s tool) = queries s ++ [tool])
  /\ final_requirements (check_tool distribution s tool)
     = if dict_mem String.eqb tool (final_requirements s) then final_requirements s
       else match reports distribution tool with
            | Some (name, v) => dict_set String.eqb name v (final_requirements s)
            | None => final_requirements s
            end.
Proof.
  unfold check_tool, _get_package_info, reports.
  destruct (dict_mem String.eqb tool (final_requirements s)); [tauto|].
  destruct (distribution tool) as [d|]; simpl; [|tauto].
  destruct (metadata_Name d) as [name|]; simpl; [|tauto].
  destruct (truthy name); simpl; tauto.
Qed.

Lemma check_tool_NoDup (s : state) (tool : string) :
  NoDup (dict_keys (final_requirements s)) ->
  NoDup (dict_keys (final_requirements (check_tool distribution s tool))).
Proof.
  intros H. destruct (check_tool_spec s tool) as [_ [_ [_ ->]]].
  destruct (dict_mem String.eqb tool (final_requirements s)); [assumption|].
  destruct (reports distribution tool) as [[name v]|]; [|assumption].
  apply dict_set_NoDup; [apply String.eqb_eq | assumption].
Qed.

Lemma check_tool_In (s : state) (tool name : string) (v : option string) :
  In (name, v) (final_requirements (check_tool distribution s tool)) ->
  In (name, v) (final_requirements s) \/ reports distribution tool = Some (name, v).
Proof.
  destruct (check_tool_spec s tool) as [_ [_ [_ ->]]].
  destruct (dict_mem String.eqb tool (final_requirements s)); [tauto|].
  destruct (reports distribution tool) as [[name' v']|]; [|tauto].
  intros H. apply dict_set_In in H; [|apply String.eqb_eq].
  destruct H as [[-> ->]|H]; tauto.
Qed.

Lemma fold_check_tool_spec (tools : list string) :
  forall s,
    std_lib (fold_left (check_tool distribution) tools s) = std_lib s
    /\ local_modules (fold_left (check_tool distribution) tools s) = local_modules s
    /\ (exists looked_up,
          queries (fold_left (check_tool distribution) tools s) = queries s ++ looked_up
          /\ incl looked_up tools)
    /\ (NoDup (dict_keys (final_requirements s)) ->
        NoDup (dict_keys (final_requirements (fold_left (check_tool distribution) tools s))))
    /\ (forall name v,
          In (name, v) (final_requirements (fold_left (check_tool distribution) tools s)) ->
          In (name, v) (final_requirements s)
          \/ exists tool, In tool tools /\ reports distribution tool = Some (name, v)).
Proof.
  induction tools as [|tool tools IH]; intros s; simpl.
  - repeat split; auto.
    exists []. rewrite app_nil_r. split; [reflexivity | apply incl_nil_l].
  - destruct (IH (check_tool distribution s tool)) as [H1 [H2 [[q [H3 Hq]] [H4 H5]]]].
    destruct (check_tool_spec s tool) as [E1 [E2 [E3 _]]].
    rewrite H1, H2, E1, E2. repeat split.
    + destruct E3 as [E3|E3]; rewrite H3, E3.
      * exists q. split; [reflexivity | now apply incl_tl].
      * exists (tool :: q). rewrite <- app_assoc. split; [reflexivity|].
        apply incl_cons; [now left | now apply incl_tl].
    + intros H. apply H4. now apply check_tool_NoDup.
    + intros name v H. apply H5 in H. destruct H as [H|[t [Ht H]]].
      * apply check_tool_In in H. destruct H as [H|H]; [now left|].
        right. exists tool. split; [now left | assumption].
      * right. exists t. split; [now right | assumption].
Qed.

(** The requirements after the loop of step 4 depend on the generator only
    through the requirements before it. *)
Lemma fold_check_tool_final (tools : list string) :
  forall s s',
    final_requirements s = final_requirements s' ->
    final_requirements (fold_left (check_tool distribution) tools s)
    = final_requirements (fold_left (check_tool distribution) tools s').
Proof.
  induction tools as [|tool tools IH]; intros s s' H; simpl; [assumption|].
  apply IH.
  destruct (check_tool_spec s tool) as [_ [_ [_ ->]]].
  destruct (check_tool_spec s' tool) as [_ [_ [_ ->]]].
  now rewrite H.
Qed.

Variable ast_parse : string -> result node.
Variable tools : list string.

Lemma resolve_spec (discovered : list string) (s : state) :
  exists s3,
    resolve distribution tools discovered s = fold_left (check_tool distribution) tools s3
    /\ std_lib s3 = std_lib s
    /\ local_modules s3 = local_modules s
    /\ queries s3
       = queries s
         ++ map pypi_name_to_check (sorted_str (filter (keep_import s) discovered))
    /\ final_requirements s3
       = fold_left (record_new String.eqb (found_for distribution))
           (sorted_str (filter (keep_import s) discovered)) (final_requirements s).
Proof.
  unfold resolve. eexists. split; [reflexivity|].
  change (keep_import (print _ s)) with (keep_import s).
  match goal with
  | |- context [fold_left (resolve_import distribution) ?l ?s0] =>
      destruct (fold_resolve_import_spec l s0) as [H1 [H2 [H3 H4]]];
      set (s2 := fold_left (resolve_import distribution) l s0) in *
  end.
  change (std_lib s2 = std_lib s
          /\ local_modules s2 = local_modules s
          /\ queries s2
             = queries s
               ++ map pypi_name_to_check (sorted_str (filter (keep_import s) discovered))
          /\ final_requirements s2
             = fold_left (record_new String.eqb (found_for distribution))
                 (sorted_str (filter (keep_import s) discovered)) (final_requirements s)).
  rewrite H1, H2, H3, H4. repeat split; reflexivity.
Qed.

Lemma scan_django_settings_state (p : project) (s : state) :
  std_lib (snd (_scan_django_settings ast_parse p s)) = std_lib s
  /\ local_modules (snd (_scan_django_settings ast_parse p s)) = local_modules s
  /\ final_requirements (snd (_scan_django_settings ast_parse p s)) = final_requirements s
  /\ queries (snd (_scan_django_settings ast_parse p s)) = queries s.
Proof.
  unfold _scan_django_settings.
  destruct (find is_settings_dir _) as [e|]; simpl; [|tauto].
  unfold scan_settings_file.
  destruct (read_file "settings.py" (entry e)) as [text|]; simpl; [|tauto].
  destruct (ast_parse text) as [tree|]; simpl; [|tauto].
  destruct (scan_settings_nodes (walk tree) []) as [found [err|]]; simpl; tauto.
Qed.

(** The names that the settings scan finds do not depend on the generator. *)
Lemma scan_django_settings_found (p : project) (s s' : state) :
  fst (_scan_django_settings ast_parse p s) = fst (_scan_django_settings ast_parse p s').
Proof.
  unfold _scan_django_settings.
  destruct (find is_settings_dir _) as [e|]; simpl; [|reflexivity].
  unfold scan_settings_file.
  destruct (read_file "settings.py" (entry e)) as [text|]; simpl; [|reflexivity].
  destruct (ast_parse text) as [tree|]; simpl; [|reflexivity].
  destruct (scan_settings_nodes (walk tree) []) as [found [err|]]; reflexivity.
Qed.

Lemma discover_spec (p : project) (s : state) :
  fst (discover ast_parse p s)
  = set_update (_scan_python_files ast_parse p) (fst (_scan_django_settings ast_parse p s))
  /\ std_lib (snd (discover ast_parse p s)) = std_lib s
  /\ local_modules (snd (discover ast_parse p s)) = local_modules s
  /\ final_requirements (snd (discover ast_parse p s)) = final_requirements s
  /\ queries (snd (discover ast_parse p s)) = queries s.
Proof.
  unfold discover.
  pose proof (scan_django_settings_state p
                (print "--- Step 1: Scanning project for imports ---" s)) as H.
  pose proof (scan_django_settings_found p
                (print "--- Step 1: Scanning project for imports ---" s) s) as F.
  destruct (_scan_django_settings ast_parse p
              (print "--- Step 1: Scanning project for imports ---" s)) as [dj s1].
  simpl in *. rewrite F. tauto.
Qed.

Lemma run_unfold (p : project) (s : state) :
  run distribution ast_parse tools p s
  = resolve distribution tools (fst (discover ast_parse p s)) (snd (discover ast_parse p s)).
Proof.
  unfold run. now destruct (discover ast_parse p s).
Qed.

Lemma init_spec (v : nat * nat) (names : list string) (p : project) (out : list string) :
  final_requirements (init v names p out) = []
  /\ queries (init v names p out) = []
  /\ local_modules (init v names p out) = _find_local_modules p.
Proof.
  unfold init. destruct (_get_std_lib_modules v names out). simpl. tauto.
Qed.

End ResolveFacts.

(** ** The inferential variant: resolution *)

Section GeminiResolveFacts.
Import Fs Metadata GeminiWay.
Variable distribution : index.

Lemma resolve_package_spec (s : state) (pkg_name : string) :
  project_code (resolve_package distribution s pkg_name) = project_code s
  /\ queries (resolve_package distribution s pkg_name) = queries s ++ [corrected_name pkg_name]
  /\ final_requirements (resolve_package distribution s pkg_name)
     = record_new key_eqb (found_for distribution) (final_requirements s) pkg_name.
Proof.
  unfold resolve_package, record_new, found_for, reports, dict_add_new.
  destruct (distribution (corrected_name pkg_name)) as [d|]; simpl; [|tauto].
  destruct (dict_mem key_eqb (metadata_Name d) (final_requirements s)); simpl; tauto.
Qed.

Lemma fold_resolve_package_spec (l : list string) :
  forall s,
    project_code (fold_left (resolve_package distribution) l s) = project_code s
    /\ queries (fold_left (resolve_package distribution) l s)
       = queries s ++ map corrected_name l
    /\ final_requirements (fold_left (resolve_package distribution) l s)
       = fold_left (record_new key_eqb (found_for distribution)) l (final_requirements s).
Proof.
  induction l as [|pkg l IH]; intros s; simpl.
  - rewrite app_nil_r. tauto.
  - destruct (IH (resolve_package distribution s pkg)) as [H1 [H2 H3]].
    destruct (resolve_package_spec s pkg) as [E1 [E2 E3]].
    rewrite H1, H2, H3, E1, E2, E3, <- app_assoc. tauto.
Qed.

Lemma parse_and_resolve_versions_final (gemini_output : string) (s : state) :
  final_requirements (_parse_and_resolve_versions distribution gemini_output s)
  = if truthy gemini_output
    then fold_left (record_new key_eqb (found_for distribution))
           (sorted_str (potential_packages gemini_output)) (final_requirements s)
    else final_requirements s.
Proof.
  unfold _parse_and_resolve_versions.
  destruct (truthy gemini_output); [|reflexivity].
  match goal with
  | |- context [fold_left (resolve_package distribution) ?l ?s0] =>
      destruct (fold_resolve_package_spec l s0) as [_ [_ ->]]
  end.
  reflexivity.
Qed.

End GeminiResolveFacts.

(** ** Name mapping, deduplication and local-module precedence *)



Section Dedup.
Import Fs Metadata.
Variable distribution : index.

Lemma run_final_NoDup (v : nat * nat) (names : list string)
    (ast_parse : string -> result Ast.node) (tools : list string)
    (p : project) (out : list string) :
  NoDup (dict_keys (FirstEdition.final_requirements
                      (FirstEdition.run distribution ast_parse tools p
                         (FirstEdition.init v names p out)))).
Proof.
  rewrite run_unfold.
  destruct (resolve_spec distribution tools
              (fst (FirstEdition.discover ast_parse p (FirstEdition.init v names p out)))
              (snd (FirstEdition.discover ast_parse p (FirstEdition.init v names p out))))
    as [s3 [-> [_ [_ [_ H]]]]].
  apply fold_check_tool_spec. rewrite H.
  apply record_NoDup; [apply String.eqb_eq|].
  destruct (discover_spec ast_parse p (FirstEdition.init v names p out)) as [_ [_ [_ [-> _]]]].
  destruct (init_spec v names p out) as [-> _]. constructor.
Qed.

(** The final requirement mapping of a run holds no distribution name twice,
    in either variant. In the loop over the candidates, started from an
    empty mapping, the keys are names that the metadata index reported for a
    candidate, the entry of a name is the version found for the first
    candidate, in processing order, for which the index reports that name,
    and a candidate for which the index reports a name that is already a key
    changes nothing. *)
Theorem first_found_wins :
  (forall v names ast_parse tools p out,
     NoDup (dict_keys (FirstEdition.final_requirements
                         (FirstEdition.run distribution ast_parse tools p
                            (FirstEdition.init v names p out)))))
  /\ (forall s before imp after name ver,
        FirstEdition.final_requirements s = [] ->
        FirstEdition.found_for distribution imp = Some (name, ver) ->
        (forall earlier ver',
           In earlier before ->
           FirstEdition.found_for distribution earlier <> Some (name, ver')) ->
        dict_get String.eqb name
          (FirstEdition.final_requirements
             (fold_left (FirstEdition.resolve_import distribution)
                (before ++ imp :: after) s))
        = Some ver)
  /\ (forall s imp name ver,
        FirstEdition.found_for distribution imp = Some (name, ver) ->
        In name (dict_keys (FirstEdition.final_requirements s)) ->
        FirstEdition.final_requirements (FirstEdition.resolve_import distribution s imp)
        = FirstEdition.final_requirements s)
  /\ (forall s candidates name ver,
        FirstEdition.final_requirements s = [] ->
        In (name, ver)
          (FirstEdition.final_requirements
             (fold_left (FirstEdition.resolve_import distribution) candidates s)) ->
        exists imp, In imp candidates
                    /\ FirstEdition.found_for distribution imp = Some (name, ver))
  /\ (forall gemini_output s,
        GeminiWay.final_requirements s = [] ->
        NoDup (dict_keys (GeminiWay.final_requirements
                            (GeminiWay._parse_and_resolve_versions distribution
                               gemini_output s))))
  /\ (forall s before pkg after name ver,
        GeminiWay.final_requirements s = [] ->
        GeminiWay.found_for distribution pkg = Some (name, ver) ->
        (forall earlier ver',
           In earlier before ->
           GeminiWay.found_for distribution earlier <> Some (name, ver')) ->
        dict_get GeminiWay.key_eqb name
          (GeminiWay.final_requirements
             (fold_left (GeminiWay.resolve_package distribution)
                (before ++ pkg :: after) s))
        = Some ver)
  /\ (forall s pkg name ver,
        GeminiWay.found_for distribution pkg = Some (name, ver) ->
        In name (dict_keys (GeminiWay.final_requirements s)) ->
        GeminiWay.final_requirements (GeminiWay.resolve_package distribution s pkg)
        = GeminiWay.final_requirements s)
  /\ (forall s candidates name ver,
        GeminiWay.final_requirements s = [] ->
        In (name, ver)
          (GeminiWay.final_requirements
             (fold_left (GeminiWay.resolve_package distribution) candidates s)) ->
        exists pkg, In pkg candidates
                    /\ GeminiWay.found_for distribution pkg = Some (name, ver)).
Proof.
  split; [intros; apply run_final_NoDup|].
  split; [|split; [|split; [|split; [|split; [|split]]]]].
  - intros s before imp after name ver Hs Hf Hb.
    destruct (fold_resolve_import_spec distribution (before ++ imp :: after) s)
      as [_ [_ [_ ->]]].
    apply record_first; try assumption; [apply String.eqb_eq | now rewrite Hs].
  - intros s imp name ver Hf Hk.
    destruct (resolve_import_spec distribution s imp) as [_ [_ [_ ->]]].
    unfold record_new, dict_add_new. rewrite Hf.
    apply (proj2 (dict_mem_In _ String.eqb_eq _ _)) in Hk. now rewrite Hk.
  - intros s candidates name ver Hs H.
    destruct (fold_resolve_import_spec distribution candidates s) as [_ [_ [_ E]]].
    rewrite E, Hs in H. apply record_In in H; [|apply String.eqb_eq].
    destruct H as [[]|H]. exact H.
  - intros gemini_output s Hs. rewrite parse_and_resolve_versions_final, Hs.
    destruct (truthy gemini_output); [|constructor].
    apply record_NoDup; [apply key_eqb_eq | constructor].
  - intros s before pkg after name ver Hs Hf Hb.
    destruct (fold_resolve_package_spec distribution (before ++ pkg :: after) s)
      as [_ [_ ->]].
    apply record_first; try assumption; [apply key_eqb_eq | now rewrite Hs].
  - intros s pkg name ver Hf Hk.
    destruct (resolve_package_spec distribution s pkg) as [_ [_ ->]].
    unfold record_new, dict_add_new. rewrite Hf.
    apply (proj2 (dict_mem_In _ key_eqb_eq _ _)) in Hk. now rewrite Hk.
  - intros s candidates name ver Hs H.
    destruct (fold_resolve_package_spec distribution candidates s) as [_ [_ E]].
    rewrite E, Hs in H. apply record_In in H; [|apply key_eqb_eq].
    destruct H as [[]|H]. exact H.
Qed.

End Dedup.

Section LocalPrecedence.
Import Ast Fs Metadata FirstEdition.
Variable v : nat * nat.
Variable names : list string.
Variable distribution : index.
Variable ast_parse : string -> result node.
Variable tools : list string.

(** C1, as the code has it. Every entry of the final requirement mapping was
    reported by the metadata index either for a discovered name that is not
    empty, not a standard-library module and not a local module, looked up
    under its mapped name, or for one of the known tools, looked up under the
    tool's own name. The names passed to the index are those of the filtered
    candidates followed by tool names, and no local module name is among the
    filtered candidates. *)
Theorem local_names_are_not_resolved_as_imports
    (p : project) (out : list string) (name : string) (ver : option string) :
  (In (name, ver)
      (final_requirements (run distribution ast_parse tools p (init v names p out))) ->
   (exists imp,
      In imp (fst (discover ast_parse p (init v names p out)))
      /\ imp <> ""
      /\ ~ In imp (std_lib (init v names p out))
      /\ ~ In imp (_find_local_modules p)
      /\ reports distribution (pypi_name_to_check imp) = Some (name, ver))
   \/ (exists tool, In tool tools /\ reports distribution tool = Some (name, ver)))
  /\ (exists looked_up,
        queries (run distribution ast_parse tools p (init v names p out))
        = map pypi_name_to_check
            (sorted_str (filter (keep_import (init v names p out))
                           (fst (discover ast_parse p (init v names p out)))))
          ++ looked_up
        /\ incl looked_up tools)
  /\ (forall imp,
        In imp (_find_local_modules p) ->
        ~ In imp (sorted_str (filter (keep_import (init v names p out))
                                (fst (discover ast_parse p (init v names p out)))))).
Proof.
  set (s0 := init v names p out).
  destruct (discover_spec ast_parse p s0) as [_ [D1 [D2 [D3 D4]]]].
  destruct (init_spec v names p out) as [I1 [I2 I3]]. fold s0 in I1, I2, I3.
  destruct (resolve_spec distribution tools (fst (discover ast_parse p s0))
              (snd (discover ast_parse p s0))) as [s3 [R [R1 [R2 [R3 R4]]]]].
  assert (keep_import (snd (discover ast_parse p s0)) = keep_import s0) as K.
  { unfold keep_import. now rewrite D1, D2. }
  rewrite K in R3, R4. rewrite D3, I1 in R4. rewrite D4, I2 in R3. simpl in R3.
  rewrite run_unfold, R.
  destruct (fold_check_tool_spec distribution tools s3) as [_ [_ [[q [Q Hq]] [_ T]]]].
  split; [|split].
  - intros H. apply T in H. destruct H as [H|H]; [left | now right].
    rewrite R4 in H. apply record_In in H; [|apply String.eqb_eq].
    destruct H as [[]|[imp [Himp H]]].
    exists imp. unfold sorted_str in Himp. rewrite sorted_In, filter_In in Himp.
    destruct Himp as [Hd Hk]. apply keep_import_true in Hk.
    rewrite I3 in Hk. tauto.
  - exists q. rewrite Q, R3. tauto.
  - intros imp Hl Hin. unfold sorted_str in Hin. rewrite sorted_In, filter_In in Hin.
    destruct Hin as [_ Hk]. apply keep_import_true in Hk. rewrite I3 in Hk. tauto.
Qed.

End LocalPrecedence.

(** ** The claims on the sample projects *)

Section OnSamples.
Import Ast Fs Metadata Samples.

(** C1 fails as stated: the project has a package directory [pytest], its
    [main.py] imports [pytest], and [pytest] is installed. The name is a local
    module and a discovered candidate, yet the known-tools pass looks it up
    and the manifest lists the installed distribution. *)
Lemma local_package_named_like_a_tool_is_listed :
  mem "pytest" (FirstEdition._find_local_modules shadowing_project) = true
  /\ mem "pytest"
       (fst (FirstEdition.discover parse shadowing_project
               (FirstEdition.init python stdlib_names shadowing_project []))) = true
  /\ dict_get String.eqb "pytest"
       (FirstEdition.final_requirements
          (FirstEdition.run environment_with_pytest parse
             FirstEdition.KNOWN_CLI_AND_CONFIG_TOOLS shadowing_project
             (FirstEdition.init python stdlib_names shadowing_project [])))
     = Some (Some "8.0.0")
  /\ dict_get String.eqb "requirements.txt"
       (FirstEdition.disk_after
          (FirstEdition.main python stdlib_names environment_with_pytest parse
             FirstEdition.KNOWN_CLI_AND_CONFIG_TOOLS "/usr" shadowing_project []))
     = Some (FirstEdition.header ++ "pytest==8.0.0" ++ nl)%string.
Proof.
  repeat split; vm_compute; reflexivity.
Qed.

Lemma local_names_are_not_resolved_as_imports_witness :
  (exists imp,
     In imp (fst (FirstEdition.discover parse shadowing_project
                    (FirstEdition.init python stdlib_names shadowing_project [])))
     /\ imp <> ""
     /\ ~ In imp (FirstEdition.std_lib
                    (FirstEdition.init python stdlib_names shadowing_project []))
     /\ ~ In imp (FirstEdition._find_local_modules shadowing_project)
     /\ FirstEdition.reports environment_with_pytest
          (FirstEdition.pypi_name_to_check imp) = Some ("pytest", Some "8.0.0"))
  \/ (exists tool,
        In tool FirstEdition.KNOWN_CLI_AND_CONFIG_TOOLS
        /\ FirstEdition.reports environment_with_pytest tool
           = Some ("pytest", Some "8.0.0")).
Proof.
  apply (proj1 (local_names_are_not_resolved_as_imports python stdlib_names
                  environment_with_pytest parse FirstEdition.KNOWN_CLI_AND_CONFIG_TOOLS
                  shadowing_project [] "pytest" (Some "8.0.0"))).
  vm_compute. left. reflexivity.
Defined.

Lemma filter_contract_witness :
  Permutation
    (filter (FirstEdition.keep_import
               (FirstEdition.init python stdlib_names scenario_project []))
       ["os"; "requests"; "myapp"; "bs4"])
    (filter (FirstEdition.keep_import
               (FirstEdition.init python stdlib_names scenario_project []))
       ["requests"; "os"; "myapp"; "bs4"]).
Proof.
  apply (proj2 (proj2 (filter_contract
                         (FirstEdition.init python stdlib_names scenario_project [])
                         ["os"; "requests"; "myapp"; "bs4"] "requests"))).
  apply perm_swap.
Defined.

Lemma syntactic_extractor_collects_witness :
  In "myapp" (FirstEdition._scan_python_files parse scenario_project)
  /\ (In "requests"
         (FirstEdition.scan_node [] (ImportFrom (Some "requests.adapters") 0))
       <-> In "requests" []
           \/ ("requests.adapters" <> ""
               /\ top_level_segment "requests.adapters" "requests")).
Proof.
  split.
  - apply (proj1 (syntactic_extractor_collects parse scenario_project "myapp")).
    exists {| dirpath := root_dir scenario_project;
              parent_listing := above_root scenario_project;
              entry := root scenario_project |},
      ("main.py", Ok src_main), src_main,
      (Node [Import ["os"]; Import ["requests"]; Import ["myapp.utils"]]),
      (Import ["myapp.utils"]).
    split; [constructor|]. split; [simpl; tauto|].
    split; [reflexivity|]. split; [reflexivity|]. split; [reflexivity|].
    split.
    + eapply subnode_child; [|apply subnode_here]. simpl. tauto.
    + exists "myapp.utils". split; [simpl; tauto|].
      split; [reflexivity|]. right. now exists "utils".
  - apply (proj1 (proj2 (proj2 (syntactic_extractor_collects parse scenario_project "")))).
Defined.

Lemma local_modules_walk_is_unpruned_witness :
  (FirstEdition.scan_keep ".venv" = false
   /\ In "requests" (FirstEdition._find_local_modules scenario_project))
  /\ FirstEdition.keep_import
       (FirstEdition.init python stdlib_names scenario_project []) "requests" = false.
Proof.
  pose proof (local_modules_walk_is_unpruned python stdlib_names scenario_project [])
    as [_ [Hvenv Hkeep]].
  assert (FirstEdition.scan_keep ".venv" = false
          /\ In "requests" (FirstEdition._find_local_modules scenario_project)) as H.
  { apply (Hvenv ".venv" (Dir [] [("requests", Dir [("__init__.py", Ok "")] [])])
             {| dirpath := ["home"; "app"; ".venv"; "requests"];
                parent_listing := ["requests"];
                entry := Dir [("__init__.py", Ok "")] [] |}).
    - simpl. tauto.
    - simpl. tauto.
    - eapply visits_sub; [simpl; left; reflexivity | reflexivity | constructor].
    - simpl. tauto. }
  split; [exact H | apply Hkeep, H].
Defined.


Lemma first_found_wins_witness :
  dict_get String.eqb "Pillow"
    (FirstEdition.final_requirements
       (fold_left (FirstEdition.resolve_import environment) ([] ++ "PIL" :: ["pillow"])
          (FirstEdition.init python stdlib_names scenario_project [])))
  = Some (Some "10.2.0").
Proof.
  apply (proj1 (proj2 (first_found_wins environment))).
  - reflexivity.
  - reflexivity.
  - intros earlier ver' [].
Defined.

End OnSamples.

(** ** The inferential variant: ingestion, the empty answer and the manifest *)

Section GeminiRunFacts.
Import Fs Metadata GeminiWay.

Lemma flat_map_nil (A B : Type) (f : A -> list B) (l : list A) :
  flat_map f l = [] <-> forall x, In x l -> f x = [].
Proof.
  induction l as [|a l IH]; simpl.
  - split; [intros _ x [] | reflexivity].
  - split.
    + intros H. apply app_eq_nil in H. destruct H as [Ha Hl].
      intros x [<-|Hx]; [exact Ha | now apply IH].
    + intros H. rewrite (H a) by now left. simpl. apply IH.
      intros x Hx. apply H. now right.
Qed.

Lemma ingest_file_spec (root_dir dirpath : path) (code : list string) (s : state)
    (f : string * result string) :
  fst (ingest_file root_dir dirpath (code, s) f) = code ++ code_file root_dir dirpath f
  /\ same_but_stdout s (snd (ingest_file root_dir dirpath (code, s) f)).
Proof.
  unfold ingest_file, code_file, same_but_stdout. destruct f as [filename content].
  cbn [fst snd].
  destruct (endswith filename ".py" && negb (mem filename exclude_files)).
  - destruct content; cbn [fst snd]; rewrite ?app_nil_r; repeat split; reflexivity.
  - cbn [fst snd]. rewrite app_nil_r. repeat split; reflexivity.
Qed.

Lemma fold_ingest_file_spec (root_dir dirpath : path) (fs : list (string * result string)) :
  forall code s,
    fst (fold_left (ingest_file root_dir dirpath) fs (code, s))
    = code ++ flat_map (code_file root_dir dirpath) fs
    /\ same_but_stdout s (snd (fold_left (ingest_file root_dir dirpath) fs (code, s))).
Proof.
  induction fs as [|f fs IH]; intros code s; cbn [fold_left flat_map fst snd].
  - rewrite app_nil_r. unfold same_but_stdout. tauto.
  - pose proof (ingest_file_spec root_dir dirpath code s f) as [E1 E2].
    destruct (ingest_file root_dir dirpath (code, s) f) as [code1 s1].
    cbn [fst snd] in E1, E2. subst code1.
    destruct (IH (code ++ code_file root_dir dirpath f) s1) as [H1 H2].
    rewrite H1, <- app_assoc. split; [reflexivity|].
    unfold same_but_stdout in *. intuition congruence.
Qed.

Lemma collect_code_files_spec (p : project) (s : state) :
  fst (collect_code_files p s) = code_files p
  /\ same_but_stdout s (snd (collect_code_files p s)).
Proof.
  unfold collect_code_files, code_files. fold ingest_keep.
  change (flat_map
            (fun e => flat_map (code_file (root_dir p) (dirpath e)) (files (entry e)))
            (os_walk ingest_keep (root_dir p) (above_root p) (root p)))
    with ([] ++ flat_map
            (fun e => flat_map (code_file (root_dir p) (dirpath e)) (files (entry e)))
            (os_walk ingest_keep (root_dir p) (above_root p) (root p))).
  generalize (@nil string) as code. revert s.
  induction (os_walk ingest_keep (root_dir p) (above_root p) (root p)) as [|e l IH];
    intros s code; cbn [fold_left flat_map fst snd].
  - rewrite app_nil_r. unfold same_but_stdout. tauto.
  - pose proof (fold_ingest_file_spec (root_dir p) (dirpath e) (files (entry e)) code s)
      as [E1 E2].
    destruct (fold_left (ingest_file (root_dir p) (dirpath e)) (files (entry e)) (code, s))
      as [code1 s1].
    cbn [fst snd] in E1, E2. subst code1.
    destruct (IH s1 (code ++ flat_map (code_file (root_dir p) (dirpath e)) (files (entry e))))
      as [H1 H2].
    rewrite H1, <- app_assoc. split; [reflexivity|].
    unfold same_but_stdout in *. intuition congruence.
Qed.

Lemma code_files_nil (p : project) : code_files p = [] <-> ~ finds_source p.
Proof.
  unfold code_files, finds_source. rewrite flat_map_nil. split.
  - intros H [e [f [text [He [Hf [Hpy [Hex Hok]]]]]]].
    apply os_walk_visits in He. specialize (H e He).
    rewrite flat_map_nil in H. specialize (H f Hf).
    unfold code_file in H. rewrite Hpy, Hex, Hok in H. discriminate.
  - intros H e He. apply flat_map_nil. intros f Hf.
    unfold code_file.
    destruct (endswith (fst f) ".py") eqn:Hpy; [|reflexivity].
    destruct (mem (fst f) exclude_files) eqn:Hex; [reflexivity|].
    destruct (snd f) as [text|] eqn:Hok; [|reflexivity].
    exfalso. apply H. exists e, f, text. apply os_walk_visits in He. tauto.
Qed.

Lemma ingest_project_code_spec (p : project) (s : state) :
  (code_files p = [] ->
   snd (_ingest_project_code p s)
   = Some (RuntimeError "No Python source files found to analyze."))
  /\ (code_files p <> [] ->
      snd (_ingest_project_code p s) = None
      /\ project_code (fst (_ingest_project_code p s)) = join (nl ++ nl) (code_files p)
      /\ final_requirements (fst (_ingest_project_code p s)) = final_requirements s).
Proof.
  unfold _ingest_project_code.
  pose proof (collect_code_files_spec p (print "Step 1: Ingesting project source code..." s))
    as [E1 [_ [E2 _]]].
  destruct (collect_code_files p (print "Step 1: Ingesting project source code..." s))
    as [code s1].
  cbn [fst snd] in E1, E2. subst code.
  destruct (code_files p) as [|c cs]; cbn [fst snd].
  - split; [reflexivity | congruence].
  - split; [discriminate|]. intros _. repeat split. exact E2.
Qed.

Variable distribution : index.
Variable generate_content : string -> result string.

(** [write_file] when every key is a [str]. *)
Lemma write_file_spec (output_file : string) (s : state) (disk : dict string string)
    (items : dict string (option string)) :
  str_items (final_requirements s) = Some items ->
  snd (write_file output_file s disk) = None
  /\ snd (fst (write_file output_file s disk))
     = dict_set String.eqb output_file
         (header
          ++ String.concat ""
               (map requirement_line (sorted (fun item => lower (fst item)) items)))%string
         disk
  /\ stdout (fst (fst (write_file output_file s disk)))
     = stdout s
       ++ [ repeat_str "-" 60;
            ("Writing " ++ str_of_nat (length (final_requirements s))
             ++ " packages to '" ++ output_file ++ "'...")%string;
            stdout_success output_file ].
Proof.
  intros H. unfold write_file.
  change (final_requirements (print _ (print _ s))) with (final_requirements s).
  rewrite H. cbn [fst snd]. repeat split.
  unfold print. cbn [stdout]. rewrite <- !app_assoc. reflexivity.
Qed.

End GeminiRunFacts.

(** ** Runs without source files and runs with an empty answer *)

Section RunOutcomes.
Import Fs Metadata.

Lemma first_edition_write_file_disk (output_file : string) (s : FirstEdition.state)
    (disk : dict string string) :
  snd (FirstEdition.write_file output_file s disk)
  = dict_set String.eqb output_file
      (FirstEdition.manifest (FirstEdition.final_requirements s)) disk.
Proof.
  unfold FirstEdition.write_file.
  change (FirstEdition.final_requirements (FirstEdition.print _ (FirstEdition.print _ s)))
    with (FirstEdition.final_requirements s).
  match goal with
  | |- context [match ?u with [] => _ | _ :: _ => _ end] => destruct u
  end; reflexivity.
Qed.

Lemma first_edition_write_file_final (output_file : string) (s : FirstEdition.state)
    (disk : dict string string) :
  FirstEdition.final_requirements (fst (FirstEdition.write_file output_file s disk))
  = FirstEdition.final_requirements s.
Proof.
  unfold FirstEdition.write_file.
  match goal with
  | |- context [match ?u with [] => _ | _ :: _ => _ end] => destruct u
  end; reflexivity.
Qed.

(** The syntactic variant always runs to its end: status zero, and the
    manifest of the requirements that the run resolved is on disk. *)
Lemma first_edition_main_outcome (v : nat * nat) (names : list string)
    (distribution : index) (ast_parse : string -> result Ast.node) (tools : list string)
    (sys_prefix : string) (p : project) (disk : dict string string) :
  FirstEdition.exit_status
    (FirstEdition.main v names distribution ast_parse tools sys_prefix p disk) = 0
  /\ exists out,
       FirstEdition.disk_after
         (FirstEdition.main v names distribution ast_parse tools sys_prefix p disk)
       = dict_set String.eqb "requirements.txt"
           (FirstEdition.manifest
              (FirstEdition.final_requirements
                 (FirstEdition.run distribution ast_parse tools p
                    (FirstEdition.init v names p out))))
           disk.
Proof.
  unfold FirstEdition.main.
  match goal with
  | |- context [FirstEdition.write_file ?f ?s ?d] =>
      pose proof (first_edition_write_file_disk f s d) as E;
      destruct (FirstEdition.write_file f s d) as [g disk']
  end.
  cbn [snd] in E. subst disk'. cbn [FirstEdition.exit_status FirstEdition.disk_after].
  split; [reflexivity|]. eexists. reflexivity.
Qed.

Variable distribution : index.
Variable generate_content : string -> result string.

(** C3, as the code has it. In the inferential variant a run that finds no
    source file ends with status 1 and a message, and leaves the disk as it
    was; the syntactic variant has no such check, writes the manifest and ends
    with status zero. *)
Theorem no_source_files_aborts_inferential_run
    (in_virtualenv : bool) (api_key : option string) (p : project)
    (disk : dict string string) :
  (~ GeminiWay.finds_source p ->
   GeminiWay.exit_status
     (GeminiWay.main distribution generate_content in_virtualenv api_key p disk) = 1
   /\ GeminiWay.disk_after
        (GeminiWay.main distribution generate_content in_virtualenv api_key p disk) = disk
   /\ (truthy_opt api_key = true ->
       In "An unexpected error occurred: No Python source files found to analyze."
          (GeminiWay.printed
             (GeminiWay.main distribution generate_content in_virtualenv api_key p disk)))
   /\ (truthy_opt api_key = false ->
       In "Error: GOOGLE_API_KEY environment variable not set."
          (GeminiWay.printed
             (GeminiWay.main distribution generate_content in_virtualenv api_key p disk))))
  /\ (forall v names first_distribution ast_parse tools sys_prefix,
        FirstEdition.exit_status
          (FirstEdition.main v names first_distribution ast_parse tools sys_prefix p disk)
        = 0
        /\ dict_mem String.eqb "requirements.txt"
             (FirstEdition.disk_after
                (FirstEdition.main v names first_distribution ast_parse tools sys_prefix
                   p disk))
           = true).
Proof.
  split.
  - intros Hnone. apply code_files_nil in Hnone.
    unfold GeminiWay.main, GeminiWay.init.
    destruct (truthy_opt api_key).
    + unfold GeminiWay.run.
      match goal with
      | |- context [GeminiWay._ingest_project_code p ?g] =>
          pose proof (proj1 (ingest_project_code_spec p g) Hnone) as E;
          destruct (GeminiWay._ingest_project_code p g) as [s1 o]
      end.
      cbn [snd] in E. subst o.
      cbn [GeminiWay.handle GeminiWay.exit_status GeminiWay.disk_after GeminiWay.printed].
      repeat split; [|discriminate].
      intros _. apply in_app_iff. right. now left.
    + cbn [GeminiWay.handle GeminiWay.exit_status GeminiWay.disk_after GeminiWay.printed].
      repeat split; [discriminate|].
      intros _. apply in_app_iff. right. now left.
  - intros v names first_distribution ast_parse tools sys_prefix.
    destruct (first_edition_main_outcome v names first_distribution ast_parse tools
                sys_prefix p disk) as [E [out ->]].
    split; [exact E|].
    unfold dict_mem. now rewrite dict_get_set_same by apply String.eqb_eq.
Qed.

(** C9. In the inferential variant, when the credential is set, a source file
    is found and the service answers with the empty string, the run prints the
    warning, writes the manifest with the header and no requirement line, and
    ends with status zero. *)
Theorem empty_answer_writes_header_only
    (in_virtualenv : bool) (api_key : option string) (p : project)
    (disk : dict string string) :
  truthy_opt api_key = true ->
  GeminiWay.finds_source p ->
  generate_content (GeminiWay.prompt (join (nl ++ nl) (GeminiWay.code_files p))) = Ok "" ->
  GeminiWay.exit_status
    (GeminiWay.main distribution generate_content in_virtualenv api_key p disk) = 0
  /\ GeminiWay.disk_after
       (GeminiWay.main distribution generate_content in_virtualenv api_key p disk)
     = dict_set String.eqb "requirements.txt" GeminiWay.header disk
  /\ In "   - Warning: Gemini returned an empty response. No packages found."
        (GeminiWay.printed
           (GeminiWay.main distribution generate_content in_virtualenv api_key p disk)).
Proof.
  intros Hkey Hsrc Hans.
  assert (GeminiWay.code_files p <> []) as Hcode.
  { intros E. apply code_files_nil in E. contradiction. }
  unfold GeminiWay.main, GeminiWay.init. rewrite Hkey.
  unfold GeminiWay.run.
  match goal with
  | |- context [GeminiWay._ingest_project_code p ?g] =>
      pose proof (proj2 (ingest_project_code_spec p g) Hcode) as [E [Ecode Efinal]];
      destruct (GeminiWay._ingest_project_code p g) as [s1 o]
  end.
  cbn [fst snd] in E, Ecode, Efinal. subst o.
  unfold GeminiWay._get_packages_from_gemini.
  change (GeminiWay.project_code (GeminiWay.print _ s1)) with (GeminiWay.project_code s1).
  rewrite Ecode, Hans.
  unfold GeminiWay._parse_and_resolve_versions.
  change (truthy "") with false. cbv iota.
  match goal with
  | |- context [GeminiWay.write_file ?f ?s ?d] =>
      pose proof (@write_file_spec f s d [] ) as W;
      destruct (GeminiWay.write_file f s d) as [[s2 disk2] o]
  end.
  cbn [fst snd GeminiWay.final_requirements GeminiWay.print] in W.
  rewrite Efinal in W. specialize (W eq_refl). destruct W as [-> [-> W]].
  cbn [GeminiWay.exit_status GeminiWay.disk_after GeminiWay.printed].
  repeat split. rewrite W.
  apply in_app_iff. left.
  cbn [GeminiWay.stdout GeminiWay.print].
  apply in_app_iff. right. now left.
Qed.

End RunOutcomes.

(** ** The manifest writer *)

Section ManifestFacts.
Import Fs Metadata Samples.

(** The manifest of the syntactic variant: the header, then one line for each
    requirement, ordered by the lower-cased names, a line being [name==version]
    when the version counts as true and the bare name otherwise; the text
    replaces whatever the path held and no other path changes. *)
Theorem first_edition_manifest_contract
    (output_file : string) (s : FirstEdition.state) (disk : dict string string) :
  exists ordered,
    Permutation ordered (FirstEdition.final_requirements s)
    /\ StronglySorted (key_le (fun item => lower (fst item))) ordered
    /\ dict_get String.eqb output_file (snd (FirstEdition.write_file output_file s disk))
       = Some (FirstEdition.header
               ++ String.concat "" (map FirstEdition.requirement_line ordered))%string
    /\ (forall package ver,
          FirstEdition.requirement_line (package, Some ver)
          = if truthy ver then (package ++ "==" ++ ver ++ nl)%string
            else (package ++ nl)%string)
    /\ (forall package, FirstEdition.requirement_line (package, None) = (package ++ nl)%string)
    /\ (forall other,
          other <> output_file ->
          dict_get String.eqb other (snd (FirstEdition.write_file output_file s disk))
          = dict_get String.eqb other disk).
Proof.
  exists (sorted (fun item => lower (fst item)) (FirstEdition.final_requirements s)).
  rewrite first_edition_write_file_disk.
  split; [apply sorted_Permutation|].
  split; [apply sorted_StronglySorted|].
  split; [now rewrite dict_get_set_same by apply String.eqb_eq|].
  split; [reflexivity|]. split; [reflexivity|].
  intros other Hne. now rewrite dict_get_set_other by (apply String.eqb_eq || exact Hne).
Qed.

(** The manifest of the inferential variant when every key is a [str]: the
    header, then one line [name==version] for each requirement, ordered by the
    lower-cased names; a version that is [None] is written as the text
    [None]. *)
Theorem gemini_manifest_contract
    (output_file : string) (s : GeminiWay.state) (disk : dict string string)
    (items : dict string (option string)) :
  GeminiWay.str_items (GeminiWay.final_requirements s) = Some items ->
  exists ordered,
    Permutation ordered items
    /\ StronglySorted (key_le (fun item => lower (fst item))) ordered
    /\ dict_get String.eqb output_file
         (snd (fst (GeminiWay.write_file output_file s disk)))
       = Some (GeminiWay.header
               ++ String.concat "" (map GeminiWay.requirement_line ordered))%string
    /\ (forall package ver,
          GeminiWay.requirement_line (package, ver)
          = (package ++ "==" ++ fmt ver ++ nl)%string).
Proof.
  intros H.
  exists (sorted (fun item => lower (fst item)) items).
  destruct (write_file_spec output_file s disk H) as [_ [-> _]].
  split; [apply sorted_Permutation|].
  split; [apply sorted_StronglySorted|].
  split; [now rewrite dict_get_set_same by apply String.eqb_eq | reflexivity].
Qed.

Lemma gemini_manifest_contract_witness :
  exists ordered,
    Permutation ordered [("requests", Some "2.31.0"); ("Pillow", Some "10.2.0")]
    /\ StronglySorted (key_le (fun item => lower (fst item))) ordered
    /\ dict_get String.eqb "requirements.txt"
         (snd (fst (GeminiWay.write_file "requirements.txt"
                      {| GeminiWay.project_code := "";
                         GeminiWay.final_requirements :=
                           [(Some "requests", Some "2.31.0"); (Some "Pillow", Some "10.2.0")];
                         GeminiWay.stdout := [];
                         GeminiWay.queries := [] |} [])))
       = Some (GeminiWay.header
               ++ String.concat "" (map GeminiWay.requirement_line ordered))%string
    /\ (forall package ver,
          GeminiWay.requirement_line (package, ver)
          = (package ++ "==" ++ fmt ver ++ nl)%string).
Proof.
  apply (@gemini_manifest_contract "requirements.txt"
           {| GeminiWay.project_code := "";
              GeminiWay.final_requirements :=
                [(Some "requests", Some "2.31.0"); (Some "Pillow", Some "10.2.0")];
              GeminiWay.stdout := [];
              GeminiWay.queries := [] |} []).
  reflexivity.
Defined.

(** C5 on a distribution without a version, in the two variants. The
    environment holds [foo], whose metadata has no [Version] field, and the
    service names it: the inferential variant writes [foo==None], where the
    syntactic variant writes the bare name for the same requirement. *)
Theorem gemini_writes_None_for_a_missing_version :
  GeminiWay.final_requirements
    (GeminiWay._parse_and_resolve_versions environment_with_foo "foo"
       {| GeminiWay.project_code := ""; GeminiWay.final_requirements := [];
          GeminiWay.stdout := []; GeminiWay.queries := [] |})
  = [(Some "foo", None)]
  /\ dict_get String.eqb "requirements.txt"
       (GeminiWay.disk_after
          (GeminiWay.main environment_with_foo (answers "foo") true (Some "key")
             scenario_project []))
     = Some (GeminiWay.header ++ "foo==None" ++ nl)%string
  /\ FirstEdition.manifest [("foo", None)] = (FirstEdition.header ++ "foo" ++ nl)%string.
Proof.
  repeat split; vm_compute; reflexivity.
Qed.

End ManifestFacts.

(** ** Reproducibility of the manifest *)

Section Reorder.
Import Ast Fs Metadata FirstEdition.

Lemma reorder_refl (d : dir) : reorder d d.
Proof.
  induction d as [fs ds IH] using dir_induction.
  rewrite Forall_forall in IH.
  constructor; [tauto| |]; intros name c Hc; exists c;
    (split; [exact Hc | apply (IH (name, c) Hc)]).
Qed.

Lemma reorder_sym (d : dir) : forall d', reorder d d' -> reorder d' d.
Proof.
  induction d as [fs ds IH] using dir_induction.
  rewrite Forall_forall in IH.
  intros d' H. inversion H as [? ? Hf Hsub Hsub']; subst.
  constructor.
  - intros f. symmetry. apply Hf.
  - intros name c' Hc'. destruct (Hsub' name c' Hc') as [c [Hc Hr]].
    exists c. split; [exact Hc | apply (IH (name, c) Hc), Hr].
  - intros name c Hc. destruct (Hsub name c Hc) as [c' [Hc' Hr]].
    exists c'. split; [exact Hc' | apply (IH (name, c) Hc), Hr].
Qed.

(** What a walk reaches in one listing of a tree it reaches in another, at
    the same path. *)
Lemma visits_reorder (keep : string -> bool) (top : path) (parent : list string)
    (d : dir) (e : walk_entry) :
  visits keep top parent d e ->
  forall d' parent',
    reorder d d' ->
    exists e',
      visits keep top parent' d' e'
      /\ dirpath e' = dirpath e
      /\ reorder (entry e) (entry e').
Proof.
  induction 1 as [top parent d|top parent d name c e Hc K Hv IH]; intros d' parent' Hr.
  - exists {| dirpath := top; parent_listing := parent'; entry := d' |}.
    split; [constructor | split; [reflexivity | exact Hr]].
  - inversion Hr as [? ? _ Hsub _]; subst.
    destruct (Hsub name c Hc) as [c' [Hc' Hrc]].
    destruct (IH c' (listdir d') Hrc) as [e' [Hv' [Hp He]]].
    exists e'. split; [|tauto].
    eapply visits_sub; eauto.
Qed.

Lemma reorder_files (d d' : dir) (f : string * result string) :
  reorder d d' -> (In f (files d) <-> In f (files d')).
Proof. intros H. inversion H; subst. auto. Qed.

Lemma reorder_filenames (d d' : dir) (name : string) :
  reorder d d' -> In name (filenames d) -> In name (filenames d').
Proof.
  intros H Hin. unfold filenames in *. rewrite in_map_iff in *.
  destruct Hin as [f [Hf Hin]]. exists f. split; [exact Hf|].
  now apply (reorder_files f H).
Qed.

Variable ast_parse : string -> result node.

Lemma file_imports_reorder (p p' : project) (x : string) :
  root_dir p = root_dir p' -> reorder (root p) (root p') ->
  file_imports ast_parse p x -> file_imports ast_parse p' x.
Proof.
  intros Hroot Hr [e [f [text [tree [Hv [Hf H]]]]]].
  destruct (visits_reorder Hv (above_root p') Hr) as [e' [Hv' [_ He]]].
  exists e', f, text, tree. rewrite <- Hroot.
  split; [exact Hv'|]. split; [now apply (reorder_files f He) | exact H].
Qed.

Lemma find_local_modules_reorder (p p' : project) (name : string) :
  root_dir p = root_dir p' -> reorder (root p) (root p') ->
  In name (_find_local_modules p) -> In name (_find_local_modules p').
Proof.
  intros Hroot Hr. rewrite !find_local_modules_In, <- Hroot.
  intros [H|[e [Hv [Hi Hn]]]]; [now left|].
  destruct (visits_reorder Hv (above_root p') Hr) as [e' [Hv' [Hp He]]].
  right. exists e'. split; [exact Hv'|].
  split; [eapply reorder_filenames; eauto | congruence].
Qed.

End Reorder.

Section Reproducible.
Import Ast Fs Metadata FirstEdition.
Variable v : nat * nat.
Variable names : list string.
Variable distribution : index.
Variable ast_parse : string -> result node.
Variable tools : list string.

Lemma init_std_lib (p p' : project) (out out' : list string) :
  std_lib (init v names p out) = std_lib (init v names p' out').
Proof.
  unfold init, _get_std_lib_modules.
  destruct (version_at_least_3_10 v); reflexivity.
Qed.

Lemma keep_import_same_sets (s s' : state) (imp : string) :
  std_lib s = std_lib s' ->
  (forall x, In x (local_modules s) <-> In x (local_modules s')) ->
  keep_import s imp = keep_import s' imp.
Proof.
  intros Hstd Hloc.
  destruct (keep_import s imp) eqn:K, (keep_import s' imp) eqn:K'; try reflexivity.
  - apply keep_import_true in K. rewrite Hstd, Hloc in K.
    apply keep_import_true in K. congruence.
  - apply keep_import_true in K'. rewrite <- Hstd, <- Hloc in K'.
    apply keep_import_true in K'. congruence.
Qed.

Lemma discovered_In (p : project) (s : state) (x : string) :
  In x (fst (discover ast_parse p s))
  <-> file_imports ast_parse p x \/ In x (settings_names ast_parse p).
Proof.
  destruct (discover_spec ast_parse p s) as [-> _].
  rewrite set_update_In, scan_python_files_In.
  unfold settings_names. now rewrite (scan_django_settings_found ast_parse p s blank).
Qed.

Lemma discovered_NoDup (p : project) (s : state) : NoDup (fst (discover ast_parse p s)).
Proof.
  destruct (discover_spec ast_parse p s) as [-> _].
  apply set_update_NoDup, scan_python_files_NoDup.
Qed.

(** The requirements of a run, from the candidates that pass the filter. *)
Lemma run_final_requirements (p : project) (out : list string) :
  exists s3,
    final_requirements (run distribution ast_parse tools p (init v names p out))
    = final_requirements (fold_left (check_tool distribution) tools s3)
    /\ final_requirements s3
       = fold_left (record_new String.eqb (found_for distribution))
           (sorted_str (filter (keep_import (init v names p out))
                          (fst (discover ast_parse p (init v names p out)))))
           [].
Proof.
  set (s0 := init v names p out).
  destruct (discover_spec ast_parse p s0) as [_ [D1 [D2 [D3 _]]]].
  destruct (init_spec v names p out) as [I1 _]. fold s0 in I1.
  destruct (resolve_spec distribution tools (fst (discover ast_parse p s0))
              (snd (discover ast_parse p s0))) as [s3 [R [_ [_ [_ R4]]]]].
  assert (keep_import (snd (discover ast_parse p s0)) = keep_import s0) as K.
  { unfold keep_import. now rewrite D1, D2. }
  rewrite K, D3, I1 in R4.
  exists s3. rewrite run_unfold, R. split; [reflexivity | exact R4].
Qed.

Lemma candidates_reorder (p p' : project) (out out' : list string) :
  root_dir p = root_dir p' ->
  reorder (root p) (root p') ->
  (forall x, In x (settings_names ast_parse p) <-> In x (settings_names ast_parse p')) ->
  sorted_str (filter (keep_import (init v names p out))
                (fst (discover ast_parse p (init v names p out))))
  = sorted_str (filter (keep_import (init v names p' out'))
                  (fst (discover ast_parse p' (init v names p' out')))).
Proof.
  intros Hroot Hr Hs.
  assert (reorder (root p') (root p)) as Hr' by now apply reorder_sym.
  apply sorted_str_same_members.
  - apply NoDup_filter, discovered_NoDup.
  - apply NoDup_filter, discovered_NoDup.
  - intros x. rewrite !filter_In, !discovered_In.
    rewrite (keep_import_same_sets (init v names p out) (init v names p' out') x).
    + rewrite Hs. split; intros [[H|H] K]; (split; [|exact K]).
      * left. eapply file_imports_reorder; [exact Hroot | exact Hr | exact H].
      * now right.
      * left. eapply file_imports_reorder; [symmetry; exact Hroot | exact Hr' | exact H].
      * now right.
    + apply init_std_lib.
    + intros y. rewrite !init_local_modules. split.
      * now apply find_local_modules_reorder.
      * apply find_local_modules_reorder; [symmetry; exact Hroot | exact Hr'].
Qed.

End Reproducible.

(** ** The runs on the sample projects *)

Section RunsOnSamples.
Import Ast Fs Metadata Samples.

(** C3 fails as stated: the syntactic variant, run on a project without any
    file and with nothing installed, finds no import, writes the manifest with
    its header and ends with status zero. *)
Lemma syntactic_run_without_sources_writes_the_manifest :
  FirstEdition._scan_python_files parse empty_project = []
  /\ FirstEdition.exit_status
       (FirstEdition.main python stdlib_names bare parse
          FirstEdition.KNOWN_CLI_AND_CONFIG_TOOLS "/usr" empty_project []) = 0
  /\ FirstEdition.disk_after
       (FirstEdition.main python stdlib_names bare parse
          FirstEdition.KNOWN_CLI_AND_CONFIG_TOOLS "/usr" empty_project [])
     = [("requirements.txt", FirstEdition.header)].
Proof.
  repeat split; vm_compute; reflexivity.
Qed.

Lemma no_source_files_aborts_inferential_run_witness :
  GeminiWay.exit_status
    (GeminiWay.main bare (answers "requests") true (Some "key") empty_project
       [("requirements.txt", "old")]) = 1
  /\ GeminiWay.disk_after
       (GeminiWay.main bare (answers "requests") true (Some "key") empty_project
          [("requirements.txt", "old")])
     = [("requirements.txt", "old")]
  /\ (truthy_opt (Some "key") = true ->
      In "An unexpected error occurred: No Python source files found to analyze."
         (GeminiWay.printed
            (GeminiWay.main bare (answers "requests") true (Some "key") empty_project
               [("requirements.txt", "old")])))
  /\ (truthy_opt (Some "key") = false ->
      In "Error: GOOGLE_API_KEY environment variable not set."
         (GeminiWay.printed
            (GeminiWay.main bare (answers "requests") true (Some "key") empty_project
               [("requirements.txt", "old")]))).
Proof.
  apply (proj1 (no_source_files_aborts_inferential_run bare (answers "requests") true
                  (Some "key") empty_project [("requirements.txt", "old")])).
  apply (proj1 (code_files_nil empty_project)).
  reflexivity.
Defined.

Lemma scenario_project_has_a_source : GeminiWay.finds_source scenario_project.
Proof.
  exists {| dirpath := root_dir scenario_project;
            parent_listing := above_root scenario_project;
            entry := root scenario_project |}, ("main.py", Ok src_main), src_main.
  split; [constructor|]. split; [simpl; tauto|]. repeat split.
Defined.

Lemma empty_answer_writes_header_only_witness :
  GeminiWay.exit_status
    (GeminiWay.main environment (answers "") true (Some "key") scenario_project
       [("requirements.txt", "old")]) = 0
  /\ GeminiWay.disk_after
       (GeminiWay.main environment (answers "") true (Some "key") scenario_project
          [("requirements.txt", "old")])
     = dict_set String.eqb "requirements.txt" GeminiWay.header [("requirements.txt", "old")]
  /\ In "   - Warning: Gemini returned an empty response. No packages found."
        (GeminiWay.printed
           (GeminiWay.main environment (answers "") true (Some "key") scenario_project
              [("requirements.txt", "old")])).
Proof.
  apply (@empty_answer_writes_header_only environment (answers "") true (Some "key")
           scenario_project [("requirements.txt", "old")]).
  - reflexivity.
  - exact scenario_project_has_a_source.
  - reflexivity.
Defined.

Lemma two_sites_reorder : reorder (root (two_sites site_a site_b)) (root (two_sites site_b site_a)).
Proof.
  constructor.
  - simpl. tauto.
  - intros name c [H|[H|[]]]; injection H as <- <-;
      (eexists; split; [|apply reorder_refl]).
    + right. left. reflexivity.
    + left. reflexivity.
  - intros name c [H|[H|[]]]; injection H as <- <-;
      (eexists; split; [|apply reorder_refl]).
    + right. left. reflexivity.
    + left. reflexivity.
Qed.

(** C4 fails as stated: one Django project with two settings modules, its
    two sub-directories listed in the one order and in the other, in one
    environment and with one iteration order of the tools. The walk meets a
    different settings file first, and the two manifests differ. *)
Lemma manifest_depends_on_the_order_of_the_walk :
  reorder (root (two_sites site_a site_b)) (root (two_sites site_b site_a))
  /\ FirstEdition.disk_after
       (FirstEdition.main python stdlib_names environment parse
          FirstEdition.KNOWN_CLI_AND_CONFIG_TOOLS "/usr" (two_sites site_a site_b) [])
     = [("requirements.txt",
         (FirstEdition.header ++ "djangorestframework==3.15.0" ++ nl)%string)]
  /\ FirstEdition.disk_after
       (FirstEdition.main python stdlib_names environment parse
          FirstEdition.KNOWN_CLI_AND_CONFIG_TOOLS "/usr" (two_sites site_b site_a) [])
     = [("requirements.txt",
         (FirstEdition.header ++ "django-cors-headers==4.3.1" ++ nl)%string)].
Proof.
  split; [exact two_sites_reorder|].
  split; vm_compute; reflexivity.
Qed.

(** The iteration order of the set of known tools shows in the manifest too,
    in an environment where two tools report one distribution name. *)
Lemma manifest_depends_on_the_iteration_order_of_the_tools :
  Permutation FirstEdition.KNOWN_CLI_AND_CONFIG_TOOLS
    (rev FirstEdition.KNOWN_CLI_AND_CONFIG_TOOLS)
  /\ FirstEdition.disk_after
       (FirstEdition.main python stdlib_names ambiguous_environment parse
          FirstEdition.KNOWN_CLI_AND_CONFIG_TOOLS "/usr" empty_project [])
     = [("requirements.txt", (FirstEdition.header ++ "formatter==2.0" ++ nl)%string)]
  /\ FirstEdition.disk_after
       (FirstEdition.main python stdlib_names ambiguous_environment parse
          (rev FirstEdition.KNOWN_CLI_AND_CONFIG_TOOLS) "/usr" empty_project [])
     = [("requirements.txt", (FirstEdition.header ++ "formatter==1.0" ++ nl)%string)].
Proof.
  split; [apply Permutation_rev|].
  split; vm_compute; reflexivity.
Qed.

Lemma scenario_project_reorder :
  reorder (root scenario_project) (root scenario_project_relisted).
Proof.
  constructor.
  - simpl. tauto.
  - intros name c [H|[H|[]]]; injection H as <- <-; eexists.
    + split; [simpl; right; left; reflexivity|].
      constructor; [simpl; tauto | intros ? ? [] | intros ? ? []].
    + split; [simpl; left; reflexivity | apply reorder_refl].
  - intros name c [H|[H|[]]]; injection H as <- <-; eexists.
    + split; [simpl; right; left; reflexivity | apply reorder_refl].
    + split; [simpl; left; reflexivity|].
      constructor; [simpl; tauto | intros ? ? [] | intros ? ? []].
Defined.


End RunsOnSamples.

(** * Further properties of the code *)

(** ** The syntactic variant: what a run leaves in the generator *)

Section RunAccounts.
Import Ast Fs Metadata FirstEdition.
Variable v : nat * nat.
Variable names : list string.
Variable distribution : index.
Variable ast_parse : string -> result node.
Variable tools : list string.

Lemma resolve_import_unresolved (s : state) (imp : string) :
  unresolved_imports (resolve_import distribution s imp)
  = match found_for distribution imp with
    | Some _ => unresolved_imports s
    | None => set_add imp (unresolved_imports s)
    end.
Proof.
  unfold resolve_import, _get_package_info, found_for, reports.
  destruct (distribution (pypi_name_to_check imp)) as [d|]; simpl; [|reflexivity].
  destruct (metadata_Name d) as [name|]; simpl; [|reflexivity].
  destruct (truthy name); simpl; [|reflexivity].
  destruct (dict_mem String.eqb name (final_requirements s)); reflexivity.
Qed.

Lemma fold_resolve_import_unresolved (l : list string) :
  forall s x,
    In x (unresolved_imports (fold_left (resolve_import distribution) l s))
    <-> In x (unresolved_imports s) \/ (In x l /\ found_for distribution x = None).
Proof.
  induction l as [|imp l IH]; intros s x; simpl.
  - tauto.
  - rewrite IH, resolve_import_unresolved.
    destruct (found_for distribution imp) eqn:F.
    + split; [tauto|]. intros [H|[[<-|H] Hx]]; [tauto | congruence | tauto].
    + rewrite set_add_In. split.
      * intros [[->|H]|H]; tauto.
      * intros [H|[[<-|H] Hx]]; tauto.
Qed.

Lemma check_tool_unresolved (s : state) (tool : string) :
  unresolved_imports (check_tool distribution s tool) = unresolved_imports s.
Proof.
  unfold check_tool, _get_package_info.
  destruct (dict_mem String.eqb tool (final_requirements s)); [reflexivity|].
  destruct (distribution tool) as [d|]; simpl; [|reflexivity].
  destruct (metadata_Name d) as [name|]; simpl; [|reflexivity].
  destruct (truthy name); reflexivity.
Qed.

Lemma fold_check_tool_unresolved (l : list string) :
  forall s,
    unresolved_imports (fold_left (check_tool distribution) l s) = unresolved_imports s.
Proof.
  induction l as [|tool l IH]; intros s; simpl; [reflexivity|].
  now rewrite IH, check_tool_unresolved.
Qed.

Lemma resolve_unresolved (discovered : list string) (s : state) (x : string) :
  In x (unresolved_imports (resolve distribution tools discovered s))
  <-> In x (unresolved_imports s)
      \/ (In x (filter (keep_import s) discovered) /\ found_for distribution x = None).
Proof.
  unfold resolve. rewrite fold_check_tool_unresolved.
  change (keep_import (print _ s)) with (keep_import s).
  match goal with
  | |- In x (unresolved_imports (print _ ?s2)) <-> _ =>
      change (In x (unresolved_imports s2)
              <-> In x (unresolved_imports s)
                  \/ (In x (filter (keep_import s) discovered)
                      /\ found_for distribution x = None))
  end.
  rewrite fold_resolve_import_unresolved.
  unfold sorted_str. rewrite sorted_In. reflexivity.
Qed.

Lemma discover_unresolved (p : project) (s : state) :
  unresolved_imports (snd (discover ast_parse p s)) = unresolved_imports s.
Proof.
  unfold discover, _scan_django_settings.
  destruct (find is_settings_dir _) as [e|]; [|reflexivity].
  unfold scan_settings_file.
  destruct (read_file "settings.py" (entry e)) as [text|]; [|reflexivity].
  destruct (ast_parse text) as [tree|]; [|reflexivity].
  destruct (scan_settings_nodes (walk tree) []) as [found [err|]]; reflexivity.
Qed.

(** The names that pass the filter of step 2 in a run on a fresh generator. *)
Lemma candidates_In (p : project) (out : list string) (imp : string) :
  In imp (filter (keep_import (snd (discover ast_parse p (init v names p out))))
            (fst (discover ast_parse p (init v names p out))))
  <-> In imp (fst (discover ast_parse p (init v names p out)))
      /\ imp <> ""
      /\ ~ In imp (std_lib (init v names p out))
      /\ ~ In imp (_find_local_modules p).
Proof.
  destruct (discover_spec ast_parse p (init v names p out)) as [_ [D1 [D2 _]]].
  rewrite filter_In, keep_import_true, D1, D2, init_local_modules. tauto.
Qed.

Lemma run_unresolved_In (p : project) (out : list string) (imp : string) :
  In imp (unresolved_imports
            (run distribution ast_parse tools p (init v names p out)))
  <-> In imp (fst (discover ast_parse p (init v names p out)))
      /\ imp <> ""
      /\ ~ In imp (std_lib (init v names p out))
      /\ ~ In imp (_find_local_modules p)
      /\ found_for distribution imp = None.
Proof.
  rewrite run_unfold, resolve_unresolved, discover_unresolved, candidates_In.
  assert (unresolved_imports (init v names p out) = []) as ->.
  { unfold init. now destruct (_get_std_lib_modules v names out). }
  simpl. tauto.
Qed.

(** The unresolved set of a run holds exactly the candidates that passed the
    filter and for which the index, asked for the mapped name, reported no
    usable name. *)
Theorem unresolved_imports_are_the_unfound_candidates
    (p : project) (out : list string) (imp : string) :
  In imp (unresolved_imports
            (run distribution ast_parse tools p (init v names p out)))
  <-> In imp (fst (discover ast_parse p (init v names p out)))
      /\ imp <> ""
      /\ ~ In imp (std_lib (init v names p out))
      /\ ~ In imp (_find_local_modules p)
      /\ found_for distribution imp = None.
Proof. apply run_unresolved_In. Qed.

End RunAccounts.

Section KeysGrow.
Variables K V X : Type.
Variable eqb : K -> K -> bool.
Hypothesis eqb_eq : forall a b, eqb a b = true <-> a = b.
Variable res : X -> option (K * V).

Lemma dict_set_keeps_key (k k' : K) (v : V) (d : dict K V) :
  In k' (dict_keys d) -> In k' (dict_keys (dict_set eqb k v d)).
Proof.
  intros H. rewrite dict_set_keys.
  destruct (dict_mem eqb k d); [assumption | apply in_app_iff; now left].
Qed.

Lemma dict_set_has_key (k : K) (v : V) (d : dict K V) :
  In k (dict_keys (dict_set eqb k v d)).
Proof.
  rewrite dict_set_keys. destruct (dict_mem eqb k d) eqn:E.
  - now apply (proj1 (dict_mem_In eqb eqb_eq k d)).
  - apply in_app_iff. right. now left.
Qed.

Lemma record_keeps_key (l : list X) (k : K) :
  forall d, In k (dict_keys d) -> In k (dict_keys (fold_left (record_new eqb res) l d)).
Proof.
  induction l as [|x l IH]; intros d H; simpl; [assumption|].
  apply IH. unfold record_new. destruct (res x) as [[k' v']|]; [|assumption].
  unfold dict_add_new. destruct (dict_mem eqb k' d); [assumption|].
  now apply dict_set_keeps_key.
Qed.

(** A key for which something is found is a key afterwards. *)
Lemma record_found (l : list X) (x : X) (k : K) (v : V) :
  In x l -> res x = Some (k, v) ->
  forall d, In k (dict_keys (fold_left (record_new eqb res) l d)).
Proof.
  induction l as [|y l IH]; intros Hx Hr d; [destruct Hx|].
  destruct Hx as [->|Hx]; [|now apply IH].
  simpl. apply record_keeps_key. unfold record_new. rewrite Hr.
  unfold dict_add_new. destruct (dict_mem eqb k d) eqn:E.
  - now apply (proj1 (dict_mem_In eqb eqb_eq k d)).
  - apply dict_set_has_key.
Qed.

End KeysGrow.

Section RunLists.
Import Ast Fs Metadata FirstEdition.
Variable v : nat * nat.
Variable names : list string.
Variable distribution : index.
Variable ast_parse : string -> result node.
Variable tools : list string.

Lemma check_tool_keeps_key (s : state) (tool k : string) :
  In k (dict_keys (final_requirements s)) ->
  In k (dict_keys (final_requirements (check_tool distribution s tool))).
Proof.
  intros H. destruct (check_tool_spec distribution s tool) as [_ [_ [_ ->]]].
  destruct (dict_mem String.eqb tool (final_requirements s)); [assumption|].
  destruct (reports distribution tool) as [[name ver]|]; [|assumption].
  now apply dict_set_keeps_key.
Qed.

Lemma fold_check_tool_keeps_key (l : list string) (k : string) :
  forall s,
    In k (dict_keys (final_requirements s)) ->
    In k (dict_keys (final_requirements (fold_left (check_tool distribution) l s))).
Proof.
  induction l as [|tool l IH]; intros s H; simpl; [assumption|].
  apply IH. now apply check_tool_keeps_key.
Qed.

Lemma fold_check_tool_lists (l : list string) (tool name : string) (ver : option string) :
  In tool l -> reports distribution tool = Some (name, ver) ->
  forall s,
    In tool (dict_keys (final_requirements (fold_left (check_tool distribution) l s)))
    \/ In name (dict_keys (final_requirements (fold_left (check_tool distribution) l s))).
Proof.
  induction l as [|t l IH]; intros Hin Hr s; [destruct Hin|].
  destruct Hin as [->|Hin]; [|now apply IH].
  simpl.
  destruct (check_tool_spec distribution s tool) as [_ [_ [_ E]]].
  destruct (dict_mem String.eqb tool (final_requirements s)) eqn:M.
  - left. apply fold_check_tool_keeps_key. rewrite E.
    now apply (proj1 (dict_mem_In String.eqb String.eqb_eq tool (final_requirements s))).
  - right. apply fold_check_tool_keeps_key. rewrite E, Hr.
    apply dict_set_has_key, String.eqb_eq.
Qed.

(** The generator after the loop of step 3, as [resolve_spec] gives it. *)
Lemma run_steps (p : project) (out : list string) :
  exists s3,
    run distribution ast_parse tools p (init v names p out)
    = fold_left (check_tool distribution) tools s3
    /\ std_lib s3 = std_lib (init v names p out)
    /\ local_modules s3 = _find_local_modules p
    /\ queries s3
       = map pypi_name_to_check
           (sorted_str (filter (keep_import (snd (discover ast_parse p (init v names p out))))
                          (fst (discover ast_parse p (init v names p out)))))
    /\ final_requirements s3
       = fold_left (record_new String.eqb (found_for distribution))
           (sorted_str (filter (keep_import (snd (discover ast_parse p (init v names p out))))
                          (fst (discover ast_parse p (init v names p out)))))
           [].
Proof.
  destruct (discover_spec ast_parse p (init v names p out)) as [_ [D1 [D2 [D3 D4]]]].
  destruct (init_spec v names p out) as [I1 [I2 I3]].
  destruct (resolve_spec distribution tools
              (fst (discover ast_parse p (init v names p out)))
              (snd (discover ast_parse p (init v names p out))))
    as [s3 [R [R1 [R2 [R3 R4]]]]].
  exists s3. rewrite run_unfold, R, R1, R2, R3, R4, D1, D2, D3, D4, I1, I2, I3.
  repeat split; reflexivity.
Qed.

(** Every candidate that passes the filter is accounted for: the name that
    the index reports for it is a key of the final mapping, or the candidate
    is in the unresolved set. *)
Theorem every_candidate_is_listed_or_reported_unresolved
    (p : project) (out : list string) (imp : string) :
  In imp (fst (discover ast_parse p (init v names p out))) ->
  imp <> "" ->
  ~ In imp (std_lib (init v names p out)) ->
  ~ In imp (_find_local_modules p) ->
  (exists name ver,
     found_for distribution imp = Some (name, ver)
     /\ In name (dict_keys (final_requirements
                              (run distribution ast_parse tools p (init v names p out)))))
  \/ (found_for distribution imp = None
      /\ In imp (unresolved_imports
                   (run distribution ast_parse tools p (init v names p out)))).
Proof.
  intros Hd Hne Hstd Hloc.
  assert (In imp (filter (keep_import (snd (discover ast_parse p (init v names p out))))
                    (fst (discover ast_parse p (init v names p out))))) as Hc.
  { apply candidates_In. tauto. }
  destruct (found_for distribution imp) as [[name ver]|] eqn:F.
  - left. exists name, ver. split; [reflexivity|].
    destruct (run_steps p out) as [s3 [-> [_ [_ [_ E]]]]].
    apply fold_check_tool_keeps_key. rewrite E.
    eapply record_found; [apply String.eqb_eq | | exact F].
    unfold sorted_str. now rewrite sorted_In.
  - right. split; [reflexivity|].
    apply run_unresolved_In. tauto.
Qed.

(** A known tool for which the index reports a name is never left out: the
    tool's own name or the reported name is a key of the final mapping, and
    when the index reports the tool under its own name, that name is a key. *)
Theorem installed_tools_are_listed
    (p : project) (out : list string) (tool name : string) (ver : option string) :
  In tool tools ->
  reports distribution tool = Some (name, ver) ->
  (In tool (dict_keys (final_requirements
                         (run distribution ast_parse tools p (init v names p out))))
   \/ In name (dict_keys (final_requirements
                            (run distribution ast_parse tools p (init v names p out)))))
  /\ (name = tool ->
      In tool (dict_keys (final_requirements
                            (run distribution ast_parse tools p (init v names p out))))).
Proof.
  intros Hin Hr.
  destruct (run_steps p out) as [s3 [-> _]].
  pose proof (@fold_check_tool_lists tools tool name ver Hin Hr s3) as H.
  split; [exact H|]. intros ->. tauto.
Qed.

End RunLists.

(** ** The inferential variant: parsing the answer *)

Section AnswerFacts.
Import Fs Metadata GeminiWay.

Lemma potential_packages_In (gemini_output pkg : string) :
  In pkg (potential_packages gemini_output)
  <-> exists piece,
        In piece (str_split "," (strip gemini_output))
        /\ strip piece <> "" /\ pkg = strip piece.
Proof.
  unfold potential_packages. rewrite in_map_iff. split.
  - intros [piece [E H]]. apply filter_In in H. destruct H as [H T].
    apply truthy_true in T. exists piece. now subst.
  - intros [piece [H [T ->]]]. exists piece. split; [reflexivity|].
    apply filter_In. split; [exact H | now apply truthy_true].
Qed.

Lemma potential_packages_not_empty (gemini_output pkg : string) :
  In pkg (potential_packages gemini_output) -> pkg <> "".
Proof.
  intros H. apply potential_packages_In in H.
  destruct H as [piece [_ [Hne ->]]]. exact Hne.
Qed.

(** Every name read from the answer is non-empty, has no blank at either end
    and holds no comma. *)
Theorem potential_packages_are_clean (gemini_output pkg : string) :
  In pkg (potential_packages gemini_output) -> clean_name pkg.
Proof.
  intros H. apply potential_packages_In in H.
  destruct H as [piece [Hp [Hne ->]]].
  split; [exact Hne|]. split; [apply strip_strip|].
  destruct (str_contains "," (strip piece)) eqn:C; [|reflexivity].
  apply strip_contains in C.
  pose proof (str_split_no_sep "," (strip gemini_output)) as F.
  rewrite Forall_forall in F. now rewrite (F piece Hp) in C.
Qed.

Lemma clean_head (x : string) :
  clean_name x -> exists c t, x = String c t /\ is_space c = false.
Proof.
  intros [Hne [Hs _]].
  pose proof (lstrip_strip x) as L. rewrite Hs in L.
  destruct (lstrip_head x) as [E|[c [t [E H]]]]; rewrite L in E.
  - contradiction.
  - now exists c, t.
Qed.

Lemma join_cons2 (sep x y : string) (l : list string) :
  join sep (x :: y :: l) = (x ++ sep ++ join sep (y :: l))%string.
Proof. reflexivity. Qed.

Lemma append_assoc (a b c : string) : (a ++ (b ++ c) = (a ++ b) ++ c)%string.
Proof. induction a as [|x a IH]; simpl; [reflexivity | now rewrite IH]. Qed.

Lemma join_clean_not_empty (l : list string) :
  l <> [] -> Forall clean_name l -> join "," l <> "".
Proof.
  intros Hne F. destruct l as [|x l]; [contradiction|].
  inversion F as [|? ? Hx _]; subst.
  destruct (clean_head Hx) as [c [t [-> _]]].
  unfold join. simpl. destruct l; discriminate.
Qed.

Lemma rstrip_join_clean (l : list string) :
  l <> [] -> Forall clean_name l -> rstrip (join "," l) = join "," l.
Proof.
  induction l as [|x l IH]; intros Hne F; [contradiction|].
  inversion F as [|? ? Hx Hl]; subst.
  destruct l as [|y l].
  - unfold join. simpl. destruct Hx as [_ [Hs _]].
    pose proof (rstrip_strip x) as R. now rewrite Hs in R.
  - rewrite join_cons2, append_assoc.
    apply rstrip_app.
    + apply join_clean_not_empty; [discriminate | exact Hl].
    + apply IH; [discriminate | exact Hl].
Qed.

Lemma strip_join_clean (l : list string) :
  l <> [] -> Forall clean_name l -> strip (join "," l) = join "," l.
Proof.
  intros Hne F. unfold strip.
  assert (lstrip (join "," l) = join "," l) as ->.
  { destruct l as [|x l]; [contradiction|].
    inversion F as [|? ? Hx _]; subst.
    destruct (clean_head Hx) as [c [t [-> Hc]]].
    unfold join. simpl. destruct l; simpl; now rewrite Hc. }
  now apply rstrip_join_clean.
Qed.

Lemma split_join_clean (l : list string) :
  l <> [] -> Forall clean_name l -> str_split "," (join "," l) = l.
Proof.
  induction l as [|x l IH]; intros Hne F; [contradiction|].
  inversion F as [|? ? Hx Hl]; subst.
  destruct l as [|y l].
  - unfold join. simpl. apply str_split_whole. apply Hx.
  - rewrite join_cons2. change ("," ++ join "," (y :: l))%string
      with (String "," (join "," (y :: l))).
    rewrite str_split_app by apply Hx.
    f_equal. apply IH; [discriminate | exact Hl].
Qed.

(** Reading back a comma-separated list of clean names gives the list. *)
Theorem potential_packages_of_joined_names (l : list string) :
  l <> [] -> Forall clean_name l -> potential_packages (join "," l) = l.
Proof.
  intros Hne F. unfold potential_packages.
  rewrite strip_join_clean, split_join_clean by assumption.
  clear Hne. induction F as [|x l Hx Hl IH]; simpl; [reflexivity|].
  destruct Hx as [Hne [Hs _]]. rewrite Hs.
  apply truthy_true in Hne. rewrite Hne. simpl. now rewrite Hs, IH.
Qed.

End AnswerFacts.

(** ** The inferential variant: how a run ends *)

Section GeminiEnds.
Import Fs Metadata GeminiWay.

Lemma str_items_None (d : dict (option string) (option string)) :
  str_items d = None <-> In None (dict_keys d).
Proof.
  induction d as [|[[k|] ver] d IH]; simpl.
  - split; [discriminate | tauto].
  - destruct (str_items d) as [rest|].
    + split; [discriminate|]. intros [H|H]; [discriminate|].
      apply IH in H. discriminate.
    + split; [|reflexivity]. intros _. right. now apply IH.
  - split; [|reflexivity]. intros _. now left.
Qed.

Lemma str_items_In (d : dict (option string) (option string))
    (items : dict string (option string)) (k : string) (ver : option string) :
  str_items d = Some items -> (In (k, ver) items <-> In (Some k, ver) d).
Proof.
  revert items. induction d as [|[[k'|] ver'] d IH]; intros items; simpl.
  - intros [= <-]. tauto.
  - destruct (str_items d) as [rest|]; [|discriminate].
    intros [= <-]. simpl. rewrite (IH rest eq_refl).
    split; intros [H|H]; try tauto; left; congruence.
  - discriminate.
Qed.

(** [write_file] when a key is [None]. *)
Lemma write_file_raises (output_file : string) (s : state) (disk : dict string string) :
  str_items (final_requirements s) = None ->
  snd (write_file output_file s disk)
  = Some (AttributeError "'NoneType' object has no attribute 'lower'")
  /\ snd (fst (write_file output_file s disk))
     = dict_set String.eqb output_file header disk.
Proof.
  intros H. unfold write_file.
  change (final_requirements (print _ (print _ s))) with (final_requirements s).
  rewrite H. split; reflexivity.
Qed.

Variable distribution : index.
Variable generate_content : string -> result string.

(** The mapping built from an answer does not depend on what else the
    generator holds, as long as it starts without requirements. *)
Lemma parse_from_empty (gemini_output : string) (s : state) :
  final_requirements s = [] ->
  final_requirements (_parse_and_resolve_versions distribution gemini_output s)
  = gemini_requirements distribution gemini_output.
Proof.
  intros H. unfold gemini_requirements.
  rewrite !parse_and_resolve_versions_final, H. reflexivity.
Qed.

(** A run whose ingestion succeeds and whose service call returns goes on to
    [write_file] with the mapping built from the answer. *)
Lemma run_after_answer (p : project) (s : state) (disk : dict string string)
    (text : string) :
  final_requirements s = [] ->
  code_files p <> [] ->
  generate_content (prompt (join (nl ++ nl) (code_files p))) = Ok text ->
  exists s2,
    run distribution generate_content p s disk = write_file "requirements.txt" s2 disk
    /\ final_requirements s2 = gemini_requirements distribution text
    /\ exists s1,
         s2 = _parse_and_resolve_versions distribution text s1
         /\ final_requirements s1 = [].
Proof.
  intros Hs Hcode Hans. unfold run.
  pose proof (proj2 (ingest_project_code_spec p s) Hcode) as [E [Ecode Efinal]].
  destruct (_ingest_project_code p s) as [s1 o].
  cbn [fst snd] in E, Ecode, Efinal. subst o.
  unfold _get_packages_from_gemini.
  change (project_code (print _ s1)) with (project_code s1).
  rewrite Ecode, Hans.
  eexists. split; [reflexivity|].
  assert (final_requirements (print "   ...Gemini analysis complete."
            (print (nl ++ "Step 2: Asking Gemini to analyze the code... (this may take a moment)")
               s1)) = []) as Hempty.
  { change (final_requirements s1 = []). congruence. }
  split; [now apply parse_from_empty|].
  eexists. split; [reflexivity | exact Hempty].
Qed.

Lemma main_with_key (in_virtualenv : bool) (api_key : option string) (p : project)
    (disk : dict string string) :
  truthy_opt api_key = true ->
  exists s0,
    final_requirements s0 = []
    /\ main distribution generate_content in_virtualenv api_key p disk
       = match run distribution generate_content p s0 disk with
         | (s, disk', None) =>
             {| printed := stdout s; disk_after := disk'; exit_status := 0 |}
         | (s, disk', Some e) =>
             {| printed := fst (handle e (stdout s)); disk_after := disk';
                exit_status := snd (handle e (stdout s)) |}
         end.
Proof.
  intros Hkey. unfold main, init. rewrite Hkey.
  match goal with
  | |- context [run distribution generate_content p ?g disk] => exists g
  end.
  split; [reflexivity|].
  match goal with
  | |- context [run distribution generate_content p ?g disk] =>
      destruct (run distribution generate_content p g disk) as [[s disk'] [e|]]
  end; [destruct (handle e (stdout s)) | ]; reflexivity.
Qed.

(** Without the credential the run ends at once: status 1, the error and the
    hint on the screen, nothing ingested and the disk as it was, whatever the
    project and the service. *)
Theorem missing_credential_aborts_before_ingestion
    (in_virtualenv : bool) (api_key : option string) (p : project)
    (disk : dict string string) :
  truthy_opt api_key = false ->
  exit_status (main distribution generate_content in_virtualenv api_key p disk) = 1
  /\ disk_after (main distribution generate_content in_virtualenv api_key p disk) = disk
  /\ In "Error: GOOGLE_API_KEY environment variable not set."
        (printed (main distribution generate_content in_virtualenv api_key p disk))
  /\ ~ In "Step 1: Ingesting project source code..."
         (printed (main distribution generate_content in_virtualenv api_key p disk)).
Proof.
  intros Hkey. unfold main, init. rewrite Hkey.
  cbn [handle exit_status disk_after printed].
  repeat split.
  - apply in_app_iff. right. now left.
  - destruct in_virtualenv; simpl; intuition discriminate.
Qed.

(** A failing service call ends the run with status 1 and its message on the
    screen; the manifest is not written. *)
Theorem service_error_aborts_without_manifest
    (in_virtualenv : bool) (api_key : option string) (p : project)
    (disk : dict string string) (e : string) :
  truthy_opt api_key = true ->
  finds_source p ->
  generate_content (prompt (join (nl ++ nl) (code_files p))) = Raise e ->
  exit_status (main distribution generate_content in_virtualenv api_key p disk) = 1
  /\ disk_after (main distribution generate_content in_virtualenv api_key p disk) = disk
  /\ In ("   - Error: An error occurred with the Gemini API: " ++ e)%string
        (printed (main distribution generate_content in_virtualenv api_key p disk)).
Proof.
  intros Hkey Hsrc Hans.
  assert (code_files p <> []) as Hcode.
  { intros E. apply code_files_nil in E. contradiction. }
  destruct (main_with_key in_virtualenv api_key p disk Hkey) as [s0 [H0 ->]].
  unfold run.
  pose proof (proj2 (ingest_project_code_spec p s0) Hcode) as [E [Ecode _]].
  destruct (_ingest_project_code p s0) as [s1 o].
  cbn [fst snd] in E, Ecode. subst o.
  unfold _get_packages_from_gemini.
  change (project_code (print _ s1)) with (project_code s1).
  rewrite Ecode, Hans.
  cbn [handle fst snd exit_status disk_after printed].
  repeat split. cbn [stdout print]. apply in_app_iff. right. now left.
Qed.

End GeminiEnds.

Section GeminiManifests.
Import Fs Metadata GeminiWay.
Variable distribution : index.
Variable generate_content : string -> result string.

Lemma gemini_requirements_unfold (text : string) :
  gemini_requirements distribution text
  = if truthy text
    then fold_left (record_new key_eqb (found_for distribution))
           (sorted_str (potential_packages text)) []
    else [].
Proof.
  unfold gemini_requirements. now rewrite parse_and_resolve_versions_final.
Qed.

Lemma potential_packages_truthy (text pkg : string) :
  In pkg (potential_packages text) -> truthy text = true.
Proof.
  destruct text; [intros [] | reflexivity].
Qed.

(** The outcome of [main] once the service has answered. *)
Lemma main_after_answer (in_virtualenv : bool) (api_key : option string) (p : project)
    (disk : dict string string) (text : string) :
  truthy_opt api_key = true ->
  finds_source p ->
  generate_content (prompt (join (nl ++ nl) (code_files p))) = Ok text ->
  exists s1,
    final_requirements s1 = []
    /\ main distribution generate_content in_virtualenv api_key p disk
       = match write_file "requirements.txt"
                 (_parse_and_resolve_versions distribution text s1) disk with
         | (s, disk', None) =>
             {| printed := stdout s; disk_after := disk'; exit_status := 0 |}
         | (s, disk', Some e) =>
             {| printed := fst (handle e (stdout s)); disk_after := disk';
                exit_status := snd (handle e (stdout s)) |}
         end.
Proof.
  intros Hkey Hsrc Hans.
  assert (code_files p <> []) as Hcode.
  { intros E. apply code_files_nil in E. contradiction. }
  destruct (main_with_key distribution generate_content in_virtualenv api_key p disk Hkey)
    as [s0 [H0 ->]].
  destruct (run_after_answer distribution generate_content p s0 disk H0 Hcode Hans)
    as [s2 [-> [_ [s1 [-> H1]]]]].
  exists s1. split; [exact H1 | reflexivity].
Qed.

(** When the index finds a named package whose metadata has no [Name], the
    run ends with status 1 after the manifest has been opened: the file holds
    the header alone, whatever it held before and whatever else was
    resolved. *)
Theorem nameless_distribution_truncates_the_manifest
    (in_virtualenv : bool) (api_key : option string) (p : project)
    (disk : dict string string) (text pkg : string) (ver : option string) :
  truthy_opt api_key = true ->
  finds_source p ->
  generate_content (prompt (join (nl ++ nl) (code_files p))) = Ok text ->
  In pkg (potential_packages text) ->
  found_for distribution pkg = Some (None, ver) ->
  exit_status (main distribution generate_content in_virtualenv api_key p disk) = 1
  /\ disk_after (main distribution generate_content in_virtualenv api_key p disk)
     = dict_set String.eqb "requirements.txt" header disk
  /\ In "An unexpected error occurred: 'NoneType' object has no attribute 'lower'"
        (printed (main distribution generate_content in_virtualenv api_key p disk)).
Proof.
  intros Hkey Hsrc Hans Hpkg Hfound.
  destruct (@main_after_answer in_virtualenv api_key p disk text Hkey Hsrc Hans)
    as [s1 [H1 ->]].
  assert (str_items (final_requirements
                       (_parse_and_resolve_versions distribution text s1)) = None) as Hnone.
  { rewrite (parse_from_empty distribution text s1 H1), gemini_requirements_unfold.
    rewrite (potential_packages_truthy text pkg Hpkg).
    apply str_items_None.
    eapply record_found; [apply key_eqb_eq | | exact Hfound].
    unfold sorted_str. now rewrite sorted_In. }
  pose proof (write_file_raises "requirements.txt"
                (_parse_and_resolve_versions distribution text s1) disk Hnone) as [E1 E2].
  destruct (write_file "requirements.txt"
              (_parse_and_resolve_versions distribution text s1) disk) as [[s disk'] o].
  cbn [fst snd] in E1, E2. subst o disk'.
  cbn [handle fst snd exit_status disk_after printed].
  repeat split. apply in_app_iff. right. now left.
Qed.

(** When every reported name is a [str], the run ends with status zero and
    the manifest holds the header and one line per entry of the mapping built
    from the answer; each entry is what the index reported for a package that
    the service named, and every named package for which the index reports a
    name has a line. *)
Theorem answered_run_writes_the_reported_packages
    (in_virtualenv : bool) (api_key : option string) (p : project)
    (disk : dict string string) (text : string) (items : dict string (option string)) :
  truthy_opt api_key = true ->
  finds_source p ->
  generate_content (prompt (join (nl ++ nl) (code_files p))) = Ok text ->
  str_items (gemini_requirements distribution text) = Some items ->
  exit_status (main distribution generate_content in_virtualenv api_key p disk) = 0
  /\ disk_after (main distribution generate_content in_virtualenv api_key p disk)
     = dict_set String.eqb "requirements.txt"
         (header
          ++ String.concat ""
               (map requirement_line (sorted (fun item => lower (fst item)) items)))%string
         disk
  /\ (forall name ver,
        In (name, ver) items ->
        exists pkg,
          In pkg (potential_packages text)
          /\ found_for distribution pkg = Some (Some name, ver))
  /\ (forall pkg name ver,
        In pkg (potential_packages text) ->
        found_for distribution pkg = Some (Some name, ver) ->
        In name (dict_keys items)).
Proof.
  intros Hkey Hsrc Hans Hitems.
  destruct (@main_after_answer in_virtualenv api_key p disk text Hkey Hsrc Hans)
    as [s1 [H1 ->]].
  assert (str_items (final_requirements
                       (_parse_and_resolve_versions distribution text s1)) = Some items)
    as Hsome.
  { now rewrite (parse_from_empty distribution text s1 H1). }
  pose proof (write_file_spec "requirements.txt"
                (_parse_and_resolve_versions distribution text s1) disk Hsome)
    as [E1 [E2 _]].
  destruct (write_file "requirements.txt"
              (_parse_and_resolve_versions distribution text s1) disk) as [[s disk'] o].
  cbn [fst snd] in E1, E2. subst o disk'.
  cbn [exit_status disk_after].
  split; [reflexivity|]. split; [reflexivity|]. split.
  - intros name ver Hin.
    apply (str_items_In _ name ver Hitems) in Hin.
    rewrite gemini_requirements_unfold in Hin.
    destruct (truthy text); [|destruct Hin].
    apply record_In in Hin; [|apply key_eqb_eq].
    destruct Hin as [[]|[pkg [Hpkg Hf]]].
    exists pkg. unfold sorted_str in Hpkg. rewrite sorted_In in Hpkg. tauto.
  - intros pkg name ver Hpkg Hf.
    assert (In (Some name) (dict_keys (gemini_requirements distribution text))) as Hk.
    { rewrite gemini_requirements_unfold, (potential_packages_truthy text pkg Hpkg).
      eapply record_found; [apply key_eqb_eq | | exact Hf].
      unfold sorted_str. now rewrite sorted_In. }
    unfold dict_keys in *. apply in_map_iff in Hk.
    destruct Hk as [[k ver'] [Ek Hin]]. simpl in Ek. subst k.
    apply (str_items_In _ name ver' Hitems) in Hin.
    apply in_map_iff. now exists (name, ver').
Qed.

(** An answer that is not empty but names nothing (blanks and commas only)
    gives the header-only manifest and status zero like the empty answer, but
    without the warning: the line of step 3 is followed at once by the lines
    of [write_file]. *)
Theorem blank_answer_writes_header_without_warning
    (in_virtualenv : bool) (api_key : option string) (p : project)
    (disk : dict string string) (text : string) :
  truthy_opt api_key = true ->
  finds_source p ->
  generate_content (prompt (join (nl ++ nl) (code_files p))) = Ok text ->
  text <> "" ->
  potential_packages text = [] ->
  exit_status (main distribution generate_content in_virtualenv api_key p disk) = 0
  /\ disk_after (main distribution generate_content in_virtualenv api_key p disk)
     = dict_set String.eqb "requirements.txt" header disk
  /\ exists before,
       printed (main distribution generate_content in_virtualenv api_key p disk)
       = before
         ++ [ (nl ++ "Step 3: Resolving package versions from your environment...")%string;
              repeat_str "-" 60;
              "Writing 0 packages to 'requirements.txt'...";
              stdout_success "requirements.txt" ].
Proof.
  intros Hkey Hsrc Hans Hne Hnone.
  destruct (@main_after_answer in_virtualenv api_key p disk text Hkey Hsrc Hans)
    as [s1 [H1 ->]].
  apply truthy_true in Hne.
  assert (_parse_and_resolve_versions distribution text s1
          = print (nl ++ "Step 3: Resolving package versions from your environment...") s1)
    as ->.
  { unfold _parse_and_resolve_versions. now rewrite Hne, Hnone. }
  assert (str_items (final_requirements
                       (print (nl ++ "Step 3: Resolving package versions from your environment...")
                          s1)) = Some []) as Hsome.
  { change (str_items (final_requirements s1) = Some []). now rewrite H1. }
  pose proof (write_file_spec "requirements.txt" _ disk Hsome) as [E1 [E2 E3]].
  destruct (write_file "requirements.txt"
              (print (nl ++ "Step 3: Resolving package versions from your environment...") s1)
              disk) as [[s disk'] o].
  cbn [fst snd] in E1, E2, E3. subst o disk'.
  cbn [exit_status disk_after printed].
  split; [reflexivity|]. split; [reflexivity|].
  exists (stdout s1). rewrite E3.
  change (final_requirements (print _ s1)) with (final_requirements s1).
  rewrite H1. cbn [stdout print]. rewrite <- app_assoc. reflexivity.
Qed.

End GeminiManifests.

(** ** The syntactic variant: the settings scan *)

Section SettingsScan.
Import Ast Fs Metadata FirstEdition.

Lemma scan_elts_spec (elts : list node) :
  forall found,
    (forall x,
       In x (fst (scan_elts elts found)) ->
       In x found \/ exists c, In (Constant (CStr c)) elts /\ x = first_segment c)
    /\ (forall x, In x found -> In x (fst (scan_elts elts found)))
    /\ (snd (scan_elts elts found) = None ->
        forall c, In (Constant (CStr c)) elts ->
                  In (first_segment c) (fst (scan_elts elts found))).
Proof.
  induction elts as [|elt elts IH]; intros found.
  - simpl. repeat split; try tauto; intros _ c [].
  - assert (forall found',
              scan_elts (elt :: elts) found = scan_elts elts found' ->
              (forall x, In x found' -> In x found
                                        \/ exists c, elt = Constant (CStr c)
                                                     /\ x = first_segment c) ->
              (forall x, In x found -> In x found') ->
              (forall c, elt = Constant (CStr c) -> In (first_segment c) found') ->
              (forall x,
                 In x (fst (scan_elts (elt :: elts) found)) ->
                 In x found
                 \/ exists c, In (Constant (CStr c)) (elt :: elts) /\ x = first_segment c)
              /\ (forall x, In x found -> In x (fst (scan_elts (elt :: elts) found)))
              /\ (snd (scan_elts (elt :: elts) found) = None ->
                  forall c, In (Constant (CStr c)) (elt :: elts) ->
                            In (first_segment c) (fst (scan_elts (elt :: elts) found))))
      as Hstep.
    { intros found' -> Hs Hm Hc. destruct (IH found') as [S [M C]]. repeat split.
      - intros x Hx. apply S in Hx. destruct Hx as [Hx|[c [Hc' E]]].
        + apply Hs in Hx. destruct Hx as [Hx|[c [-> E]]]; [now left|].
          right. exists c. split; [now left | exact E].
        + right. exists c. split; [now right | exact E].
      - intros x Hx. now apply M, Hm.
      - intros Hn c [->|Hin]; [apply M, Hc; reflexivity | now apply C]. }
    destruct elt as [| | | |[s|err]| | |];
      try (apply (Hstep found); [reflexivity | tauto | tauto | discriminate]).
    + apply (Hstep (set_add (first_segment s) found)); [reflexivity | | |].
      * intros x Hx. apply set_add_In in Hx. destruct Hx as [->|Hx]; [|now left].
        right. now exists s.
      * intros x Hx. apply set_add_In. now right.
      * intros c [= ->]. apply set_add_In. now left.
    + simpl. repeat split; [tauto | tauto | discriminate].
Qed.

Lemma scan_targets_spec (targets : list node) (value : node) :
  forall found,
    (forall x,
       In x (fst (scan_targets targets value found)) ->
       In x found
       \/ ((exists target, In target targets /\ is_settings_target target = true)
           /\ exists c, settings_value value c /\ x = first_segment c))
    /\ (forall x, In x found -> In x (fst (scan_targets targets value found)))
    /\ (snd (scan_targets targets value found) = None ->
        (exists target, In target targets /\ is_settings_target target = true) ->
        forall c, settings_value value c ->
                  In (first_segment c) (fst (scan_targets targets value found))).
Proof.
  induction targets as [|target targets IH]; intros found.
  - simpl. repeat split; try tauto; intros _ [t [[] _]].
  - simpl. destruct (is_settings_target target) eqn:T.
    + assert (forall elts,
                (value = List_ elts \/ value = Tuple elts) ->
                match scan_elts elts found with
                | (found', None) => scan_targets targets value found'
                | raised => raised
                end = match value with
                      | List_ elts | Tuple elts =>
                          match scan_elts elts found with
                          | (found', None) => scan_targets targets value found'
                          | raised => raised
                          end
                      | _ => scan_targets targets value found
                      end) as Hval.
      { intros elts [->| ->]; reflexivity. }
      assert ((exists elts, value = List_ elts \/ value = Tuple elts)
              \/ (forall c, ~ settings_value value c)
                 /\ match value with
                    | List_ elts | Tuple elts =>
                        match scan_elts elts found with
                        | (found', None) => scan_targets targets value found'
                        | raised => raised
                        end
                    | _ => scan_targets targets value found
                    end = scan_targets targets value found) as [[elts Hv]|[Hno ->]].
      { destruct value; try (right; split; [intros c [elts [[E|E] _]]; discriminate
                                           | reflexivity]).
        - left. eexists. left. reflexivity.
        - left. eexists. right. reflexivity. }
      * rewrite <- (Hval elts Hv).
        destruct (scan_elts_spec elts found) as [S [M C]].
        destruct (scan_elts elts found) as [found' [err|]] eqn:E; cbn [fst snd] in *.
        -- repeat split; [|exact M|discriminate].
           intros x Hx. apply S in Hx. destruct Hx as [Hx|[c [Hc Ex]]]; [now left|].
           right. split; [exists target; split; [now left | exact T]|].
           exists c. split; [now exists elts | exact Ex].
        -- destruct (IH found') as [S' [M' C']]. repeat split.
           ++ intros x Hx. apply S' in Hx. destruct Hx as [Hx|[[t [Ht Ht']] Hc]].
              ** apply S in Hx. destruct Hx as [Hx|[c [Hc Ex]]]; [now left|].
                 right. split; [exists target; split; [now left | exact T]|].
                 exists c. split; [now exists elts | exact Ex].
              ** right. split; [exists t; split; [now right | exact Ht']| exact Hc].
           ++ intros x Hx. now apply M', M.
           ++ intros Hn _ c [elts' [Hv' Hc]].
              apply M', (C eq_refl).
              destruct Hv as [->| ->], Hv' as [[= <-]|[= <-]]; exact Hc.
      * destruct (IH found) as [S [M C]]. repeat split.
        -- intros x Hx. apply S in Hx. destruct Hx as [Hx|[[t [Ht Ht']] Hc]]; [now left|].
           right. split; [exists t; split; [now right | exact Ht'] | exact Hc].
        -- exact M.
        -- intros _ _ c Hc. exfalso. now apply (Hno c).
    + destruct (IH found) as [S [M C]]. repeat split.
      * intros x Hx. apply S in Hx. destruct Hx as [Hx|[[t [Ht Ht']] Hc]]; [now left|].
        right. split; [exists t; split; [now right | exact Ht'] | exact Hc].
      * exact M.
      * intros Hn [t [[<-|Ht] Ht']] c Hc; [congruence|].
        apply C; [exact Hn | now exists t | exact Hc].
Qed.

Lemma scan_settings_nodes_spec (nodes : list node) :
  forall found,
    (forall x,
       In x (fst (scan_settings_nodes nodes found)) ->
       In x found
       \/ exists n c, In n nodes /\ settings_node n c /\ x = first_segment c)
    /\ (forall x, In x found -> In x (fst (scan_settings_nodes nodes found)))
    /\ (snd (scan_settings_nodes nodes found) = None ->
        forall n c, In n nodes -> settings_node n c ->
                    In (first_segment c) (fst (scan_settings_nodes nodes found))).
Proof.
  induction nodes as [|n nodes IH]; intros found.
  - simpl. repeat split; try tauto; intros _ n c [].
  - assert (scan_settings_nodes (n :: nodes) found = scan_settings_nodes nodes found ->
            (forall c, ~ settings_node n c) ->
            (forall x,
               In x (fst (scan_settings_nodes (n :: nodes) found)) ->
               In x found
               \/ exists n' c, In n' (n :: nodes) /\ settings_node n' c
                               /\ x = first_segment c)
            /\ (forall x, In x found -> In x (fst (scan_settings_nodes (n :: nodes) found)))
            /\ (snd (scan_settings_nodes (n :: nodes) found) = None ->
                forall n' c, In n' (n :: nodes) -> settings_node n' c ->
                             In (first_segment c)
                                (fst (scan_settings_nodes (n :: nodes) found)))) as Hskip.
    { intros -> Hno. destruct (IH found) as [S [M C]]. repeat split.
      - intros x Hx. apply S in Hx. destruct Hx as [Hx|[n' [c [Hn' H]]]]; [now left|].
        right. exists n', c. split; [now right | exact H].
      - exact M.
      - intros Hn n' c [<-|Hin] Hs; [exfalso; now apply (Hno c) | now apply (C Hn n' c)]. }
    destruct n as [| |targets value| | | | |];
      try (apply Hskip; [reflexivity | intros c []]).
    simpl.
    destruct (scan_targets_spec targets value found) as [S [M C]].
    destruct (scan_targets targets value found) as [found' [err|]] eqn:E; cbn [fst snd] in *.
    + repeat split; [|exact M|discriminate].
      intros x Hx. apply S in Hx. destruct Hx as [Hx|[Ht [c [Hc Ex]]]]; [now left|].
      right. exists (Assign targets value), c. split; [now left|]. now split.
    + destruct (IH found') as [S' [M' C']]. repeat split.
      * intros x Hx. apply S' in Hx. destruct Hx as [Hx|[n' [c [Hn' H]]]].
        -- apply S in Hx. destruct Hx as [Hx|[Ht [c [Hc Ex]]]]; [now left|].
           right. exists (Assign targets value), c. split; [now left|]. now split.
        -- right. exists n', c. split; [now right | exact H].
      * intros x Hx. now apply M', M.
      * intros Hn n' c [<-|Hin] Hs.
        -- destruct Hs as [Ht Hc]. apply M'. now apply (C eq_refl Ht c).
        -- now apply (C' Hn n' c).
Qed.

End SettingsScan.

Section SettingsScanRun.
Import Ast Fs Metadata FirstEdition.
Variable ast_parse : string -> result node.

Lemma scan_settings_file_names (e : walk_entry) (s : state) (x : string) :
  In x (fst (scan_settings_file ast_parse e s)) ->
  exists text tree c,
    read_file "settings.py" (entry e) = Ok text
    /\ ast_parse text = Ok tree
    /\ settings_entry tree c
    /\ x = first_segment c.
Proof.
  unfold scan_settings_file.
  destruct (read_file "settings.py" (entry e)) as [text|]; [|intros []].
  destruct (ast_parse text) as [tree|] eqn:P; [|intros []].
  destruct (scan_settings_nodes_spec (walk tree) []) as [S _].
  intros Hx.
  assert (In x (fst (scan_settings_nodes (walk tree) []))) as Hx'.
  { destruct (scan_settings_nodes (walk tree) []) as [found [err|]]; exact Hx. }
  apply S in Hx'. destruct Hx' as [[]|[n [c [Hn [Hs E]]]]].
  exists text, tree, c. repeat split; try assumption.
  exists n. split; [now apply walk_subnode | exact Hs].
Qed.

(** The settings scan reads one file at most, the [settings.py] of the first
    directory of the walk that holds one below a directory with a
    [manage.py]. Without such a directory it returns nothing and prints
    nothing. Every name it returns is the first dotted segment of a string
    listed by an assignment to [INSTALLED_APPS] or [MIDDLEWARE] in that file;
    when the scan of the file raises nothing it returns all of them and
    prints nothing; a file that cannot be read or parsed gives no name and
    one warning. *)
Theorem settings_scan_reads_the_first_settings_file (p : project) (s : state) :
  (find is_settings_dir (os_walk (fun _ => true) (root_dir p) (above_root p) (root p))
   = None ->
   _scan_django_settings ast_parse p s = ([], s))
  /\ (forall x,
        In x (fst (_scan_django_settings ast_parse p s)) ->
        exists e text tree c,
          find is_settings_dir (os_walk (fun _ => true) (root_dir p) (above_root p) (root p))
          = Some e
          /\ read_file "settings.py" (entry e) = Ok text
          /\ ast_parse text = Ok tree
          /\ settings_entry tree c
          /\ x = first_segment c)
  /\ (forall e text tree,
        find is_settings_dir (os_walk (fun _ => true) (root_dir p) (above_root p) (root p))
        = Some e ->
        read_file "settings.py" (entry e) = Ok text ->
        ast_parse text = Ok tree ->
        snd (scan_settings_nodes (walk tree) []) = None ->
        snd (_scan_django_settings ast_parse p s) = s
        /\ forall c, settings_entry tree c ->
                     In (first_segment c) (fst (_scan_django_settings ast_parse p s)))
  /\ (forall e err,
        find is_settings_dir (os_walk (fun _ => true) (root_dir p) (above_root p) (root p))
        = Some e ->
        (read_file "settings.py" (entry e) = Raise err
         \/ exists text, read_file "settings.py" (entry e) = Ok text
                         /\ ast_parse text = Raise err) ->
        _scan_django_settings ast_parse p s
        = ([], print ("Warning: Could not parse Django settings file at "
                      ++ path_str (path_join (dirpath e) "settings.py") ++ ": " ++ err) s)).
Proof.
  unfold _scan_django_settings.
  destruct (find is_settings_dir
              (os_walk (fun _ => true) (root_dir p) (above_root p) (root p))) as [e|].
  - split; [discriminate|]. split; [|split].
    + intros x Hx. apply scan_settings_file_names in Hx.
      destruct Hx as [text [tree [c H]]]. exists e, text, tree, c. tauto.
    + intros e' text tree [= <-] Hr Hp Hn.
      unfold scan_settings_file. rewrite Hr, Hp.
      destruct (scan_settings_nodes_spec (walk tree) []) as [_ [_ C]].
      destruct (scan_settings_nodes (walk tree) []) as [found [err|]];
        cbn [fst snd] in *; [discriminate|].
      split; [reflexivity|].
      intros c [n [Hsub Hs]]. apply (C eq_refl n c); [now apply walk_subnode | exact Hs].
    + intros e' err [= <-] [Hr|[text [Hr Hp]]]; unfold scan_settings_file.
      * now rewrite Hr.
      * now rewrite Hr, Hp.
  - split; [reflexivity|]. split; [intros x []|]. split.
    + intros e text tree [=].
    + intros e err [=].
Qed.

(** Every name that step 1 discovers is a top-level name: it holds no dot. *)
Theorem discovered_names_hold_no_dot (p : project) (s : state) (x : string) :
  In x (fst (discover ast_parse p s)) -> str_contains "." x = false.
Proof.
  intros H. destruct (discover_spec ast_parse p s) as [E _]. rewrite E in H.
  apply set_update_In in H. destruct H as [H|H].
  - apply scan_python_files_In in H.
    destruct H as [e [f [text [tree [_ [_ [_ [_ [_ [n [_ Hn]]]]]]]]]]].
    destruct n as [names'|[m|] [|level]| | | | | |]; simpl in Hn; try contradiction.
    + destruct Hn as [alias [_ ->]]. apply first_segment_no_dot.
    + destruct Hn as [_ ->]. apply first_segment_no_dot.
  - unfold _scan_django_settings in H.
    destruct (find is_settings_dir _) as [e|]; [|destruct H].
    apply scan_settings_file_names in H.
    destruct H as [text [tree [c [_ [_ [_ ->]]]]]]. apply first_segment_no_dot.
Qed.

End SettingsScanRun.

(** ** Both variants: the directories that the walks enter *)

Section PrunedWalk.
Import Fs.

Lemma visits_kept_path (keep : string -> bool) (top : path) (parent : list string)
    (d : dir) (e : walk_entry) :
  visits keep top parent d e ->
  exists rel, dirpath e = top ++ rel /\ Forall (fun c => keep c = true) rel.
Proof.
  induction 1 as [top parent d|top parent d name c e Hc K Hv IH].
  - exists []. simpl. rewrite app_nil_r. split; [reflexivity | constructor].
  - destruct IH as [rel [E F]]. exists (name :: rel).
    unfold path_join in E. rewrite <- app_assoc in E. simpl in E.
    split; [exact E | now constructor].
Qed.

(** Neither the source scan nor the ingestion enters a directory named in
    [exclude_dirs]: the path of every directory they read, taken below the
    root, holds no such name. *)
Theorem excluded_directories_are_never_entered (p : project) (e : walk_entry) :
  (In e (os_walk FirstEdition.scan_keep (root_dir p) (above_root p) (root p)) ->
   exists rel,
     dirpath e = root_dir p ++ rel
     /\ forall c, In c rel -> ~ In c FirstEdition.exclude_dirs)
  /\ (In e (os_walk GeminiWay.ingest_keep (root_dir p) (above_root p) (root p)) ->
      exists rel,
        dirpath e = root_dir p ++ rel
        /\ forall c, In c rel -> ~ In c GeminiWay.exclude_dirs).
Proof.
  split; intros H; apply os_walk_visits, visits_kept_path in H;
    destruct H as [rel [E F]]; exists rel; (split; [exact E|]);
    rewrite Forall_forall in F; intros c Hc Hx; specialize (F c Hc).
  - unfold FirstEdition.scan_keep in F. apply negb_true_iff, mem_false in F. contradiction.
  - unfold GeminiWay.ingest_keep in F. apply negb_true_iff, mem_false in F. contradiction.
Qed.

End PrunedWalk.

(** ** The exclusion sets and the names passed to the index *)

Section Lookups.
Import Ast Fs Metadata.

Lemma mapped_name_not_empty (m : dict string string) (imp : string) :
  forallb (fun kv => negb (snd kv =? "")) m = true ->
  imp <> "" ->
  match dict_get String.eqb imp m with
  | Some name => name
  | None => imp
  end <> "".
Proof.
  intros Hall Hne. destruct (dict_get String.eqb imp m) as [name|] eqn:E; [|exact Hne].
  apply dict_get_In in E; [|apply String.eqb_eq].
  rewrite forallb_forall in Hall. specialize (Hall _ E). simpl in Hall.
  now apply negb_true_iff, String.eqb_neq in Hall.
Qed.

Variable distribution : index.

Lemma first_edition_write_file_sets (output_file : string) (s : FirstEdition.state)
    (disk : dict string string) :
  FirstEdition.std_lib (fst (FirstEdition.write_file output_file s disk))
  = FirstEdition.std_lib s
  /\ FirstEdition.local_modules (fst (FirstEdition.write_file output_file s disk))
     = FirstEdition.local_modules s.
Proof.
  unfold FirstEdition.write_file.
  match goal with
  | |- context [match ?u with [] => _ | _ :: _ => _ end] => destruct u
  end; split; reflexivity.
Qed.

(** The two exclusion sets are computed when the generator is built and no
    later step changes them: [run] returns them as it got them, and at the
    end of [main] the local-module set is still the one that
    [_find_local_modules] found. *)
Theorem exclusion_sets_are_never_changed
    (v : nat * nat) (names : list string) (ast_parse : string -> result node)
    (tools : list string) (sys_prefix : string) (p : project)
    (s : FirstEdition.state) (disk : dict string string) :
  FirstEdition.std_lib (FirstEdition.run distribution ast_parse tools p s)
  = FirstEdition.std_lib s
  /\ FirstEdition.local_modules (FirstEdition.run distribution ast_parse tools p s)
     = FirstEdition.local_modules s
  /\ FirstEdition.local_modules
       (FirstEdition.final
          (FirstEdition.main v names distribution ast_parse tools sys_prefix p disk))
     = FirstEdition._find_local_modules p.
Proof.
  assert (forall s0,
            FirstEdition.std_lib (FirstEdition.run distribution ast_parse tools p s0)
            = FirstEdition.std_lib s0
            /\ FirstEdition.local_modules
                 (FirstEdition.run distribution ast_parse tools p s0)
               = FirstEdition.local_modules s0) as Hrun.
  { intros s0. rewrite run_unfold.
    destruct (resolve_spec distribution tools
                (fst (FirstEdition.discover ast_parse p s0))
                (snd (FirstEdition.discover ast_parse p s0)))
      as [s3 [-> [R1 [R2 _]]]].
    destruct (fold_check_tool_spec distribution tools s3) as [-> [-> _]].
    destruct (discover_spec ast_parse p s0) as [_ [D1 [D2 _]]].
    split; congruence. }
  split; [apply Hrun|]. split; [apply Hrun|].
  unfold FirstEdition.main.
  match goal with
  | |- context [FirstEdition.write_file ?f ?g ?d] =>
      pose proof (first_edition_write_file_sets f g d) as [_ W];
      destruct (FirstEdition.write_file f g d) as [g' disk']
  end.
  cbn [fst] in W. cbn [FirstEdition.final FirstEdition.print FirstEdition.local_modules].
  rewrite W. rewrite (proj2 (Hrun _)). apply init_local_modules.
Qed.

(** The metadata index is never asked for the empty name, in either variant:
    a candidate passes the filter or is read from the answer only when it is
    not empty, the static maps hold no empty value, and no known tool has an
    empty name. *)
Theorem index_is_never_asked_for_the_empty_name
    (v : nat * nat) (names : list string) (ast_parse : string -> result node)
    (tools : list string) (p : project) (out : list string)
    (gemini_output : string) (q : string) :
  (incl tools FirstEdition.KNOWN_CLI_AND_CONFIG_TOOLS ->
   In q (FirstEdition.queries
           (FirstEdition.run distribution ast_parse tools p
              (FirstEdition.init v names p out))) ->
   q <> "")
  /\ (In q (GeminiWay.queries
              (GeminiWay._parse_and_resolve_versions distribution gemini_output
                 gemini_blank)) ->
      q <> "").
Proof.
  split.
  - intros Htools Hq.
    destruct (run_steps v names distribution ast_parse tools p out)
      as [s3 [E [_ [_ [Q _]]]]].
    rewrite E in Hq.
    destruct (fold_check_tool_spec distribution tools s3) as [_ [_ [[looked [L I]] _]]].
    rewrite L, Q in Hq. apply in_app_iff in Hq. destruct Hq as [Hq|Hq].
    + apply in_map_iff in Hq. destruct Hq as [imp [<- Himp]].
      unfold sorted_str in Himp. rewrite sorted_In in Himp.
      apply filter_In in Himp. destruct Himp as [_ K].
      apply keep_import_true in K.
      apply mapped_name_not_empty; [reflexivity | tauto].
    + apply I, Htools in Hq. intros ->. simpl in Hq. intuition discriminate.
  - unfold GeminiWay._parse_and_resolve_versions.
    destruct (truthy gemini_output); [|intros []].
    match goal with
    | |- context [fold_left (GeminiWay.resolve_package distribution) ?l ?s0] =>
        destruct (fold_resolve_package_spec distribution l s0) as [_ [-> _]]
    end.
    cbn [GeminiWay.queries GeminiWay.print gemini_blank app].
    intros Hq. apply in_map_iff in Hq. destruct Hq as [pkg [<- Hpkg]].
    unfold sorted_str in Hpkg. rewrite sorted_In in Hpkg.
    apply potential_packages_not_empty in Hpkg.
    apply mapped_name_not_empty; [reflexivity | exact Hpkg].
Qed.

End Lookups.

(** ** The order of the manifest *)

Section Stable.
Variable A : Type.
Variable key : A -> string.

Lemma insert_filter (k : string) (x : A) (l : list A) :
  filter (fun y => key y =? k) (insert key x l)
  = filter (fun y => key y =? k) (x :: l).
Proof.
  induction l as [|y l IH]; [reflexivity|].
  simpl insert. destruct (key x <=? key y)%string eqn:L; [reflexivity|].
  simpl. simpl in IH. rewrite IH.
  destruct (key x =? k) eqn:Ex, (key y =? k) eqn:Ey; try reflexivity.
  apply String.eqb_eq in Ex, Ey. rewrite Ex, Ey, leb_refl in L. discriminate.
Qed.

Lemma sorted_is_stable_filter (k : string) (l : list A) :
  filter (fun y => key y =? k) (sorted key l) = filter (fun y => key y =? k) l.
Proof.
  induction l as [|x l IH]; [reflexivity|].
  simpl sorted. rewrite insert_filter. simpl. now rewrite IH.
Qed.

(** [sorted] is stable: the entries with one and the same key keep the order
    they had, and the result is a sorted rearrangement of the list. In the
    manifest, requirements whose names differ in case only stay in the order
    in which they were recorded. *)
Theorem sorted_is_stable (k : string) (l : list A) :
  filter (fun y => key y =? k) (sorted key l) = filter (fun y => key y =? k) l
  /\ Permutation (sorted key l) l
  /\ StronglySorted (key_le key) (sorted key l).
Proof.
  split; [apply sorted_is_stable_filter|].
  split; [apply sorted_Permutation | apply sorted_StronglySorted].
Qed.

End Stable.

(** ** The known-tools pass *)

Section ToolPass.
Import Metadata FirstEdition.
Variable distribution : index.

(** A known tool whose own name is a key is passed over without a lookup.
    Any other tool is looked up under its own name, and the name that the
    index reports for it gets the tool's version, whatever version that name
    had been given before; the keys that were there stay. *)
Theorem known_tool_overwrites_the_reported_name (s : state) (tool : string) :
  (In tool (dict_keys (final_requirements s)) -> check_tool distribution s tool = s)
  /\ (~ In tool (dict_keys (final_requirements s)) ->
      queries (check_tool distribution s tool) = queries s ++ [tool]
      /\ (forall name ver,
            reports distribution tool = Some (name, ver) ->
            dict_get String.eqb name (final_requirements (check_tool distribution s tool))
            = Some ver)
      /\ (reports distribution tool = None ->
          final_requirements (check_tool distribution s tool) = final_requirements s))
  /\ (forall k,
        In k (dict_keys (final_requirements s)) ->
        In k (dict_keys (final_requirements (check_tool distribution s tool)))).
Proof.
  split; [|split].
  - intros H. apply (proj2 (dict_mem_In String.eqb String.eqb_eq _ _)) in H.
    unfold check_tool. now rewrite H.
  - intros H. apply (proj2 (dict_mem_false String.eqb String.eqb_eq _ _)) in H.
    unfold check_tool, _get_package_info, reports. rewrite H.
    destruct (distribution tool) as [d|]; simpl.
    + destruct (metadata_Name d) as [name|]; simpl.
      * destruct (truthy name); simpl; (split; [reflexivity|]); split;
          try discriminate; try reflexivity.
        intros name' ver [= <- <-].
        apply dict_get_set_same, String.eqb_eq.
      * split; [reflexivity|]. split; [discriminate | reflexivity].
    + split; [reflexivity|]. split; [discriminate | reflexivity].
  - intros k. apply check_tool_keeps_key.
Qed.

End ToolPass.

(** ** [ast.walk] and [str.endswith] *)

Section WalkLength.
Import Ast.

Lemma walk_queue_length (fuel : nat) :
  forall todo,
    list_sum (map size todo) <= fuel ->
    length (walk_queue fuel todo) = list_sum (map size todo).
Proof.
  induction fuel as [|fuel IH]; intros todo Hfuel.
  - destruct todo as [|t rest]; [reflexivity|].
    simpl in Hfuel. rewrite (size_children t) in Hfuel. lia.
  - destruct todo as [|t rest]; [reflexivity|].
    simpl in *. rewrite (size_children t) in *.
    rewrite IH; rewrite map_app, list_sum_app; lia.
Qed.

(** [ast.walk] yields as many nodes as the tree has: the queue loop ends
    within its bound and yields every node once. *)
Theorem walk_yields_every_node_once (tree : node) :
  length (walk tree) = size tree
  /\ forall n, In n (walk tree) <-> subnode n tree.
Proof.
  split; [|intros n; apply walk_subnode].
  unfold walk. rewrite walk_queue_length; simpl; lia.
Qed.

End WalkLength.

Section Endswith.

Lemma length_append (a b : string) :
  String.length (a ++ b) = String.length a + String.length b.
Proof. induction a as [|c a IH]; simpl; [reflexivity | now rewrite IH]. Qed.

Lemma substring_whole (s : string) : substring 0 (String.length s) s = s.
Proof. induction s as [|c s IH]; simpl; [reflexivity | now rewrite IH]. Qed.

Lemma substring_append (a b : string) :
  substring (String.length a) (String.length b) (a ++ b) = b.
Proof. induction a as [|c a IH]; simpl; [apply substring_whole | exact IH]. Qed.

Lemma substring_split (k : nat) :
  forall s, k <= String.length s ->
            s = (substring 0 k s ++ substring k (String.length s - k) s)%string.
Proof.
  induction k as [|k IH]; intros s Hk.
  - rewrite Nat.sub_0_r, substring_whole. now destruct s.
  - destruct s as [|c s]; simpl in *; [lia|].
    f_equal. apply IH. lia.
Qed.

(** [endswith] holds exactly when the string is some text followed by the
    suffix; so a file is scanned or ingested exactly when its name is some
    text followed by [.py]. *)
Theorem endswith_spec (s suffix : string) :
  endswith s suffix = true <-> exists before, s = (before ++ suffix)%string.
Proof.
  unfold endswith. rewrite andb_true_iff, Nat.leb_le, String.eqb_eq. split.
  - intros [Hle Hsub].
    remember (String.length s - String.length suffix) as k eqn:Hk.
    exists (substring 0 k s).
    assert (k <= String.length s) as Hk' by lia.
    pose proof (substring_split s Hk') as E.
    replace (String.length s - k) with (String.length suffix) in E by lia.
    now rewrite Hsub in E.
  - intros [before ->]. rewrite length_append. split; [lia|].
    replace (String.length before + String.length suffix - String.length suffix)
      with (String.length before) by lia.
    apply substring_append.
Qed.

End Endswith.

(** ** The inferential variant: what is sent to the service *)

Section Ingested.
Import Fs Metadata GeminiWay.

Lemma skipn_prefix (A : Type) (a b : list A) : skipn (length a) (a ++ b) = b.
Proof. induction a as [|x a IH]; simpl; [reflexivity | exact IH]. Qed.

Lemma relpath_below (root_dir rel : path) (name : string) :
  relpath root_dir (path_join (root_dir ++ rel) name) = join "/" (rel ++ [name]).
Proof.
  unfold relpath, path_join. now rewrite <- app_assoc, skipn_prefix.
Qed.

(** The blocks of source text that go into the prompt are exactly those of
    the readable files whose name ends in [.py] and is not [gemini_reqs.py]
    or [requirements.txt], in the directories that the pruned walk reaches;
    each block is the text of the file under a header with its path relative
    to the root. The loop collects these blocks whatever the generator holds,
    and the ingested project code is the blocks joined by blank lines. *)
Theorem service_receives_the_readable_sources (p : project) (s : state) (block : string) :
  (In block (code_files p)
   <-> exists e rel name text,
         In e (os_walk ingest_keep (root_dir p) (above_root p) (root p))
         /\ dirpath e = root_dir p ++ rel
         /\ In (name, Ok text) (files (entry e))
         /\ endswith name ".py" = true
         /\ ~ In name exclude_files
         /\ block = ("--- FILE: " ++ join "/" (rel ++ [name]) ++ " ---"
                     ++ nl ++ nl ++ text)%string)
  /\ fst (collect_code_files p s) = code_files p
  /\ (code_files p <> [] ->
      project_code (fst (_ingest_project_code p s)) = join (nl ++ nl) (code_files p)).
Proof.
  split; [|split].
  - unfold code_files. rewrite in_flat_map. split.
    + intros [e [He Hb]]. apply in_flat_map in Hb. destruct Hb as [[name content] [Hf Hb]].
      unfold code_file in Hb. cbn [fst snd] in Hb.
      destruct (endswith name ".py") eqn:Hpy; [|destruct Hb].
      destruct (mem name exclude_files) eqn:Hex; [destruct Hb|].
      destruct content as [text|]; [|destruct Hb].
      destruct Hb as [<-|[]].
      pose proof He as Hv. apply os_walk_visits, visits_kept_path in Hv.
      destruct Hv as [rel [E _]].
      exists e, rel, name, text. rewrite E at 2. rewrite relpath_below.
      apply mem_false in Hex. repeat split; assumption.
    + intros [e [rel [name [text [He [E [Hf [Hpy [Hex ->]]]]]]]]].
      exists e. split; [exact He|]. apply in_flat_map.
      exists (name, Ok text). split; [exact Hf|].
      unfold code_file. cbn [fst snd]. apply mem_false in Hex.
      rewrite Hpy, Hex, E, relpath_below. now left.
  - apply collect_code_files_spec.
  - intros H. apply (proj2 (ingest_project_code_spec p s) H).
Qed.

End Ingested.

(** ** The iteration order of the known tools *)

Section StableUnique.
Variable A : Type.
Variable key : A -> string.

Lemma all_equal_Permutation (l l' : list A) :
  Permutation l l' -> (forall x y, In x l -> In y l -> x = y) -> l = l'.
Proof.
  induction 1 as [|x l l' H IH|x y l|l l' l'' H1 IH1 H2 IH2]; intros Heq.
  - reflexivity.
  - f_equal. apply IH. intros a b Ha Hb. apply Heq; now right.
  - rewrite (Heq x y); [reflexivity | right; now left | now left].
  - rewrite <- IH2; [now apply IH1|].
    rewrite <- (IH1 Heq). exact Heq.
Qed.

(** A sorted list is determined by its members and, key by key, by the order
    of the members that share the key. *)
Lemma stable_sorted_unique (l1 : list A) :
  forall l2,
    StronglySorted (key_le key) l1 ->
    StronglySorted (key_le key) l2 ->
    Permutation l1 l2 ->
    (forall k, filter (fun y => key y =? k) l1 = filter (fun y => key y =? k) l2) ->
    l1 = l2.
Proof.
  induction l1 as [|x l1 IH]; intros l2 S1 S2 P F.
  - apply Permutation_nil in P. now subst.
  - destruct l2 as [|y l2]; [symmetry in P; now apply Permutation_nil_cons in P|].
    inversion S1 as [|? ? S1' F1]; subst. inversion S2 as [|? ? S2' F2]; subst.
    rewrite Forall_forall in F1, F2.
    assert (key x = key y) as Hk.
    { apply String.leb_antisym.
      - assert (In y (x :: l1)) as [->|Hy]
            by (eapply Permutation_in; [symmetry; exact P | now left]).
        + apply leb_refl.
        + apply (F1 y Hy).
      - assert (In x (y :: l2)) as [->|Hx]
            by (eapply Permutation_in; [exact P | now left]).
        + apply leb_refl.
        + apply (F2 x Hx). }
    assert (x = y) as ->.
    { pose proof (F (key x)) as E. simpl in E.
      rewrite <- Hk, String.eqb_refl in E. now injection E. }
    f_equal. apply IH; try assumption.
    + now apply Permutation_cons_inv in P.
    + intros k. pose proof (F k) as E. simpl in E.
      destruct (key y =? k); [now injection E | exact E].
Qed.

(** Sorting does not see the order of a tail whose members have keys of their
    own. *)
Lemma sorted_app_Permutation (a l l' : list A) :
  Permutation l l' ->
  (forall x y, In x l -> In y l -> key x = key y -> x = y) ->
  sorted key (a ++ l) = sorted key (a ++ l').
Proof.
  intros P D. apply stable_sorted_unique.
  - apply sorted_StronglySorted.
  - apply sorted_StronglySorted.
  - rewrite !sorted_Permutation. now apply Permutation_app_head.
  - intros k. rewrite !sorted_is_stable_filter, !filter_app. f_equal.
    apply all_equal_Permutation; [now apply filter_Permutation|].
    intros x y Hx Hy. apply filter_In in Hx, Hy.
    destruct Hx as [Hx Kx], Hy as [Hy Ky].
    apply String.eqb_eq in Kx, Ky. apply D; congruence.
Qed.

End StableUnique.

Section ToolOrder.
Import Metadata FirstEdition.
Variable distribution : index.

Lemma dict_set_fresh (k : string) (ver : option string) (d : dict string (option string)) :
  dict_mem String.eqb k d = false -> dict_set String.eqb k ver d = d ++ [(k, ver)].
Proof.
  unfold dict_mem. induction d as [|[k' v'] d IH]; simpl; [reflexivity|].
  destruct (k =? k')%string; [discriminate|].
  intros H. now rewrite IH.
Qed.

Lemma dict_mem_app_other (k k' : string) (ver : option string)
    (d : dict string (option string)) :
  k <> k' -> dict_mem String.eqb k (d ++ [(k', ver)]) = dict_mem String.eqb k d.
Proof.
  intros Hne. unfold dict_mem. induction d as [|[k0 v0] d IH]; simpl.
  - apply String.eqb_neq in Hne. now rewrite Hne.
  - destruct (k =? k0)%string; [reflexivity | exact IH].
Qed.

Lemma tool_entries_other (tools : list string) (k : string) (ver : option string)
    (reqs : dict string (option string)) :
  ~ In k tools ->
  tool_entries distribution (reqs ++ [(k, ver)]) tools = tool_entries distribution reqs tools.
Proof.
  intros Hk. unfold tool_entries. induction tools as [|t tools IH]; [reflexivity|].
  simpl. rewrite dict_mem_app_other by (intros ->; apply Hk; now left).
  f_equal. apply IH. intros H. apply Hk. now right.
Qed.

(** When every tool is reported under its own name, the pass appends the
    entries of the tools that are new, in the order of the iteration. *)
Lemma fold_check_tool_appends (tools : list string) :
  NoDup tools ->
  (forall tool name ver,
     In tool tools -> reports distribution tool = Some (name, ver) -> name = tool) ->
  forall s,
    final_requirements (fold_left (check_tool distribution) tools s)
    = final_requirements s ++ tool_entries distribution (final_requirements s) tools.
Proof.
  induction tools as [|tool tools IH]; intros Hnd Hown s.
  - simpl. now rewrite app_nil_r.
  - inversion Hnd as [|? ? Hnot Hnd']; subst.
    simpl fold_left. rewrite IH; [|exact Hnd'|intros t n v Ht; apply Hown; now right].
    destruct (check_tool_spec distribution s tool) as [_ [_ [_ ->]]].
    unfold tool_entries at 2. simpl flat_map. fold (tool_entries distribution).
    destruct (dict_mem String.eqb tool (final_requirements s)) eqn:M; [reflexivity|].
    destruct (reports distribution tool) as [[name ver]|] eqn:R; [|reflexivity].
    assert (name = tool) as -> by (eapply Hown; [now left | exact R]).
    rewrite (dict_set_fresh tool ver (final_requirements s) M).
    rewrite tool_entries_other by exact Hnot.
    now rewrite <- app_assoc.
Qed.

Lemma tool_entries_In (reqs : dict string (option string)) (tools : list string)
    (name : string) (ver : option string) :
  In (name, ver) (tool_entries distribution reqs tools) ->
  exists tool, In tool tools /\ reports distribution tool = Some (name, ver).
Proof.
  unfold tool_entries. rewrite in_flat_map. intros [tool [Ht H]].
  exists tool. split; [exact Ht|].
  destruct (dict_mem String.eqb tool reqs); [destruct H|].
  destruct (reports distribution tool) as [entry|]; [|destruct H].
  destruct H as [->|[]]. reflexivity.
Qed.

Lemma fold_check_tool_order (tools tools' : list string) (s : state) :
  Permutation tools tools' ->
  NoDup tools ->
  (forall tool name ver,
     In tool tools -> reports distribution tool = Some (name, ver) -> name = tool) ->
  (forall t t', In t tools -> In t' tools -> lower t = lower t' -> t = t') ->
  manifest (final_requirements (fold_left (check_tool distribution) tools s))
  = manifest (final_requirements (fold_left (check_tool distribution) tools' s)).
Proof.
  intros P Hnd Hown Hcase.
  rewrite (fold_check_tool_appends Hnd Hown).
  rewrite (@fold_check_tool_appends tools').
  - unfold manifest. do 3 f_equal.
    apply sorted_app_Permutation.
    + unfold tool_entries. now apply Permutation_flat_map.
    + intros [n1 v1] [n2 v2] H1 H2 Hk. simpl in Hk.
      apply tool_entries_In in H1, H2.
      destruct H1 as [t1 [Ht1 R1]], H2 as [t2 [Ht2 R2]].
      assert (n1 = t1) by (eapply Hown; eauto).
      assert (n2 = t2) by (eapply Hown; eauto).
      subst n1 n2.
      assert (t1 = t2) by now apply Hcase.
      subst t2. congruence.
  - eapply Permutation_NoDup; eauto.
  - intros tool name ver Ht. apply Hown. eapply Permutation_in; [symmetry|]; eauto.
Qed.

(** When the index reports every known tool under the tool's own name, and
    no two tools have names that differ in case only, the manifest does not
    depend on the order in which the set of tools is iterated: not after the
    loop of step 4 from any generator, and not at the end of [main]. *)
Theorem tool_order_is_irrelevant_when_tools_report_their_own_names
    (v : nat * nat) (names : list string) (ast_parse : string -> result Ast.node)
    (sys_prefix : string) (p : Fs.project) (disk : dict string string)
    (tools tools' : list string) (s : state) :
  Permutation tools tools' ->
  NoDup tools ->
  (forall tool name ver,
     In tool tools -> reports distribution tool = Some (name, ver) -> name = tool) ->
  (forall t t', In t tools -> In t' tools -> lower t = lower t' -> t = t') ->
  manifest (final_requirements (fold_left (check_tool distribution) tools s))
  = manifest (final_requirements (fold_left (check_tool distribution) tools' s))
  /\ disk_after (main v names distribution ast_parse tools sys_prefix p disk)
     = disk_after (main v names distribution ast_parse tools' sys_prefix p disk).
Proof.
  intros P Hnd Hown Hcase.
  split; [now apply fold_check_tool_order|].
  destruct (first_edition_main_outcome v names distribution ast_parse tools sys_prefix
              p disk) as [_ [out ->]].
  destruct (first_edition_main_outcome v names distribution ast_parse tools' sys_prefix
              p disk) as [_ [out' ->]].
  f_equal.
  destruct (run_final_requirements v names distribution ast_parse tools p out)
    as [s3 [-> E]].
  destruct (run_final_requirements v names distribution ast_parse tools' p out')
    as [s3' [-> E']].
  rewrite (fold_check_tool_final distribution tools' s3' s3).
  - now apply fold_check_tool_order.
  - rewrite E, E'. f_equal. symmetry.
    apply candidates_reorder; [reflexivity | apply reorder_refl | tauto].
Qed.

End ToolOrder.

(** ** Reproducibility of the manifest and the known tools *)

Section ReproducibleRuns.
Import Ast Fs Metadata FirstEdition.
Variable v : nat * nat.
Variable names : list string.
Variable distribution : index.
Variable ast_parse : string -> result node.

Lemma known_tools_NoDup : NoDup KNOWN_CLI_AND_CONFIG_TOOLS.
Proof.
  unfold KNOWN_CLI_AND_CONFIG_TOOLS.
  repeat (constructor; [simpl; intuition discriminate|]).
  constructor.
Qed.

Lemma known_tools_differ_in_more_than_case (t t' : string) :
  In t KNOWN_CLI_AND_CONFIG_TOOLS ->
  In t' KNOWN_CLI_AND_CONFIG_TOOLS ->
  lower t = lower t' -> t = t'.
Proof.
  intros Hin Hin' E.
  unfold KNOWN_CLI_AND_CONFIG_TOOLS in Hin, Hin'. simpl in Hin, Hin'.
  repeat (destruct Hin as [<-|Hin];
          [repeat (destruct Hin' as [<-|Hin'];
                   [first [reflexivity | vm_compute in E; discriminate]|]);
           contradiction|]).
  contradiction.
Qed.

(** C4, as the code has it. Two runs over one tree, in whatever order the
    walk lists its entries and in whatever order each run iterates its sets,
    the set of the known tools included, write the same text to
    [requirements.txt], provided that the settings scan returns the same
    names in both; this for an index that reports every known tool that it
    finds under the tool's own name. *)
Theorem manifest_is_reproducible_up_to_the_settings_scan
    (tools tools' : list string) (sys_prefix sys_prefix' : string) (p p' : project)
    (disk disk' : dict string string) :
  root_dir p = root_dir p' ->
  reorder (root p) (root p') ->
  (forall x, In x (settings_names ast_parse p) <-> In x (settings_names ast_parse p')) ->
  Permutation KNOWN_CLI_AND_CONFIG_TOOLS tools ->
  Permutation KNOWN_CLI_AND_CONFIG_TOOLS tools' ->
  (forall tool name ver,
     In tool KNOWN_CLI_AND_CONFIG_TOOLS ->
     reports distribution tool = Some (name, ver) -> name = tool) ->
  dict_get String.eqb "requirements.txt"
    (disk_after (main v names distribution ast_parse tools sys_prefix p disk))
  = dict_get String.eqb "requirements.txt"
      (disk_after (main v names distribution ast_parse tools' sys_prefix' p' disk')).
Proof.
  intros Hroot Hr Hs P P' Hown.
  destruct (first_edition_main_outcome v names distribution ast_parse tools sys_prefix
              p disk) as [_ [out ->]].
  destruct (first_edition_main_outcome v names distribution ast_parse tools' sys_prefix'
              p' disk') as [_ [out' ->]].
  rewrite !dict_get_set_same by apply String.eqb_eq.
  f_equal.
  destruct (run_final_requirements v names distribution ast_parse tools p out)
    as [s3 [-> E]].
  destruct (run_final_requirements v names distribution ast_parse tools' p' out')
    as [s3' [-> E']].
  rewrite (fold_check_tool_final distribution tools' s3' s3).
  - apply fold_check_tool_order.
    + exact (perm_trans (Permutation_sym P) P').
    + exact (Permutation_NoDup P known_tools_NoDup).
    + intros tool name ver Hin. apply Hown.
      exact (Permutation_in _ (Permutation_sym P) Hin).
    + intros t t' Hin Hin'. apply known_tools_differ_in_more_than_case.
      * exact (Permutation_in _ (Permutation_sym P) Hin).
      * exact (Permutation_in _ (Permutation_sym P) Hin').
  - rewrite E, E'. f_equal. symmetry. now apply candidates_reorder.
Qed.

End ReproducibleRuns.

(** ** The outcome of a run of the inferential variant *)

Section Outcomes.
Import Ast Fs Metadata.
Variable distribution : index.
Variable generate_content : string -> result string.

(** The exit status and the disk at the end of [main], case by case. *)
Lemma gemini_main_result (in_virtualenv : bool) (api_key : option string) (p : project)
    (disk : dict string string) :
  (GeminiWay.exit_status
     (GeminiWay.main distribution generate_content in_virtualenv api_key p disk),
   GeminiWay.disk_after
     (GeminiWay.main distribution generate_content in_virtualenv api_key p disk))
  = if truthy_opt api_key then
      match GeminiWay.code_files p with
      | [] => (1, disk)
      | _ :: _ =>
          match generate_content
                  (GeminiWay.prompt (join (nl ++ nl) (GeminiWay.code_files p))) with
          | Raise _ => (1, disk)
          | Ok text =>
              match GeminiWay.str_items (gemini_requirements distribution text) with
              | Some items =>
                  (0, dict_set String.eqb "requirements.txt"
                        (GeminiWay.header
                         ++ String.concat ""
                              (map GeminiWay.requirement_line
                                 (sorted (fun item => lower (fst item)) items)))%string
                        disk)
              | None => (1, dict_set String.eqb "requirements.txt" GeminiWay.header disk)
              end
          end
      end
    else (1, disk).
Proof.
  destruct (truthy_opt api_key) eqn:Hkey.
  - destruct (main_with_key distribution generate_content in_virtualenv api_key p disk Hkey)
      as [s0 [H0 ->]].
    destruct (GeminiWay.code_files p) as [|block blocks] eqn:Hfiles.
    + unfold GeminiWay.run.
      pose proof (proj1 (ingest_project_code_spec p s0) Hfiles) as E.
      destruct (GeminiWay._ingest_project_code p s0) as [s1 o].
      cbn [fst snd] in E. subst o. reflexivity.
    + assert (GeminiWay.code_files p <> []) as Hcode by (rewrite Hfiles; discriminate).
      rewrite <- Hfiles.
      destruct (generate_content
                  (GeminiWay.prompt (join (nl ++ nl) (GeminiWay.code_files p))))
        as [text|e] eqn:Hans.
      * destruct (run_after_answer distribution generate_content p s0 disk H0 Hcode Hans)
          as [s2 [-> [E2 _]]].
        rewrite <- E2.
        destruct (GeminiWay.str_items (GeminiWay.final_requirements s2))
          as [items|] eqn:Hitems.
        -- pose proof (write_file_spec "requirements.txt" s2 disk Hitems) as [E [Ed _]].
           destruct (GeminiWay.write_file "requirements.txt" s2 disk) as [[s disk'] o].
           cbn [fst snd] in E, Ed. subst o disk'. reflexivity.
        -- pose proof (write_file_raises "requirements.txt" s2 disk Hitems) as [E Ed].
           destruct (GeminiWay.write_file "requirements.txt" s2 disk) as [[s disk'] o].
           cbn [fst snd] in E, Ed. subst o disk'. reflexivity.
      * unfold GeminiWay.run.
        pose proof (proj2 (ingest_project_code_spec p s0) Hcode) as [E [Ecode _]].
        destruct (GeminiWay._ingest_project_code p s0) as [s1 o].
        cbn [fst snd] in E, Ecode. subst o.
        unfold GeminiWay._get_packages_from_gemini.
        change (GeminiWay.project_code (GeminiWay.print _ s1))
          with (GeminiWay.project_code s1).
        rewrite Ecode, Hans. reflexivity.
  - unfold GeminiWay.main, GeminiWay.init. rewrite Hkey. reflexivity.
Qed.

(** The run of the inferential variant ends with status zero exactly when
    the credential is set, a source file was ingested, the service answered
    and the index reported a name for every package it found; in every other
    case the status is 1. Whatever the outcome, no path but
    [requirements.txt] changes. *)
Theorem inferential_run_succeeds_exactly_when_the_answer_resolves
    (in_virtualenv : bool) (api_key : option string) (p : project)
    (disk : dict string string) :
  (GeminiWay.exit_status
     (GeminiWay.main distribution generate_content in_virtualenv api_key p disk) = 0
   <-> truthy_opt api_key = true
       /\ GeminiWay.code_files p <> []
       /\ exists text,
            generate_content (GeminiWay.prompt (join (nl ++ nl) (GeminiWay.code_files p)))
            = Ok text
            /\ ~ In None (dict_keys (gemini_requirements distribution text)))
  /\ (GeminiWay.exit_status
        (GeminiWay.main distribution generate_content in_virtualenv api_key p disk) = 0
      \/ GeminiWay.exit_status
           (GeminiWay.main distribution generate_content in_virtualenv api_key p disk) = 1)
  /\ (forall other,
        other <> "requirements.txt" ->
        dict_get String.eqb other
          (GeminiWay.disk_after
             (GeminiWay.main distribution generate_content in_virtualenv api_key p disk))
        = dict_get String.eqb other disk).
Proof.
  pose proof (gemini_main_result in_virtualenv api_key p disk) as R.
  assert (forall other content,
            other <> "requirements.txt" ->
            dict_get String.eqb other (dict_set String.eqb "requirements.txt" content disk)
            = dict_get String.eqb other disk) as Hother.
  { intros other content Hne.
    now rewrite dict_get_set_other by (apply String.eqb_eq || exact Hne). }
  destruct (truthy_opt api_key).
  2:{ injection R as -> ->. split; [|split]; [|now right|reflexivity].
      split; [discriminate|]. intros [H _]. discriminate. }
  destruct (GeminiWay.code_files p) as [|block blocks] eqn:Hfiles.
  { injection R as -> ->. split; [|split]; [|now right|reflexivity].
    split; [discriminate|]. intros [_ [H _]]. now contradiction H. }
  destruct (generate_content (GeminiWay.prompt (join (nl ++ nl) (block :: blocks))))
    as [text|e] eqn:Hans.
  2:{ injection R as -> ->. split; [|split]; [|now right|reflexivity].
      split; [discriminate|]. intros [_ [_ [text [H _]]]]. discriminate. }
  destruct (GeminiWay.str_items (gemini_requirements distribution text))
    as [items|] eqn:Hitems.
  - injection R as -> ->. split; [|split]; [|now left|intros; now apply Hother].
    split; [|reflexivity]. intros _.
    split; [reflexivity|]. split; [discriminate|].
    exists text. split; [reflexivity|].
    intros Hnone. apply str_items_None in Hnone. congruence.
  - injection R as -> ->. split; [|split]; [|now right|intros; now apply Hother].
    split; [discriminate|]. intros [_ [_ [text' [E Hno]]]].
    injection E as <-. apply str_items_None in Hitems. contradiction.
Qed.

(** The warnings about the virtual environment change nothing but the
    screen: whatever [sys.prefix] is, the syntactic variant ends with status
    zero and the same files, and whether or not the interpreter runs in a
    virtual environment, the inferential variant ends with the same status
    and the same files. *)
Theorem environment_warnings_change_only_the_screen
    (v : nat * nat) (names : list string) (ast_parse : string -> result node)
    (tools : list string) (sys_prefix sys_prefix' : string)
    (in_virtualenv in_virtualenv' : bool) (api_key : option string) (p : project)
    (disk : dict string string) :
  (FirstEdition.exit_status
     (FirstEdition.main v names distribution ast_parse tools sys_prefix p disk) = 0
   /\ FirstEdition.disk_after
        (FirstEdition.main v names distribution ast_parse tools sys_prefix p disk)
      = FirstEdition.disk_after
          (FirstEdition.main v names distribution ast_parse tools sys_prefix' p disk))
  /\ (GeminiWay.exit_status
        (GeminiWay.main distribution generate_content in_virtualenv api_key p disk)
      = GeminiWay.exit_status
          (GeminiWay.main distribution generate_content in_virtualenv' api_key p disk)
      /\ GeminiWay.disk_after
           (GeminiWay.main distribution generate_content in_virtualenv api_key p disk)
         = GeminiWay.disk_after
             (GeminiWay.main distribution generate_content in_virtualenv' api_key p disk)).
Proof.
  split.
  - destruct (first_edition_main_outcome v names distribution ast_parse tools sys_prefix
                p disk) as [E [out ->]].
    destruct (first_edition_main_outcome v names distribution ast_parse tools sys_prefix'
                p disk) as [_ [out' ->]].
    split; [exact E|]. f_equal. f_equal.
    destruct (run_final_requirements v names distribution ast_parse tools p out)
      as [s3 [-> E3]].
    destruct (run_final_requirements v names distribution ast_parse tools p out')
      as [s3' [-> E3']].
    apply fold_check_tool_final.
    rewrite E3, E3'. f_equal.
    apply candidates_reorder; [reflexivity | apply reorder_refl | tauto].
  - pose proof (gemini_main_result in_virtualenv api_key p disk) as R.
    pose proof (gemini_main_result in_virtualenv' api_key p disk) as R'.
    rewrite <- R' in R. now injection R.
Qed.

End Outcomes.

(** ** The further properties on the sample projects *)

Section FurtherOnSamples.
Import Ast Fs Metadata Samples MoreSamples.

Lemma every_candidate_is_listed_or_reported_unresolved_witness :
  (exists name ver,
     FirstEdition.found_for environment "notarealpackage" = Some (name, ver)
     /\ In name
          (dict_keys
             (FirstEdition.final_requirements
                (FirstEdition.run environment parse_more
                   FirstEdition.KNOWN_CLI_AND_CONFIG_TOOLS unknown_project
                   (FirstEdition.init python stdlib_names unknown_project [])))))
  \/ (FirstEdition.found_for environment "notarealpackage" = None
      /\ In "notarealpackage"
           (FirstEdition.unresolved_imports
              (FirstEdition.run environment parse_more
                 FirstEdition.KNOWN_CLI_AND_CONFIG_TOOLS unknown_project
                 (FirstEdition.init python stdlib_names unknown_project [])))).
Proof.
  apply every_candidate_is_listed_or_reported_unresolved.
  - vm_compute. tauto.
  - discriminate.
  - vm_compute. intuition discriminate.
  - vm_compute. intuition discriminate.
Defined.

Lemma installed_tools_are_listed_witness :
  (In "pytest"
      (dict_keys
         (FirstEdition.final_requirements
            (FirstEdition.run environment_with_pytest parse
               FirstEdition.KNOWN_CLI_AND_CONFIG_TOOLS scenario_project
               (FirstEdition.init python stdlib_names scenario_project []))))
   \/ In "pytest"
        (dict_keys
           (FirstEdition.final_requirements
              (FirstEdition.run environment_with_pytest parse
                 FirstEdition.KNOWN_CLI_AND_CONFIG_TOOLS scenario_project
                 (FirstEdition.init python stdlib_names scenario_project [])))))
  /\ ("pytest" = "pytest" ->
      In "pytest"
         (dict_keys
            (FirstEdition.final_requirements
               (FirstEdition.run environment_with_pytest parse
                  FirstEdition.KNOWN_CLI_AND_CONFIG_TOOLS scenario_project
                  (FirstEdition.init python stdlib_names scenario_project []))))).
Proof.
  apply (@installed_tools_are_listed python stdlib_names environment_with_pytest parse
           FirstEdition.KNOWN_CLI_AND_CONFIG_TOOLS scenario_project [] "pytest" "pytest"
           (Some "8.0.0")).
  - simpl. tauto.
  - reflexivity.
Defined.

Lemma potential_packages_are_clean_witness : clean_name "requests".
Proof.
  apply (@potential_packages_are_clean " requests , bs4 ,,").
  vm_compute. tauto.
Defined.

Lemma potential_packages_of_joined_names_witness :
  GeminiWay.potential_packages (join "," ["requests"; "bs4"]) = ["requests"; "bs4"].
Proof.
  apply potential_packages_of_joined_names.
  - discriminate.
  - repeat constructor; discriminate.
Defined.

Lemma missing_credential_aborts_before_ingestion_witness :
  GeminiWay.exit_status
    (GeminiWay.main environment (answers "requests") false None scenario_project
       [("requirements.txt", "old")]) = 1
  /\ GeminiWay.disk_after
       (GeminiWay.main environment (answers "requests") false None scenario_project
          [("requirements.txt", "old")])
     = [("requirements.txt", "old")]
  /\ In "Error: GOOGLE_API_KEY environment variable not set."
        (GeminiWay.printed
           (GeminiWay.main environment (answers "requests") false None scenario_project
              [("requirements.txt", "old")]))
  /\ ~ In "Step 1: Ingesting project source code..."
         (GeminiWay.printed
            (GeminiWay.main environment (answers "requests") false None scenario_project
               [("requirements.txt", "old")])).
Proof.
  apply missing_credential_aborts_before_ingestion.
  reflexivity.
Defined.

Lemma service_error_aborts_without_manifest_witness :
  GeminiWay.exit_status
    (GeminiWay.main environment unreachable true (Some "key") scenario_project
       [("requirements.txt", "old")]) = 1
  /\ GeminiWay.disk_after
       (GeminiWay.main environment unreachable true (Some "key") scenario_project
          [("requirements.txt", "old")])
     = [("requirements.txt", "old")]
  /\ In ("   - Error: An error occurred with the Gemini API: " ++ "503 unavailable")%string
        (GeminiWay.printed
           (GeminiWay.main environment unreachable true (Some "key") scenario_project
              [("requirements.txt", "old")])).
Proof.
  apply service_error_aborts_without_manifest.
  - reflexivity.
  - exact scenario_project_has_a_source.
  - reflexivity.
Defined.

Lemma nameless_distribution_truncates_the_manifest_witness :
  GeminiWay.exit_status
    (GeminiWay.main environment_with_ghost (answers "requests, ghost") true (Some "key")
       scenario_project [("requirements.txt", "old")]) = 1
  /\ GeminiWay.disk_after
       (GeminiWay.main environment_with_ghost (answers "requests, ghost") true (Some "key")
          scenario_project [("requirements.txt", "old")])
     = dict_set String.eqb "requirements.txt" GeminiWay.header [("requirements.txt", "old")]
  /\ In "An unexpected error occurred: 'NoneType' object has no attribute 'lower'"
        (GeminiWay.printed
           (GeminiWay.main environment_with_ghost (answers "requests, ghost") true
              (Some "key") scenario_project [("requirements.txt", "old")])).
Proof.
  apply (@nameless_distribution_truncates_the_manifest environment_with_ghost
           (answers "requests, ghost") true (Some "key") scenario_project
           [("requirements.txt", "old")] "requests, ghost" "ghost" (Some "1.0")).
  - reflexivity.
  - exact scenario_project_has_a_source.
  - reflexivity.
  - vm_compute. tauto.
  - reflexivity.
Defined.

Lemma answered_run_writes_the_reported_packages_witness :
  GeminiWay.exit_status
    (GeminiWay.main environment (answers "requests, bs4 ,") true (Some "key")
       scenario_project []) = 0
  /\ GeminiWay.disk_after
       (GeminiWay.main environment (answers "requests, bs4 ,") true (Some "key")
          scenario_project [])
     = dict_set String.eqb "requirements.txt"
         (GeminiWay.header
          ++ String.concat ""
               (map GeminiWay.requirement_line
                  (sorted (fun item => lower (fst item))
                     [("beautifulsoup4", Some "4.12.0"); ("requests", Some "2.31.0")])))%string
         []
  /\ (forall name ver,
        In (name, ver) [("beautifulsoup4", Some "4.12.0"); ("requests", Some "2.31.0")] ->
        exists pkg,
          In pkg (GeminiWay.potential_packages "requests, bs4 ,")
          /\ GeminiWay.found_for environment pkg = Some (Some name, ver))
  /\ (forall pkg name ver,
        In pkg (GeminiWay.potential_packages "requests, bs4 ,") ->
        GeminiWay.found_for environment pkg = Some (Some name, ver) ->
        In name (dict_keys [("beautifulsoup4", Some "4.12.0"); ("requests", Some "2.31.0")])).
Proof.
  apply (@answered_run_writes_the_reported_packages environment
           (answers "requests, bs4 ,") true (Some "key") scenario_project []
           "requests, bs4 ,").
  - reflexivity.
  - exact scenario_project_has_a_source.
  - reflexivity.
  - reflexivity.
Defined.

Lemma blank_answer_writes_header_without_warning_witness :
  GeminiWay.exit_status
    (GeminiWay.main environment (answers " , ") true (Some "key") scenario_project []) = 0
  /\ GeminiWay.disk_after
       (GeminiWay.main environment (answers " , ") true (Some "key") scenario_project [])
     = dict_set String.eqb "requirements.txt" GeminiWay.header []
  /\ exists before,
       GeminiWay.printed
         (GeminiWay.main environment (answers " , ") true (Some "key") scenario_project [])
       = before
         ++ [ (nl ++ "Step 3: Resolving package versions from your environment...")%string;
              repeat_str "-" 60;
              "Writing 0 packages to 'requirements.txt'...";
              GeminiWay.stdout_success "requirements.txt" ].
Proof.
  apply (@blank_answer_writes_header_without_warning environment (answers " , ") true
           (Some "key") scenario_project [] " , ").
  - reflexivity.
  - exact scenario_project_has_a_source.
  - reflexivity.
  - discriminate.
  - reflexivity.
Defined.

Lemma settings_scan_reads_the_first_settings_file_witness :
  snd (FirstEdition._scan_django_settings parse (two_sites site_a site_b)
         FirstEdition.blank)
  = FirstEdition.blank
  /\ In "rest_framework"
        (fst (FirstEdition._scan_django_settings parse (two_sites site_a site_b)
                FirstEdition.blank)).
Proof.
  destruct (proj1 (proj2 (proj2
              (settings_scan_reads_the_first_settings_file parse (two_sites site_a site_b)
                 FirstEdition.blank)))
              {| dirpath := ["home"; "app"; "site_a"];
                 parent_listing := ["site_a"; "site_b"; "manage.py"];
                 entry := snd site_a |}
              src_settings_rest
              (Node [Assign [Name "INSTALLED_APPS"]
                       (List_ [Constant (CStr "rest_framework")])]))
    as [Hs Hin].
  - reflexivity.
  - reflexivity.
  - reflexivity.
  - reflexivity.
  - split; [exact Hs|].
    apply (Hin "rest_framework").
    exists (Assign [Name "INSTALLED_APPS"] (List_ [Constant (CStr "rest_framework")])).
    split.
    + eapply subnode_child; [|apply subnode_here]. simpl. tauto.
    + split.
      * exists (Name "INSTALLED_APPS"). split; [simpl; tauto|reflexivity].
      * exists [Constant (CStr "rest_framework")]. split; [tauto|simpl; tauto].
Defined.

Lemma discovered_names_hold_no_dot_witness : str_contains "." "myapp" = false.
Proof.
  apply (@discovered_names_hold_no_dot parse scenario_project FirstEdition.blank "myapp").
  vm_compute. tauto.
Defined.

Lemma excluded_directories_are_never_entered_witness :
  exists rel,
    ["home"; "app"; "myapp"] = (root_dir scenario_project ++ rel)%list
    /\ forall c, In c rel -> ~ In c FirstEdition.exclude_dirs.
Proof.
  apply (proj1 (excluded_directories_are_never_entered scenario_project
                  {| dirpath := ["home"; "app"; "myapp"];
                     parent_listing := ["myapp"; ".venv"; "main.py"];
                     entry := Dir [("__init__.py", Ok ""); ("utils.py", Ok "")] [] |})).
  vm_compute. tauto.
Defined.

Lemma index_is_never_asked_for_the_empty_name_witness : "requests" <> "".
Proof.
  apply (proj1 (@index_is_never_asked_for_the_empty_name environment python stdlib_names
                  parse_more FirstEdition.KNOWN_CLI_AND_CONFIG_TOOLS unknown_project []
                  "" "requests")).
  - apply incl_refl.
  - vm_compute. tauto.
Defined.

Lemma known_tool_overwrites_the_reported_name_witness :
  FirstEdition.check_tool environment_with_pytest with_pytest_listed "pytest"
  = with_pytest_listed.
Proof.
  apply (proj1 (known_tool_overwrites_the_reported_name environment_with_pytest
                  with_pytest_listed "pytest")).
  vm_compute. tauto.
Defined.

Lemma tool_order_is_irrelevant_when_tools_report_their_own_names_witness :
  FirstEdition.manifest
    (FirstEdition.final_requirements
       (fold_left (FirstEdition.check_tool environment_with_pytest)
          FirstEdition.KNOWN_CLI_AND_CONFIG_TOOLS FirstEdition.blank))
  = FirstEdition.manifest
      (FirstEdition.final_requirements
         (fold_left (FirstEdition.check_tool environment_with_pytest)
            (rev FirstEdition.KNOWN_CLI_AND_CONFIG_TOOLS) FirstEdition.blank))
  /\ FirstEdition.disk_after
       (FirstEdition.main python stdlib_names environment_with_pytest parse
          FirstEdition.KNOWN_CLI_AND_CONFIG_TOOLS "/home/app/.venv" scenario_project [])
     = FirstEdition.disk_after
         (FirstEdition.main python stdlib_names environment_with_pytest parse
            (rev FirstEdition.KNOWN_CLI_AND_CONFIG_TOOLS) "/home/app/.venv"
            scenario_project []).
Proof.
  apply tool_order_is_irrelevant_when_tools_report_their_own_names.
  - apply Permutation_rev.
  - unfold FirstEdition.KNOWN_CLI_AND_CONFIG_TOOLS.
    repeat (constructor; [simpl; intuition discriminate|]).
    constructor.
  - intros tool name ver Hin Hr.
    unfold FirstEdition.KNOWN_CLI_AND_CONFIG_TOOLS in Hin. simpl in Hin.
    repeat (destruct Hin as [<-|Hin]; [vm_compute in Hr; congruence|]).
    contradiction.
  - intros t t' Hin Hin' E.
    unfold FirstEdition.KNOWN_CLI_AND_CONFIG_TOOLS in Hin, Hin'. simpl in Hin, Hin'.
    repeat (destruct Hin as [<-|Hin];
            [repeat (destruct Hin' as [<-|Hin'];
                     [first [reflexivity | vm_compute in E; discriminate]|]);
             contradiction|]).
    contradiction.
Defined.

Lemma service_receives_the_readable_sources_witness :
  GeminiWay.project_code
    (fst (GeminiWay._ingest_project_code scenario_project gemini_blank))
  = join (nl ++ nl) (GeminiWay.code_files scenario_project).
Proof.
  apply (proj2 (proj2 (service_receives_the_readable_sources scenario_project gemini_blank
                         ""))).
  vm_compute. discriminate.
Defined.

Lemma manifest_is_reproducible_up_to_the_settings_scan_witness :
  dict_get String.eqb "requirements.txt"
    (FirstEdition.disk_after
       (FirstEdition.main python stdlib_names environment_with_pytest parse
          FirstEdition.KNOWN_CLI_AND_CONFIG_TOOLS "/usr" scenario_project []))
  = dict_get String.eqb "requirements.txt"
      (FirstEdition.disk_after
         (FirstEdition.main python stdlib_names environment_with_pytest parse
            (rev FirstEdition.KNOWN_CLI_AND_CONFIG_TOOLS) "/home/app/.venv"
            scenario_project_relisted [("requirements.txt", "old")])).
Proof.
  apply manifest_is_reproducible_up_to_the_settings_scan.
  - reflexivity.
  - exact scenario_project_reorder.
  - intros x. vm_compute. tauto.
  - apply Permutation_refl.
  - apply Permutation_rev.
  - intros tool name ver Hin Hr.
    unfold FirstEdition.KNOWN_CLI_AND_CONFIG_TOOLS in Hin. simpl in Hin.
    repeat (destruct Hin as [<-|Hin]; [vm_compute in Hr; congruence|]).
    contradiction.
Defined.

(** C2 fails on [run]. The project imports [PIL] and [pillow]; for both the
    index reports [Pillow] in version 10.2.0, and the loop over the candidates
    records it once, for the first of them. The same index finds under the
    known tool [black] a distribution that gives the name [Pillow] and the
    version 9.0. The loop over the known tools tests the tool's name, not the
    reported one, and assigns: the run that iterates no tool ends with
    [Pillow] at 10.2.0, the run over the known tools ends with [Pillow] at
    9.0, and that is the line of the manifest. *)
Theorem known_tool_replaces_the_first_found_version :
  FirstEdition.final_requirements
    (FirstEdition.run environment_with_mislabelled_tool parse_images [] images_project
       (FirstEdition.init python stdlib_names images_project []))
  = [("Pillow", Some "10.2.0")]
  /\ FirstEdition.final_requirements
       (FirstEdition.run environment_with_mislabelled_tool parse_images
          FirstEdition.KNOWN_CLI_AND_CONFIG_TOOLS images_project
          (FirstEdition.init python stdlib_names images_project []))
     = [("Pillow", Some "9.0")]
  /\ FirstEdition.disk_after
       (FirstEdition.main python stdlib_names environment_with_mislabelled_tool
          parse_images FirstEdition.KNOWN_CLI_AND_CONFIG_TOOLS "/usr" images_project [])
     = [("requirements.txt", (FirstEdition.header ++ "Pillow==9.0" ++ nl)%string)].
Proof.
  repeat split; vm_compute; reflexivity.
Qed.

End FurtherOnSamples.
